(** * CDEK delivery proxy: credential cache, carrier client and quote route

    A shallow embedding of [src/cdek/auth.js] (class [CDEKAuth]),
    [src/cdek/api.js] (class [CDEKApiClient]) and the
    [POST /calculate-by-tariff] handler and [formatAddress] helper of
    [src/routes/delivery.js].

    JavaScript values are an inductive type of JSON-like trees, asynchronous
    methods are computations in a state-and-exception monad over a world
    that records the client object, the clock, the console and the trace of
    [fetch] calls.  Strings are kept in UTF-8. *)

From Stdlib Require Import ZArith List String Ascii Bool Lia DecimalString.
Import ListNotations.
Set Warnings "-register-all".
Local Open Scope string_scope.
Local Open Scope Z_scope.
Local Open Scope list_scope.

Infix "+++" := String.append (at level 60, right associativity).

(* ================================================================= *)
(** ** Numbers *)

(** A JavaScript number: [NaN], the two infinities, or a finite value.
    The quantities of this program (epoch milliseconds, location codes,
    grams, centimetres, HTTP statuses) are integers, so finite values are
    carried by [Z]. *)
Inductive number : Type :=
| NaN
| Inf (negative : bool)
| Fin (z : Z).

Definition isNaN (n : number) : bool :=
  match n with NaN => true | _ => false end.

Definition num_neg (n : number) : number :=
  match n with
  | NaN => NaN
  | Inf b => Inf (negb b)
  | Fin z => Fin (- z)
  end.

Definition num_add (a b : number) : number :=
  match a, b with
  | NaN, _ | _, NaN => NaN
  | Inf x, Inf y => if Bool.eqb x y then Inf x else NaN
  | Inf x, Fin _ => Inf x
  | Fin _, Inf y => Inf y
  | Fin x, Fin y => Fin (x + y)
  end.

Definition num_sub (a b : number) : number := num_add a (num_neg b).

Definition num_mul (a b : number) : number :=
  match a, b with
  | NaN, _ | _, NaN => NaN
  | Inf x, Inf y => Inf (xorb x y)
  | Inf x, Fin z | Fin z, Inf x =>
      if z =? 0 then NaN else Inf (xorb x (z <? 0))
  | Fin x, Fin y => Fin (x * y)
  end.

(** [a < b] on numbers; any comparison with [NaN] is false. *)
Definition num_lt (a b : number) : bool :=
  match a, b with
  | NaN, _ | _, NaN => false
  | Inf x, Inf y => x && negb y
  | Inf x, Fin _ => x
  | Fin _, Inf y => negb y
  | Fin x, Fin y => x <? y
  end.

Definition num_eq (a b : number) : bool :=
  match a, b with
  | Fin x, Fin y => x =? y
  | Inf x, Inf y => Bool.eqb x y
  | _, _ => false
  end.

Definition truthy_num (n : number) : bool :=
  match n with
  | NaN => false
  | Inf _ => true
  | Fin z => negb (z =? 0)
  end.

Definition decimal (z : Z) : string := NilZero.string_of_int (Z.to_int z).

(* ================================================================= *)
(** ** Strings *)

Definition byte_of (c : ascii) : N := N_of_ascii c.

Fixpoint includes (hay needle : string) : bool :=
  String.prefix needle hay ||
  match hay with
  | EmptyString => false
  | String _ rest => includes rest needle
  end.

Definition startsWith (s p : string) : bool := String.prefix p s.

Fixpoint rev_string_onto (s acc : string) : string :=
  match s with
  | EmptyString => acc
  | String c rest => rev_string_onto rest (String c acc)
  end.

Definition rev_string (s : string) : string := rev_string_onto s EmptyString.

(** The WhiteSpace and LineTerminator code points stripped by
    [String.prototype.trim], in their UTF-8 encodings:
    U+0009..U+000D and U+0020 (one byte); U+00A0 (two bytes); U+1680,
    U+2000..U+200A, U+2028, U+2029, U+202F, U+205F, U+3000, U+FEFF
    (three bytes). *)
Definition ws1 (c : ascii) : bool :=
  let b := byte_of c in ((9 <=? b) && (b <=? 13) || (b =? 32))%N.

Definition ws2 (c1 c2 : ascii) : bool :=
  ((byte_of c1 =? 194) && (byte_of c2 =? 160))%N.

Definition ws3 (c1 c2 c3 : ascii) : bool :=
  let b1 := byte_of c1 in
  let b2 := byte_of c2 in
  let b3 := byte_of c3 in
  ((b1 =? 225) && (b2 =? 154) && (b3 =? 128)
   || (b1 =? 226) && (b2 =? 128)
      && ((128 <=? b3) && (b3 <=? 138) || (b3 =? 168) || (b3 =? 169) || (b3 =? 175))
   || (b1 =? 226) && (b2 =? 129) && (b3 =? 159)
   || (b1 =? 227) && (b2 =? 128) && (b3 =? 128)
   || (b1 =? 239) && (b2 =? 187) && (b3 =? 191))%N.

Fixpoint trimStart (s : string) : string :=
  match s with
  | EmptyString => s
  | String c1 t1 =>
      if ws1 c1 then trimStart t1
      else
        match t1 with
        | EmptyString => s
        | String c2 t2 =>
            if ws2 c1 c2 then trimStart t2
            else
              match t2 with
              | EmptyString => s
              | String c3 t3 => if ws3 c1 c2 c3 then trimStart t3 else s
              end
        end
  end.

(** The same scan on the reversed string: the bytes of a code point arrive
    last byte first. *)
Fixpoint trimStart_rev (s : string) : string :=
  match s with
  | EmptyString => s
  | String c1 t1 =>
      if ws1 c1 then trimStart_rev t1
      else
        match t1 with
        | EmptyString => s
        | String c2 t2 =>
            if ws2 c2 c1 then trimStart_rev t2
            else
              match t2 with
              | EmptyString => s
              | String c3 t3 => if ws3 c3 c2 c1 then trimStart_rev t3 else s
              end
        end
  end.

Definition trimEnd (s : string) : string :=
  rev_string (trimStart_rev (rev_string s)).

Definition trim (s : string) : string := trimEnd (trimStart s).

Definition is_empty (s : string) : bool :=
  match s with EmptyString => true | _ => false end.

(** [s.length]: UTF-16 code units of the text whose UTF-8 form is [s].
    Every byte that is not a continuation byte starts a code point; a
    four-byte code point takes two code units. *)
Fixpoint utf16_length (s : string) : Z :=
  match s with
  | EmptyString => 0
  | String c rest =>
      let b := byte_of c in
      (if ((b <? 128) || (192 <=? b))%N then 1 else 0)
      + (if (240 <=? b)%N then 1 else 0)
      + utf16_length rest
  end.

(** [s.padStart(2, '0')] *)
Definition padStart2 (s : string) : string :=
  match s with
  | EmptyString => "00"
  | String c EmptyString => String "0"%char s
  | _ => s
  end.

Definition is_digit (c : ascii) : bool :=
  let b := byte_of c in ((48 <=? b) && (b <=? 57))%N.

(** [s.replace(/\.\d{3}/, '')]: the first dot followed by three digits is
    removed together with the digits. *)
Fixpoint strip_millis (s : string) : string :=
  match s with
  | EmptyString => s
  | String c rest =>
      match rest with
      | String d1 (String d2 (String d3 rest')) =>
          if (byte_of c =? 46)%N && is_digit d1 && is_digit d2 && is_digit d3
          then rest'
          else String c (strip_millis rest)
      | _ => String c (strip_millis rest)
      end
  end.

(* ================================================================= *)
(** ** Numbers as strings *)

(** [p] without its [e] lowest bits, with the last bit dropped and
    whether a bit dropped before it was set. *)
Fixpoint drop_bits (e : nat) (p : positive) (last earlier : bool)
  : positive * bool * bool :=
  match e with
  | O => (p, last, earlier)
  | S e' =>
      match p with
      | xI p' => drop_bits e' p' true (last || earlier)
      | xO p' => drop_bits e' p' false (last || earlier)
      | xH => (xH, last, earlier)
      end
  end.

(** The double nearest to the integer [x > 0]: an integer of at most 53
    bits is a double; a longer one keeps its 53 leading bits, rounded to
    nearest, ties to the even significand. *)
Definition nearest_double (x : Z) : Z :=
  match x with
  | Zpos p =>
      let e := (Pos.size_nat p - 53)%nat in
      match drop_bits e p false false with
      | (q, last, earlier) =>
          let up := last && (earlier || Z.odd (Zpos q)) in
          Z.shiftl (if up then Zpos q + 1 else Zpos q) (Z.of_nat e)
      end
  | _ => x
  end.

(** The digits of a numeral, the lowest first. *)
Fixpoint digits_onto (s : string) (acc : list Z) : list Z :=
  match s with
  | EmptyString => acc
  | String c rest => digits_onto rest ((Z.of_N (byte_of c) - 48) :: acc)
  end.

(** The numeral of fewest significant digits that reads back as the double
    [x].  [lo] is [x] with its digits below [u] put to zero, [ds] holds
    the digits from [u] upwards, [best] reads back as [x].  One digit more
    is put to zero: of the two multiples of [10 * u] around [x], one that
    rounds to [x] is better, the nearer when both do, the even one when
    they are as near; when neither does, no shorter numeral does. *)
Fixpoint shortest_from (ds : list Z) (x lo u best : Z) : Z :=
  match ds with
  | [] => best
  | d :: rest =>
      let lo' := lo - d * u in
      let hi' := lo' + 10 * u in
      let lo_ok := nearest_double lo' =? x in
      let hi_ok := nearest_double hi' =? x in
      if lo_ok && hi_ok
      then shortest_from rest x lo' (10 * u)
             (match x - lo' ?= hi' - x with
              | Lt => lo'
              | Gt => hi'
              | Eq => if Z.even (hd 0 rest) then lo' else hi'
              end)
      else if lo_ok then shortest_from rest x lo' (10 * u) lo'
      else if hi_ok then shortest_from rest x lo' (10 * u) hi'
      else best
  end.

Definition shortest (x : Z) : Z :=
  shortest_from (digits_onto (decimal x) []) x x 1 x.

(** [s] without the zeros at its end. *)
Fixpoint strip_zeros (s : string) : string :=
  match s with
  | EmptyString => EmptyString
  | String c rest =>
      match strip_zeros rest with
      | EmptyString =>
          if (byte_of c =? 48)%N then EmptyString else String c EmptyString
      | kept => String c kept
      end
  end.

(** The numeral [y > 0] as [String] prints it: in full when it has at most
    21 digits, else its first digit, the others without the zeros at their
    end after a dot, and the exponent. *)
Definition numeral_form (y : Z) : string :=
  match decimal y with
  | String d rest =>
      if (20 <? String.length rest)%nat
      then
        String d
          (match strip_zeros rest with
           | EmptyString => EmptyString
           | fraction => String "." fraction
           end
           +++ "e+" +++ decimal (Z.of_nat (String.length rest)))
      else String d rest
  | EmptyString => EmptyString
  end.

(** [Number.prototype.toString] / [String(n)].  An integer up to 2^53 is
    a double and its own shortest numeral.  Beyond, the value is read as
    the nearest double, as a numeric literal is, and printed with the
    fewest digits that read back as it. *)
Definition NumberToString (n : number) : string :=
  match n with
  | NaN => "NaN"
  | Inf false => "Infinity"
  | Inf true => "-Infinity"
  | Fin z =>
      if 2 ^ 53 >=? Z.abs z then decimal z
      else
        let x := nearest_double (Z.abs z) in
        (if z <? 0 then "-" else EmptyString)
        +++ (if 2 ^ 1024 <=? x then "Infinity" else numeral_form (shortest x))
  end.

(* ================================================================= *)
(** ** Values *)

(** A JavaScript value as this program meets them: [undefined], and the
    JSON data model.  An object keeps its members in insertion order. *)
Inductive value : Type :=
| VUndefined
| VNull
| VBool (b : bool)
| VNum (n : number)
| VStr (s : string)
| VArr (items : list value)
| VObj (members : list (string * value)).

Definition truthy (v : value) : bool :=
  match v with
  | VUndefined | VNull => false
  | VBool b => b
  | VNum n => truthy_num n
  | VStr s => negb (is_empty s)
  | VArr _ | VObj _ => true
  end.

Definition is_nullish (v : value) : bool :=
  match v with VUndefined | VNull => true | _ => false end.

Definition is_undefined (v : value) : bool :=
  match v with VUndefined => true | _ => false end.

(** [a || b] *)
Definition js_or (a b : value) : value := if truthy a then a else b.

Fixpoint lookup (k : string) (ms : list (string * value)) : option value :=
  match ms with
  | [] => None
  | (k', v) :: rest => if String.eqb k k' then Some v else lookup k rest
  end.

Definition has_key (k : string) (v : value) : bool :=
  match v with
  | VObj ms => match lookup k ms with Some _ => true | None => false end
  | _ => false
  end.

(** [o[k] = v] on a member list: an existing key keeps its position. *)
Fixpoint assign {V} (k : string) (v : V) (ms : list (string * V))
  : list (string * V) :=
  match ms with
  | [] => [(k, v)]
  | (k', v') :: rest =>
      if String.eqb k k' then (k, v) :: rest else (k', v') :: assign k v rest
  end.

Definition join_comma (parts : list string) : string := String.concat "," parts.

(** [String(v)] and template-literal interpolation. *)
Fixpoint ToString (v : value) : string :=
  match v with
  | VUndefined => "undefined"
  | VNull => "null"
  | VBool true => "true"
  | VBool false => "false"
  | VNum n => NumberToString n
  | VStr s => s
  | VArr items =>
      join_comma
        (map (fun x => if is_nullish x then EmptyString else ToString x) items)
  | VObj _ => "[object Object]"
  end.

(** [JSON.parse(JSON.stringify(v))], the value that the serialised text
    denotes: members whose value is [undefined] are dropped, [undefined]
    inside an array and the non-finite numbers become [null]. *)
Fixpoint json_clean (v : value) : value :=
  match v with
  | VNum NaN | VNum (Inf _) => VNull
  | VArr items =>
      VArr (map (fun x => if is_undefined x then VNull else json_clean x) items)
  | VObj ms =>
      VObj ((fix members (l : list (string * value)) :=
               match l with
               | [] => []
               | (k, x) :: rest =>
                   if is_undefined x then members rest
                   else (k, json_clean x) :: members rest
               end) ms)
  | _ => v
  end.

Definition hex_digit (n : N) : ascii :=
  ascii_of_N (if (n <? 10)%N then 48 + n else 87 + n)%N.

Definition dquote : ascii := ascii_of_N 34.
Definition backslash : ascii := ascii_of_N 92.

Definition esc (c : ascii) : string := String backslash (String c EmptyString).

(** One character of a JSON string literal. *)
Definition json_escape_char (c : ascii) : string :=
  let b := byte_of c in
  if (b =? 34)%N then esc dquote
  else if (b =? 92)%N then esc backslash
  else if (b =? 8)%N then esc "b"
  else if (b =? 12)%N then esc "f"
  else if (b =? 10)%N then esc "n"
  else if (b =? 13)%N then esc "r"
  else if (b =? 9)%N then esc "t"
  else if (b <? 32)%N
       then esc "u" +++ "00"
            +++ String (hex_digit (b / 16))
                  (String (hex_digit (b mod 16)) EmptyString)
  else String c EmptyString.

Fixpoint json_escape (s : string) : string :=
  match s with
  | EmptyString => EmptyString
  | String c rest => json_escape_char c +++ json_escape rest
  end.

Definition json_quote (s : string) : string :=
  String dquote (json_escape s +++ String dquote EmptyString).

(** [JSON.stringify(v)] without indentation.  At top level [undefined]
    has no text; interpolated in a template literal it reads "undefined". *)
Fixpoint JSON_stringify (v : value) : string :=
  match v with
  | VUndefined => "undefined"
  | VNull => "null"
  | VBool true => "true"
  | VBool false => "false"
  | VNum (Fin z) => NumberToString (Fin z)
  | VNum _ => "null"
  | VStr s => json_quote s
  | VArr items =>
      "[" +++ join_comma
                (map (fun x => if is_undefined x then "null"%string
                               else JSON_stringify x) items) +++ "]"
  | VObj ms =>
      "{" +++ join_comma
                ((fix members (l : list (string * value)) : list string :=
                    match l with
                    | [] => []
                    | (k, x) :: rest =>
                        if is_undefined x then members rest
                        else (json_quote k +++ ":" +++ JSON_stringify x)
                               :: members rest
                    end) ms) +++ "}"
  end.

(* ================================================================= *)
(** ** Exceptions, the network and the world *)

Inductive error_kind : Type := KError | KTypeError | KRangeError | KSyntaxError.

(** A thrown [Error] object: its constructor and its [message]. *)
Record js_error : Type := mkError { ename : error_kind; message : string }.

Definition Error (msg : string) : js_error := mkError KError msg.
Definition TypeError (msg : string) : js_error := mkError KTypeError msg.

Inductive outcome (A : Type) : Type :=
| Ok (a : A)
| Throw (e : js_error).
Arguments Ok {A} a.
Arguments Throw {A} e.

(** What a [fetch] call carries: nothing, a JSON text (kept as the value
    it denotes) or a [URLSearchParams] form. *)
Inductive payload : Type :=
| NoBody
| JsonBody (v : value)
| FormBody (fields : list (string * string)).

(** One [fetch(url, init)].  A query string built with [URLSearchParams]
    is kept as its list of pairs. *)
Record net_call : Type := mkCall {
  url : string;
  query : list (string * string);
  method : string;
  headers : list (string * string);
  body : payload
}.

Record response : Type := mkResponse {
  status : Z;
  statusText : string;
  body_text : string;           (* response.text() *)
  body_json : option value      (* response.json(); None: not JSON *)
}.

(** [response.ok] *)
Definition ok (r : response) : bool := (200 <=? status r) && (status r <=? 299).

Inductive fetch_result : Type :=
| NetworkError (why : string)
| Responded (r : response).

Record exchange : Type := mkExchange {
  result : fetch_result;
  elapsed : Z                   (* milliseconds until the promise settles *)
}.

(** The getters of a [Date] in local time. *)
Record date_fields : Type := mkDate {
  getTimezoneOffset : Z;
  getFullYear : Z;
  getMonth : Z;
  getDate : Z;
  getHours : Z;
  getMinutes : Z;
  getSeconds : Z
}.

(** The runtime and the outside world: built-ins whose result this
    development does not compute, the process environment, and the
    carrier, which answers a call knowing the calls that came before. *)
Record env : Type := mkEnv {
  StringToNumber : string -> number;
  parseInt_string : string -> number;
  local_time : Z -> date_fields;
  toISOString : Z -> string;
  NODE_ENV : option string;
  remote : list net_call -> net_call -> exchange
}.

(** [class CDEKAuth] *)
Record CDEKAuth : Type := mkAuth {
  auth_apiUrl : string;
  account : string;
  securePassword : string;
  token : value;                    (* null, or data.access_token *)
  tokenExpiresAt : option number    (* null, or a number *)
}.

(** [class CDEKApiClient] *)
Record CDEKApiClient : Type := mkClient {
  apiUrl : string;
  auth : CDEKAuth
}.

Inductive log_level : Type := LLog | LWarn | LError.

Inductive log_arg : Type :=
| AText (s : string)
| AValue (v : value)
| AError (e : js_error).

Record log_entry : Type := mkLog { level : log_level; args : list log_arg }.

Record world : Type := mkWorld {
  client : CDEKApiClient;       (* the module-level cdekClient *)
  clock : Z;                    (* Date.now() *)
  trace : list net_call;        (* fetch calls so far, oldest first *)
  console : list log_entry
}.

(** The constructor of [CDEKAuth]; a variable of [process.env] is a string
    or absent. *)
Definition env_truthy (x : option string) : bool :=
  match x with Some s => negb (is_empty s) | None => false end.

Definition env_string (x : option string) : string :=
  match x with Some s => s | None => EmptyString end.

Definition new_CDEKAuth (apiUrl account securePassword : option string)
  : outcome CDEKAuth :=
  if negb (env_truthy apiUrl)
  then Throw (Error "CDEK_API_URL не задан. Проверьте файл .env")
  else if negb (env_truthy account)
  then Throw (Error "CDEK_ACCOUNT не задан. Проверьте файл .env")
  else if negb (env_truthy securePassword)
  then Throw (Error "CDEK_SECURE_PASSWORD не задан. Проверьте файл .env")
  else Ok (mkAuth (env_string apiUrl) (env_string account)
             (env_string securePassword) VNull None).

Definition new_CDEKApiClient (apiUrl account securePassword : option string)
  : outcome CDEKApiClient :=
  match new_CDEKAuth apiUrl account securePassword with
  | Ok a => Ok (mkClient (env_string apiUrl) a)
  | Throw e => Throw e
  end.

(* ================================================================= *)
(** ** The monad of asynchronous methods *)

Definition M (A : Type) : Type := world -> outcome A * world.

Definition ret {A} (a : A) : M A := fun w => (Ok a, w).

Definition bind {A B} (m : M A) (k : A -> M B) : M B :=
  fun w =>
    match m w with
    | (Ok a, w') => k a w'
    | (Throw e, w') => (Throw e, w')
    end.

Definition throw {A} (e : js_error) : M A := fun w => (Throw e, w).

(** [try { m } catch (error) { h error }] *)
Definition try_catch {A} (m : M A) (h : js_error -> M A) : M A :=
  fun w =>
    match m w with
    | (Ok a, w') => (Ok a, w')
    | (Throw e, w') => h e w'
    end.

Declare Scope js_scope.
Delimit Scope js_scope with js.
Notation "x <- m ;; k" := (bind m (fun x => k))
  (at level 61, m at next level, right associativity) : js_scope.
Notation "m ;; k" := (bind m (fun _ => k))
  (at level 61, right associativity) : js_scope.
Local Open Scope js_scope.

Definition lift {A} (o : outcome A) : M A := fun w => (o, w).

Definition Date_now : M Z := fun w => (Ok (clock w), w).

Definition console_write (l : log_level) (xs : list log_arg) : M unit :=
  fun w => (Ok tt, mkWorld (client w) (clock w) (trace w)
                     (console w ++ [mkLog l xs])).

Definition this_client : M CDEKApiClient := fun w => (Ok (client w), w).

Definition this_auth : M CDEKAuth := fun w => (Ok (auth (client w)), w).

Definition set_auth (a : CDEKAuth) : M unit :=
  fun w => (Ok tt, mkWorld (mkClient (apiUrl (client w)) a)
                     (clock w) (trace w) (console w)).

(** [this.token = v] *)
Definition set_token (v : value) : M unit :=
  a <- this_auth ;;
  set_auth (mkAuth (auth_apiUrl a) (account a) (securePassword a)
              v (tokenExpiresAt a)).

(** [this.tokenExpiresAt = x] *)
Definition set_tokenExpiresAt (x : option number) : M unit :=
  a <- this_auth ;;
  set_auth (mkAuth (auth_apiUrl a) (account a) (securePassword a)
              (token a) x).

(** Property read [v.k].  Reading a property of [undefined] or [null]
    throws; arrays and strings have a [length]. *)
Definition get (v : value) (k : string) : outcome value :=
  match v with
  | VUndefined | VNull =>
      Throw (TypeError ("Cannot read properties of " +++ ToString v))
  | VObj ms => Ok (match lookup k ms with Some x => x | None => VUndefined end)
  | VArr items =>
      Ok (if String.eqb k "length" then VNum (Fin (Z.of_nat (List.length items)))
          else VUndefined)
  | VStr s =>
      Ok (if String.eqb k "length" then VNum (Fin (utf16_length s))
          else VUndefined)
  | _ => Ok VUndefined
  end.

(** A destructured member with a default: [{ k = d } = v]. *)
Definition get_default (v : value) (k : string) (d : value) : outcome value :=
  match get v k with
  | Ok VUndefined => Ok d
  | o => o
  end.

(** The receiver of [xs.map(...)] / [xs.filter(...)]: only an array has
    the method. *)
Definition array_method (v : value) (name : string) : outcome (list value) :=
  match v with
  | VArr items => Ok items
  | VUndefined | VNull =>
      Throw (TypeError ("Cannot read properties of " +++ ToString v))
  | _ => Throw (TypeError (name +++ " is not a function"))
  end.

(** [v.toString()] *)
Definition toString_method (v : value) : outcome string :=
  match v with
  | VUndefined | VNull =>
      Throw (TypeError ("Cannot read properties of " +++ ToString v))
  | _ => Ok (ToString v)
  end.

Fixpoint mapM {A B} (f : A -> outcome B) (xs : list A) : outcome (list B) :=
  match xs with
  | [] => Ok []
  | x :: rest =>
      match f x with
      | Throw e => Throw e
      | Ok y =>
          match mapM f rest with
          | Throw e => Throw e
          | Ok ys => Ok (y :: ys)
          end
      end
  end.

(** [{ ...a, ...b }] on member lists. *)
Fixpoint spread {V} (a b : list (string * V)) : list (string * V) :=
  match b with
  | [] => a
  | (k, v) :: rest =>
      spread (assign k v a) rest
  end.

Definition obind {A B} (o : outcome A) (k : A -> outcome B) : outcome B :=
  match o with
  | Ok a => k a
  | Throw e => Throw e
  end.

Notation "x <~ o ;; k" := (obind o (fun x => k))
  (at level 61, o at next level, right associativity) : js_scope.

(** [xs.map((x, index) => f x index)], [index] counted from [i]. *)
Fixpoint mapiM {A B} (f : A -> Z -> outcome B) (i : Z) (xs : list A)
  : outcome (list B) :=
  match xs with
  | [] => Ok []
  | x :: rest =>
      y <~ f x i ;;
      ys <~ mapiM f (i + 1) rest ;;
      Ok (y :: ys)
  end.

Record options : Type := mkOptions {
  opt_method : option string;
  opt_body : value;                       (* undefined when absent *)
  opt_headers : list (string * string)
}.

Definition no_options : options := mkOptions None VUndefined [].

Definition string_eq_opt (x : option string) (s : string) : bool :=
  match x with Some t => String.eqb t s | None => false end.

(* ================================================================= *)
(** ** src/cdek/auth.js and src/cdek/api.js *)

Section Program.

Variable E : env.

(** [Number(v)] *)
Definition ToNumber (v : value) : number :=
  match v with
  | VUndefined => NaN
  | VNull => Fin 0
  | VBool b => Fin (if b then 1 else 0)
  | VNum n => n
  | VStr s => StringToNumber E s
  | VArr _ => StringToNumber E (ToString v)
  | VObj _ => NaN
  end.

(** [parseInt(v)] *)
Definition parseInt (v : value) : number := parseInt_string E (ToString v).

(** [v > 0] *)
Definition gt_zero (v : value) : bool := num_lt (Fin 0) (ToNumber v).

(** [v === 0] *)
Definition is_zero (v : value) : bool :=
  match v with VNum (Fin 0) => true | _ => false end.

(** [await fetch(...)]: the call is recorded, the carrier answers, time
    passes; a network failure rejects with a [TypeError]. *)
Definition fetch (c : net_call) : M response :=
  fun w =>
    let x := remote E (trace w) c in
    let w' := mkWorld (client w) (clock w + elapsed x) (trace w ++ [c])
                (console w) in
    match result x with
    | NetworkError why => (Throw (TypeError why), w')
    | Responded r => (Ok r, w')
    end.

(** [await response.json()] *)
Definition response_json (r : response) : M value :=
  match body_json r with
  | Some v => ret v
  | None => throw (mkError KSyntaxError "Unexpected token in JSON")
  end.

(** [new Date(t).toISOString()]: a time value that is not finite or lies
    outside the range of [Date] makes it throw. *)
Definition Date_toISOString (t : number) : outcome string :=
  match t with
  | Fin z =>
      if Z.abs z <=? 8640000000000000 then Ok (toISOString E z)
      else Throw (mkError KRangeError "Invalid time value")
  | _ => Throw (mkError KRangeError "Invalid time value")
  end.

(** [this.token && this.tokenExpiresAt && now < this.tokenExpiresAt] *)
Definition cache_valid (a : CDEKAuth) (now : Z) : bool :=
  truthy (token a) &&
  match tokenExpiresAt a with
  | Some t => truthy_num t && num_lt (Fin now) t
  | None => false
  end.

Definition token_call (a : CDEKAuth) : net_call :=
  mkCall (auth_apiUrl a +++ "/oauth/token") [] "POST"
    [("Content-Type", "application/x-www-form-urlencoded")]
    (FormBody [("grant_type", "client_credentials");
               ("client_id", account a);
               ("client_secret", securePassword a)]).

(** [CDEKAuth.getToken] *)
Definition getToken : M value :=
  a <- this_auth ;;
  now <- Date_now ;;
  if cache_valid a now then ret (token a)
  else
    try_catch
      (response <- fetch (token_call a) ;;
       (if negb (ok response)
        then
          let errorText := body_text response in
          throw (Error ("Ошибка авторизации: " +++ decimal (status response)
                          +++ " " +++ errorText))
        else ret tt) ;;
       data <- response_json response ;;
       access_token <- lift (get data "access_token") ;;
       set_token access_token ;;
       expires_in <- lift (get data "expires_in") ;;
       let expiresIn :=
         num_mul (ToNumber (js_or expires_in (VNum (Fin 3600)))) (Fin 1000) in
       now' <- Date_now ;;
       let expiresAt := num_sub (num_add (Fin now') expiresIn) (Fin 60000) in
       set_tokenExpiresAt (Some expiresAt) ;;
       iso <- lift (Date_toISOString expiresAt) ;;
       console_write LLog
         [AText "Токен CDEK получен, действителен до:"; AText iso] ;;
       a' <- this_auth ;;
       ret (token a'))
      (fun error =>
         console_write LError
           [AText "Ошибка при получении токена CDEK:"; AError error] ;;
         throw error).

(** [CDEKAuth.resetToken] *)
Definition resetToken : M unit :=
  set_token VNull ;;
  set_tokenExpiresAt None.

(** [CDEKApiClient.request(endpoint, options)]; the endpoint is given as
    its path and the pairs of its query string. *)
Definition request (path : string) (q : list (string * string))
    (o : options) : M value :=
  token <- getToken ;;
  c <- this_client ;;
  let url := if startsWith path "http" then path else apiUrl c +++ path in
  let default_headers :=
    spread [("Authorization", "Bearer " +++ ToString token);
            ("Content-Type", "application/json")] (opt_headers o) in
  let sent_body :=
    if truthy (opt_body o) then JsonBody (json_clean (opt_body o))
    else NoBody in
  response <- fetch (mkCall url q
                       (match opt_method o with Some m => m | None => "GET" end)
                       (spread default_headers (opt_headers o))
                       sent_body) ;;
  if negb (ok response)
  then
    let errorText := body_text response in
    let errorData :=
      match body_json response with
      | Some v => v
      | None => VObj [("message", VStr errorText)]
      end in
    console_write LError
      [AText "CDEK API Error Details:";
       AValue (VObj [("status", VNum (Fin (status response)));
                     ("statusText", VStr (statusText response));
                     ("url", VStr url);
                     ("error", errorData)])] ;;
    throw (Error ("CDEK API Error (" +++ decimal (status response) +++ "): "
                    +++ JSON_stringify errorData))
  else response_json response.

(** [CDEKApiClient.searchCities(cityName, countryCode = 'RU', size = 10)] *)
Definition searchCities (cityName countryCode size : value) : M value :=
  let countryCode := if is_undefined countryCode then VStr "RU"
                     else countryCode in
  let size := if is_undefined size then VNum (Fin 10) else size in
  size_text <- lift (toString_method size) ;;
  request "/location/cities"
    [("name", ToString cityName); ("country_code", ToString countryCode);
     ("size", size_text); ("lang", "rus")]
    no_options.

(** [CDEKApiClient.getOffices(cityCode, filters)] *)
Definition getOffices (cityCode : value) (filters : list (string * value))
  : M value :=
  city <- lift (toString_method cityCode) ;;
  entries <- lift (mapM (fun kv => s <~ toString_method (snd kv) ;;
                                   Ok (fst kv, s)) filters) ;;
  let params := spread [("city_code", city); ("lang", "rus")] entries in
  request "/deliverypoints" params no_options.

(** The callback of [packages.map] in both quote methods. *)
Definition quote_package (pkg : value) : outcome value :=
  w <~ get pkg "weight" ;;
  l <~ get pkg "length" ;;
  wd <~ get pkg "width" ;;
  h <~ get pkg "height" ;;
  let weight := ToNumber w in
  let length := ToNumber l in
  let width := ToNumber wd in
  let height := ToNumber h in
  if isNaN weight || isNaN length || isNaN width || isNaN height
  then Throw (Error "Неверные числовые значения в параметрах посылки")
  else Ok (VObj [("weight", VNum weight); ("length", VNum length);
                 ("width", VNum width); ("height", VNum height)]).

(** [calculateDelivery] up to its call of [request]: the body, or the
    exception thrown while building it. *)
Definition calculateDelivery_body (params : value) : outcome value :=
  fromLocation <~ get params "fromLocation" ;;
  toLocation <~ get params "toLocation" ;;
  packages <~ get params "packages" ;;
  from_code <~ get fromLocation "code" ;;
  let from_location := VObj [("code", VStr (ToString from_code))] in
  to_code <~ get toLocation "code" ;;
  let to_location := VObj [("code", VStr (ToString to_code))] in
  items <~ array_method packages "packages.map" ;;
  packagesArray <~ mapM quote_package items ;;
  if (Z.of_nat (List.length packagesArray) =? 0)
  then Throw (Error "packages должен быть непустым массивом")
  else
    let body := VObj [("from_location", from_location);
                      ("to_location", to_location);
                      ("packages", VArr packagesArray)] in
    Ok (json_clean body).

(** [CDEKApiClient.calculateDelivery(params)] *)
Definition calculateDelivery (params : value) : M value :=
  cleanBody <- lift (calculateDelivery_body params) ;;
  (if negb (string_eq_opt (NODE_ENV E) "production")
   then console_write LLog [AText "CDEK API Request:"; AValue cleanBody]
   else ret tt) ;;
  request "/calculator/tarifflist" []
    (mkOptions (Some "POST") cleanBody []).

(** The timestamp built from [new Date()] when no [date] is supplied. *)
Definition local_timestamp (now : Z) : string :=
  let d := local_time E now in
  let timezoneOffset := - getTimezoneOffset d in
  let hours := padStart2 (decimal (Z.abs timezoneOffset / 60)) in
  let minutes := padStart2 (decimal (Z.abs timezoneOffset mod 60)) in
  let sign := if 0 <=? timezoneOffset then "+" else "-" in
  let year := decimal (getFullYear d) in
  let month := padStart2 (decimal (getMonth d + 1)) in
  let day := padStart2 (decimal (getDate d)) in
  let hour := padStart2 (decimal (getHours d)) in
  let minute := padStart2 (decimal (getMinutes d)) in
  let second := padStart2 (decimal (getSeconds d)) in
  year +++ "-" +++ month +++ "-" +++ day +++ "T" +++ hour +++ ":"
       +++ minute +++ ":" +++ second +++ sign +++ hours +++ minutes.

(** [formattedDate]: a supplied [date] loses its milliseconds; only a
    string has [replace]. *)
Definition format_date (now : Z) (date : value) : outcome string :=
  if negb (truthy date) then Ok (local_timestamp now)
  else
    match date with
    | VStr s => Ok (strip_millis s)
    | _ => Throw (TypeError "formattedDate.replace is not a function")
    end.

(** A location of the single-tariff body: the code as a string, and the
    trimmed address when it is a string that is not blank. *)
Definition tariff_location (loc : value) : outcome value :=
  code <~ get loc "code" ;;
  address <~ get loc "address" ;;
  let base := [("code", VStr (ToString code))] in
  match address with
  | VStr s =>
      if truthy address && negb (is_empty (trim s))
      then Ok (VObj (assign "address" (VStr (trim s)) base))
      else Ok (VObj base)
  | _ => Ok (VObj base)
  end.

Definition tariff_service (svc : value) : outcome value :=
  code <~ get svc "code" ;;
  parameter <~ get svc "parameter" ;;
  Ok (VObj [("code", code); ("parameter", parameter)]).

(** [calculateDeliveryByTariff] up to its call of [request]; [now] is the
    reading of the clock behind [new Date()]. *)
Definition calculateDeliveryByTariff_body (now : Z) (params : value)
  : outcome value :=
  tariffCode <~ get params "tariffCode" ;;
  fromLocation <~ get params "fromLocation" ;;
  toLocation <~ get params "toLocation" ;;
  packages <~ get params "packages" ;;
  services <~ get_default params "services" (VArr []) ;;
  date <~ get params "date" ;;
  currency <~ get_default params "currency" (VNum (Fin 1)) ;;
  shipmentPoint <~ get params "shipmentPoint" ;;
  deliveryPoint <~ get params "deliveryPoint" ;;
  formattedDate <~ format_date now date ;;
  from_location <~ tariff_location fromLocation ;;
  to_location <~ tariff_location toLocation ;;
  items <~ array_method packages "packages.map" ;;
  packagesArray <~ mapM quote_package items ;;
  let body0 := [("tariff_code", VNum (ToNumber tariffCode));
                ("date", VStr formattedDate);
                ("currency", VNum (ToNumber currency));
                ("lang", VStr "rus");
                ("from_location", from_location);
                ("to_location", to_location);
                ("packages", VArr packagesArray)] in
  body1 <~ (if truthy services
            then
              len <~ get services "length" ;;
              if gt_zero len
              then
                svcs <~ array_method services "services.map" ;;
                mapped <~ mapM tariff_service svcs ;;
                Ok (assign "services" (VArr mapped) body0)
              else Ok body0
            else Ok body0) ;;
  let body2 := if truthy shipmentPoint
               then assign "shipment_point" (VStr (ToString shipmentPoint)) body1
               else body1 in
  let body3 := if truthy deliveryPoint
               then assign "delivery_point" (VStr (ToString deliveryPoint)) body2
               else body2 in
  Ok (json_clean (VObj body3)).

(** [CDEKApiClient.calculateDeliveryByTariff(params)] *)
Definition calculateDeliveryByTariff (params : value) : M value :=
  now <- Date_now ;;
  cleanBody <- lift (calculateDeliveryByTariff_body now params) ;;
  console_write LLog [AText "CDEK API Request (by tariff):"; AValue cleanBody] ;;
  request "/calculator/tariff" [] (mkOptions (Some "POST") cleanBody []).

(** The callback of [tariffs.map] in the fallback of [getTariffs]. *)
Definition tariff_summary (tariff : value) : outcome value :=
  code <~ get tariff "tariff_code" ;;
  name <~ get tariff "tariff_name" ;;
  description <~ get tariff "tariff_description" ;;
  mode <~ get tariff "delivery_mode" ;;
  Ok (VObj [("tariff_code", code);
            ("tariff_name", name);
            ("tariff_description", js_or description (VStr EmptyString));
            ("delivery_mode", mode)]).

(** [CDEKApiClient.getTariffs(lang = 'rus', options = {})] *)
Definition getTariffs (lang options : value) : M value :=
  let lang := if is_undefined lang then VStr "rus" else lang in
  let options := if is_undefined options then VObj [] else options in
  try_catch
    (request "/calculator/tariffs" []
       (mkOptions (Some "GET") VUndefined [("X-User-Lang", ToString lang)]))
    (fun error =>
       if negb (is_empty (message error)) && includes (message error) "404"
       then
         console_write LLog
           [AText "Эндпоинт /calculator/tariffs недоступен, используем альтернативный метод"] ;;
         from <- lift (get options "fromCityCode") ;;
         let fromCityCode := js_or from (VNum (Fin 44)) in
         to <- lift (get options "toCityCode") ;;
         let toCityCode := js_or to (VNum (Fin 270)) in
         result <- calculateDelivery
                     (VObj [("fromLocation", VObj [("code", fromCityCode)]);
                            ("toLocation", VObj [("code", toCityCode)]);
                            ("packages",
                             VArr [VObj [("weight", VNum (Fin 1000));
                                         ("length", VNum (Fin 10));
                                         ("width", VNum (Fin 10));
                                         ("height", VNum (Fin 10))]])]) ;;
         codes <- lift (get result "tariff_codes") ;;
         let tariffs := js_or codes (VArr []) in
         items <- lift (array_method tariffs "tariffs.map") ;;
         mapped <- lift (mapM tariff_summary items) ;;
         ret (VArr mapped)
       else throw error).

(** A phone of the recipient: [{ number: String(phone.number || phone) }] *)
Definition order_phone (phone : value) : outcome value :=
  n <~ get phone "number" ;;
  Ok (VObj [("number", VStr (ToString (js_or n phone)))]).

(** The callback of [packages.map] in [createOrder]. *)
Definition order_package (pkg : value) (index : Z) : outcome value :=
  number <~ get pkg "number" ;;
  weight <~ get pkg "weight" ;;
  length <~ get pkg "length" ;;
  width <~ get pkg "width" ;;
  height <~ get pkg "height" ;;
  items <~ get pkg "items" ;;
  Ok (VObj [("number", js_or number (VStr ("PACK-" +++ decimal (index + 1))));
            ("weight", VNum (ToNumber weight));
            ("length", VNum (ToNumber length));
            ("width", VNum (ToNumber width));
            ("height", VNum (ToNumber height));
            ("items", js_or items (VArr []))]).

(** [createOrder] up to its call of [request]. *)
Definition createOrder_body (params : value) : outcome value :=
  type <~ get_default params "type" (VNum (Fin 1)) ;;
  number <~ get params "number" ;;
  tariffCode <~ get params "tariffCode" ;;
  shipmentPoint <~ get params "shipmentPoint" ;;
  deliveryPoint <~ get params "deliveryPoint" ;;
  toLocation <~ get params "toLocation" ;;
  recipient <~ get params "recipient" ;;
  packages <~ get params "packages" ;;
  if negb (truthy number) then Throw (Error "Номер заказа обязателен")
  else if negb (truthy tariffCode) then Throw (Error "Код тарифа обязателен")
  else
  recipient_name <~ (if truthy recipient then get recipient "name"
                     else Ok VUndefined) ;;
  if negb (truthy recipient) || negb (truthy recipient_name)
  then Throw (Error "Получатель обязателен")
  else
  packages_length <~ (if truthy packages then get packages "length"
                      else Ok VUndefined) ;;
  if negb (truthy packages) || is_zero packages_length
  then Throw (Error "Посылки обязательны")
  else
  phones <~ get recipient "phones" ;;
  phone_list <~ match phones with
                | VArr ps => mapM order_phone ps
                | _ => Ok [VObj [("number", VStr (ToString phones))]]
                end ;;
  items <~ array_method packages "packages.map" ;;
  package_list <~ mapiM order_package 0 items ;;
  let body0 := [("type", VNum (ToNumber type));
                ("number", VStr (ToString number));
                ("tariff_code", VNum (ToNumber tariffCode));
                ("recipient",
                 VObj [("name", VStr (ToString recipient_name));
                       ("phones", VArr phone_list)]);
                ("packages", VArr package_list)] in
  let body1 := if truthy shipmentPoint
               then assign "shipment_point" (VStr (ToString shipmentPoint)) body0
               else body0 in
  if truthy deliveryPoint
  then Ok (VObj (assign "delivery_point" (VStr (ToString deliveryPoint)) body1))
  else if truthy toLocation
  then
    code <~ get toLocation "code" ;;
    address <~ get toLocation "address" ;;
    let to_location0 := [("code", VStr (ToString code))] in
    let to_location :=
      if truthy address
      then assign "address" (VStr (ToString address)) to_location0
      else to_location0 in
    Ok (VObj (assign "to_location" (VObj to_location) body1))
  else Throw (Error "Необходимо указать либо deliveryPoint, либо toLocation").

(** [CDEKApiClient.createOrder(params)] *)
Definition createOrder (params : value) : M value :=
  body <- lift (createOrder_body params) ;;
  console_write LLog [AText "CDEK API Create Order Request:"; AValue body] ;;
  request "/orders" [] (mkOptions (Some "POST") body []).

(* ================================================================= *)
(** ** src/routes/delivery.js *)

(** What a handler sends: [res.status(code).json(payload)]. *)
Record reply : Type := mkReply { http_status : Z; json : value }.

(** [formatAddress], the helper of [GET /calculate]. *)
Definition formatAddress (addr : value) : outcome value :=
  if negb (truthy addr) then Ok VUndefined
  else
    match addr with
    | VStr s =>
        if is_empty (trim s) then Ok VUndefined
        else
          let trimmed := trim s in
          if negb (startsWith trimmed "г. ") && negb (includes trimmed ",")
          then Ok (VStr ("г. " +++ trimmed))
          else Ok (VStr trimmed)
    | _ => Throw (TypeError "addr.trim is not a function")
    end.

(** [office.is_ltl === true] *)
Definition is_ltl (office : value) : outcome bool :=
  flag <~ get office "is_ltl" ;;
  Ok (match flag with VBool true => true | _ => false end).

Fixpoint filterM {A} (p : A -> outcome bool) (xs : list A) : outcome (list A) :=
  match xs with
  | [] => Ok []
  | x :: rest =>
      keep <~ p x ;;
      ys <~ filterM p rest ;;
      Ok (if keep then x :: ys else ys)
  end.

(** The choice made inside each discovery block: the code of the first
    office flagged [is_ltl], else of the first office; nothing when the
    list is empty.  The flag tells which branch chose. *)
Definition pick_office (offices : value) : outcome (option (value * bool)) :=
  if truthy offices
  then
    len <~ get offices "length" ;;
    if gt_zero len
    then
      items <~ array_method offices "offices.filter" ;;
      ltlOffices <~ filterM is_ltl items ;;
      if 0 <? Z.of_nat (List.length ltlOffices)
      then code <~ get (nth 0 ltlOffices VUndefined) "code" ;;
           Ok (Some (code, true))
      else code <~ get (nth 0 items VUndefined) "code" ;;
           Ok (Some (code, false))
    else Ok None
  else Ok None.

(** One discovery block of [POST /calculate-by-tariff]: the point that the
    variable holds afterwards.  The two blocks differ in the city and in
    the texts they log. *)
Definition discover (cityCode current : value)
    (found_ltl found_any failed : string) : M value :=
  try_catch
    (offices <- getOffices (VNum (parseInt cityCode))
                  [("type", VStr "PVZ"); ("size", VNum (Fin 10))] ;;
     picked <- lift (pick_office offices) ;;
     match picked with
     | Some (code, ltl) =>
         console_write LLog
           [AText ((if ltl then found_ltl else found_any) +++ ToString code)] ;;
         ret code
     | None => ret current
     end)
    (fun err =>
       console_write LWarn [AText failed; AText (message err)] ;;
       ret current).

(** [let finalShipmentPoint = shipmentPoint] and the block that may
    replace it: tariff 751 needs a shipment point. *)
Definition finalShipmentPoint (tariffCode fromCityCode shipmentPoint : value)
  : M value :=
  if num_eq (parseInt tariffCode) (Fin 751) && negb (truthy shipmentPoint)
  then discover fromCityCode shipmentPoint
         "Автоматически найден ПВЗ отправления (LTL): "
         "Автоматически найден ПВЗ отправления: "
         "Не удалось найти ПВЗ отправления:"
  else ret shipmentPoint.

(** [let finalDeliveryPoint = deliveryPoint] and the block that may replace
    it: a delivery point is looked for only when no address is given. *)
Definition finalDeliveryPoint
    (tariffCode toCityCode toAddress deliveryPoint : value) : M value :=
  if num_eq (parseInt tariffCode) (Fin 751)
     && (negb (truthy deliveryPoint) && negb (truthy toAddress))
  then discover toCityCode deliveryPoint
         "Автоматически найден ПВЗ доставки (LTL): "
         "Автоматически найден ПВЗ доставки: "
         "Не удалось найти ПВЗ доставки:"
  else ret deliveryPoint.

Definition required (v : value) (name : string) : list string :=
  if negb (truthy v) then [name +++ " обязателен"] else [].

(** The [try] block of the handler. *)
Definition calculate_by_tariff_try (req_body : value) : M reply :=
  tariffCode <- lift (get req_body "tariffCode") ;;
  fromCityCode <- lift (get req_body "fromCityCode") ;;
  fromAddress <- lift (get req_body "fromAddress") ;;
  toCityCode <- lift (get req_body "toCityCode") ;;
  toAddress <- lift (get req_body "toAddress") ;;
  weight <- lift (get req_body "weight") ;;
  length <- lift (get req_body "length") ;;
  width <- lift (get req_body "width") ;;
  height <- lift (get req_body "height") ;;
  services <- lift (get_default req_body "services" (VArr [])) ;;
  shipmentPoint <- lift (get req_body "shipmentPoint") ;;
  deliveryPoint <- lift (get req_body "deliveryPoint") ;;
  let errors :=
    required tariffCode "tariffCode" ++ required fromCityCode "fromCityCode"
    ++ required fromAddress "fromAddress" ++ required toCityCode "toCityCode"
    ++ required weight "weight" ++ required length "length"
    ++ required width "width" ++ required height "height" in
  if 0 <? Z.of_nat (List.length errors)
  then ret (mkReply 400
              (json_clean (VObj [("error", VStr "Ошибка валидации");
                                 ("details", VArr (map VStr errors))])))
  else
    finalShipmentPoint <- finalShipmentPoint tariffCode fromCityCode
                            shipmentPoint ;;
    finalDeliveryPoint <- finalDeliveryPoint tariffCode toCityCode toAddress
                            deliveryPoint ;;
    toLocation <-
      (let base := [("code", VNum (parseInt toCityCode))] in
       if truthy toAddress
       then
         match toAddress with
         | VStr s =>
             if negb (is_empty (trim s))
             then ret (VObj (assign "address" (VStr (trim s)) base))
             else ret (VObj base)
         | _ => throw (TypeError "toAddress.trim is not a function")
         end
       else ret (VObj base)) ;;
    result <- calculateDeliveryByTariff
                (VObj [("tariffCode", VNum (parseInt tariffCode));
                       ("fromLocation",
                        VObj [("code", VNum (parseInt fromCityCode));
                              ("address", fromAddress)]);
                       ("toLocation", toLocation);
                       ("packages",
                        VArr [VObj [("weight", VNum (parseInt weight));
                                    ("length", VNum (parseInt length));
                                    ("width", VNum (parseInt width));
                                    ("height", VNum (parseInt height))]]);
                       ("services", services);
                       ("shipmentPoint", finalShipmentPoint);
                       ("deliveryPoint", finalDeliveryPoint)]) ;;
    console_write LLog [AText "CDEK API Full Response:"; AValue result] ;;
    tariff_code <- lift (get result "tariff_code") ;;
    delivery_sum <- lift (get result "delivery_sum") ;;
    total_sum <- lift (get result "total_sum") ;;
    period_min <- lift (get result "period_min") ;;
    period_max <- lift (get result "period_max") ;;
    calendar_min <- lift (get result "calendar_min") ;;
    calendar_max <- lift (get result "calendar_max") ;;
    weight_calc <- lift (get result "weight_calc") ;;
    currency <- lift (get result "currency") ;;
    result_services <- lift (get result "services") ;;
    range <- lift (get result "delivery_date_range") ;;
    deliveryDateRange <-
      (if truthy range
       then
         date_min <- lift (get range "date_min") ;;
         min <- lift (get range "min") ;;
         date_max <- lift (get range "date_max") ;;
         max <- lift (get range "max") ;;
         ret (VObj [("dateMin", js_or date_min min);
                    ("dateMax", js_or date_max max)])
       else ret VNull) ;;
    let formattedResult :=
      VObj [("success", VBool true);
            ("tariffCode", tariff_code);
            ("deliveryCost", delivery_sum);
            ("totalCost", total_sum);
            ("periodMin", period_min);
            ("periodMax", period_max);
            ("calendarMin", calendar_min);
            ("calendarMax", calendar_max);
            ("weightCalc", weight_calc);
            ("currency", currency);
            ("services", js_or result_services (VArr []));
            ("deliveryDateRange", deliveryDateRange);
            ("_raw", if negb (string_eq_opt (NODE_ENV E) "production")
                     then result else VUndefined)] in
    ret (mkReply 200 (json_clean formattedResult)).

(** [router.post('/calculate-by-tariff', ...)] *)
Definition calculate_by_tariff (req_body : value) : M reply :=
  try_catch (calculate_by_tariff_try req_body)
    (fun error =>
       console_write LError
         [AText "Ошибка при расчете доставки по тарифу:"; AError error] ;;
       ret (mkReply 500
              (json_clean (VObj [("error", VStr "Ошибка при расчете доставки");
                                 ("message", VStr (message error))])))).

End Program.

(* ================================================================= *)
(** ** The other handlers of src/routes/delivery.js, and the start-up check *)

Definition quoted (s : string) : string :=
  String dquote (s +++ String dquote EmptyString).

Section Handlers.

Variable E : env.

(** [res.status(code).json(payload)] *)
Definition send (code : Z) (payload : value) : M reply :=
  ret (mkReply code (json_clean payload)).

(** The [catch] block that every handler ends with. *)
Definition handler_catch (context failure : string) (error : js_error)
  : M reply :=
  console_write LError [AText context; AError error] ;;
  send 500 (VObj [("error", VStr failure); ("message", VStr (message error))]).

Definition validation_failed (details : list string) : M reply :=
  send 400 (VObj [("error", VStr "Ошибка валидации");
                  ("details", VArr (map VStr details))]).

(** [router.get('/cities', ...)] *)
Definition get_cities (query : value) : M reply :=
  try_catch
    (q <- lift (get query "q") ;;
     country_code <- lift (get_default query "country_code" (VStr "RU")) ;;
     size <- lift (get_default query "size" (VNum (Fin 10))) ;;
     if negb (truthy q)
     then send 400
            (VObj [("error",
                    VStr ("Параметр " +++ quoted "q"
                            +++ " (название города) обязателен"))])
     else
       cities <- searchCities E q country_code (VNum (parseInt E size)) ;;
       count <- lift (get cities "length") ;;
       send 200 (VObj [("success", VBool true); ("data", cities);
                       ("count", count)]))
    (handler_catch "Ошибка при поиске городов:" "Ошибка при поиске городов").

(** The callback of [result.tariff_codes?.map] in both [/calculate]
    handlers. *)
Definition quote_tariff (tariff : value) : outcome value :=
  code <~ get tariff "tariff_code" ;;
  name <~ get tariff "tariff_name" ;;
  description <~ get tariff "tariff_description" ;;
  cost <~ get tariff "delivery_sum" ;;
  periodMin <~ get tariff "period_min" ;;
  periodMax <~ get tariff "period_max" ;;
  calendarMin <~ get tariff "calendar_min" ;;
  calendarMax <~ get tariff "calendar_max" ;;
  range <~ get tariff "delivery_date_range" ;;
  deliveryDateRange <~
    (if truthy range
     then
       dateMin <~ get range "min" ;;
       dateMax <~ get range "max" ;;
       Ok (VObj [("dateMin", dateMin); ("dateMax", dateMax)])
     else Ok VNull) ;;
  Ok (VObj [("code", code); ("name", name); ("description", description);
            ("cost", cost); ("periodMin", periodMin);
            ("periodMax", periodMax); ("calendarMin", calendarMin);
            ("calendarMax", calendarMax);
            ("deliveryDateRange", deliveryDateRange)]).

(** [formattedResult] of both [/calculate] handlers. *)
Definition quote_result (result : value) : outcome value :=
  tariff_codes <~ get result "tariff_codes" ;;
  tariffs <~
    (if is_nullish tariff_codes then Ok (VArr [])
     else
       items <~ array_method tariff_codes "result.tariff_codes.map" ;;
       mapped <~ mapM quote_tariff items ;;
       Ok (VArr mapped)) ;;
  errors <~ get result "errors" ;;
  warnings <~ get result "warnings" ;;
  Ok (VObj [("success", VBool true); ("tariffs", tariffs);
            ("errors", js_or errors (VArr []));
            ("warnings", js_or warnings (VArr []))]).

(** A location of [GET /calculate]: the code, and the formatted address
    when there is one. *)
Definition located (code : number) (address : value) : outcome value :=
  formatted <~ formatAddress address ;;
  Ok (VObj (if truthy formatted
            then assign "address" formatted [("code", VNum code)]
            else [("code", VNum code)])).

(** [router.get('/calculate', ...)] *)
Definition get_calculate (query : value) : M reply :=
  try_catch
    (fromCityCode <- lift (get query "fromCityCode") ;;
     fromAddress <- lift (get query "fromAddress") ;;
     toCityCode <- lift (get query "toCityCode") ;;
     toAddress <- lift (get query "toAddress") ;;
     weight <- lift (get query "weight") ;;
     length <- lift (get query "length") ;;
     width <- lift (get query "width") ;;
     height <- lift (get query "height") ;;
     let errors :=
       required fromCityCode "fromCityCode" ++ required toCityCode "toCityCode"
       ++ required weight "weight" ++ required length "length"
       ++ required width "width" ++ required height "height" in
     if 0 <? Z.of_nat (List.length errors) then validation_failed errors
     else
       let fromCode := parseInt E fromCityCode in
       let toCode := parseInt E toCityCode in
       let pkgWeight := parseInt E weight in
       let pkgLength := parseInt E length in
       let pkgWidth := parseInt E width in
       let pkgHeight := parseInt E height in
       if isNaN fromCode || isNaN toCode || isNaN pkgWeight
          || isNaN pkgLength || isNaN pkgWidth || isNaN pkgHeight
       then validation_failed
              ["Все числовые параметры должны быть валидными числами"]
       else
         fromLocation <- lift (located fromCode fromAddress) ;;
         toLocation <- lift (located toCode toAddress) ;;
         result <- calculateDelivery E
                     (VObj [("fromLocation", fromLocation);
                            ("toLocation", toLocation);
                            ("packages",
                             VArr [VObj [("weight", VNum pkgWeight);
                                         ("length", VNum pkgLength);
                                         ("width", VNum pkgWidth);
                                         ("height", VNum pkgHeight)]])]) ;;
         formattedResult <- lift (quote_result result) ;;
         send 200 formattedResult)
    (handler_catch "Ошибка при расчете доставки:" "Ошибка при расчете доставки").

(** [router.post('/calculate', ...)] *)
Definition post_calculate (req_body : value) : M reply :=
  try_catch
    (fromCityCode <- lift (get req_body "fromCityCode") ;;
     fromAddress <- lift (get req_body "fromAddress") ;;
     toCityCode <- lift (get req_body "toCityCode") ;;
     toAddress <- lift (get req_body "toAddress") ;;
     weight <- lift (get req_body "weight") ;;
     length <- lift (get req_body "length") ;;
     width <- lift (get req_body "width") ;;
     height <- lift (get req_body "height") ;;
     let errors :=
       required fromCityCode "fromCityCode" ++ required fromAddress "fromAddress"
       ++ required toCityCode "toCityCode" ++ required toAddress "toAddress"
       ++ required weight "weight" ++ required length "length"
       ++ required width "width" ++ required height "height" in
     if 0 <? Z.of_nat (List.length errors) then validation_failed errors
     else
       result <- calculateDelivery E
                   (VObj [("fromLocation",
                           VObj [("code", VNum (parseInt E fromCityCode));
                                 ("address", fromAddress)]);
                          ("toLocation",
                           VObj [("code", VNum (parseInt E toCityCode));
                                 ("address", toAddress)]);
                          ("packages",
                           VArr [VObj [("weight", VNum (parseInt E weight));
                                       ("length", VNum (parseInt E length));
                                       ("width", VNum (parseInt E width));
                                       ("height", VNum (parseInt E height))]])]) ;;
       formattedResult <- lift (quote_result result) ;;
       send 200 formattedResult)
    (handler_catch "Ошибка при расчете доставки:" "Ошибка при расчете доставки").

(** [router.get('/offices', ...)] *)
Definition get_offices (query : value) : M reply :=
  try_catch
    (cityCode <- lift (get query "cityCode") ;;
     type <- lift (get_default query "type" (VStr "ALL")) ;;
     if negb (truthy cityCode)
     then send 400
            (VObj [("error",
                    VStr ("Параметр " +++ quoted "cityCode" +++ " обязателен"))])
     else
       offices <- getOffices E (VNum (parseInt E cityCode)) [("type", type)] ;;
       count <- lift (get offices "length") ;;
       send 200 (VObj [("success", VBool true); ("data", offices);
                       ("count", count)]))
    (handler_catch "Ошибка при получении офисов:" "Ошибка при получении офисов").

(** [validLangs.includes(lang)] *)
Definition valid_lang (lang : value) : bool :=
  match lang with
  | VStr s => String.eqb s "rus" || String.eqb s "eng" || String.eqb s "zho"
  | _ => false
  end.

(** [router.get('/tariffs', ...)] *)
Definition get_tariffs (query : value) : M reply :=
  try_catch
    (lang <- lift (get_default query "lang" (VStr "rus")) ;;
     if negb (valid_lang lang)
     then validation_failed
            ["Недопустимый язык. Допустимые значения: rus, eng, zho"]
     else
       tariffs <- getTariffs E lang VUndefined ;;
       send 200 (VObj [("success", VBool true); ("data", tariffs);
                       ("count",
                        match tariffs with
                        | VArr items => VNum (Fin (Z.of_nat (List.length items)))
                        | _ => VNum (Fin 0)
                        end)]))
    (handler_catch "Ошибка при получении списка тарифов:"
       "Ошибка при получении списка тарифов").

(** [router.post('/orders', ...)] *)
Definition post_orders (req_body : value) : M reply :=
  try_catch
    (type <- lift (get_default req_body "type" (VNum (Fin 1))) ;;
     number <- lift (get req_body "number") ;;
     tariffCode <- lift (get req_body "tariffCode") ;;
     shipmentPoint <- lift (get req_body "shipmentPoint") ;;
     deliveryPoint <- lift (get req_body "deliveryPoint") ;;
     toLocation <- lift (get req_body "toLocation") ;;
     recipient <- lift (get req_body "recipient") ;;
     packages <- lift (get req_body "packages") ;;
     recipient_name <- lift (if truthy recipient then get recipient "name"
                             else Ok VUndefined) ;;
     packages_length <- lift (if truthy packages then get packages "length"
                              else Ok VUndefined) ;;
     let errors :=
       required number "number" ++ required tariffCode "tariffCode"
       ++ (if negb (truthy recipient) || negb (truthy recipient_name)
           then ["recipient.name обязателен"] else [])
       ++ (if negb (truthy packages) || is_zero packages_length
           then ["packages обязателен"] else [])
       ++ (if negb (truthy shipmentPoint) && negb (truthy deliveryPoint)
              && negb (truthy toLocation)
           then ["Необходимо указать shipmentPoint и (deliveryPoint или toLocation)"]
           else []) in
     if 0 <? Z.of_nat (List.length errors) then validation_failed errors
     else
       result <- createOrder E
                   (VObj [("type", type); ("number", number);
                          ("tariffCode", tariffCode);
                          ("shipmentPoint", shipmentPoint);
                          ("deliveryPoint", deliveryPoint);
                          ("toLocation", toLocation);
                          ("recipient", recipient);
                          ("packages", packages)]) ;;
       send 202 (VObj [("success", VBool true); ("data", result)]))
    (handler_catch "Ошибка при создании заказа:" "Ошибка при создании заказа").

End Handlers.

(** The three variables that the server requires, and the check it makes
    before it listens: the names whose variable is missing or empty. *)
Definition requiredEnvVars : list string :=
  ["CDEK_API_URL"; "CDEK_ACCOUNT"; "CDEK_SECURE_PASSWORD"].

Definition missingVars (process_env : string -> option string) : list string :=
  filter (fun varName => negb (env_truthy (process_env varName)))
    requiredEnvVars.

(** [const cdekClient = new CDEKApiClient(process.env.CDEK_API_URL, ...)] *)
Definition cdekClient (process_env : string -> option string)
  : outcome CDEKApiClient :=
  new_CDEKApiClient (process_env "CDEK_API_URL") (process_env "CDEK_ACCOUNT")
    (process_env "CDEK_SECURE_PASSWORD").

(* ================================================================= *)
(** ** A runtime and a carrier for concrete runs

    The theorems below hold for every runtime and every carrier.  The
    runs need one of each: this runtime reads decimal integer numerals,
    which is all that the runs give it to read. *)

Fixpoint digits_value (acc : Z) (s : string) : option Z :=
  match s with
  | EmptyString => Some acc
  | String c rest =>
      if is_digit c
      then digits_value (10 * acc + Z.of_N (byte_of c) - 48) rest
      else None
  end.

Definition unsigned_number (s : string) : option Z :=
  match s with
  | EmptyString => None
  | _ => digits_value 0 s
  end.

(** [Number(s)] on decimal integer numerals: blank text is 0, a sign may
    lead, anything else is [NaN]. *)
Definition decimal_number (s : string) : number :=
  match trim s with
  | EmptyString => Fin 0
  | String c rest =>
      if (byte_of c =? 45)%N
      then match unsigned_number rest with
           | Some z => Fin (- z)
           | None => NaN
           end
      else if (byte_of c =? 43)%N
      then match unsigned_number rest with
           | Some z => Fin z
           | None => NaN
           end
      else match digits_value 0 (String c rest) with
           | Some z => Fin z
           | None => NaN
           end
  end.

Fixpoint digits_prefix (acc : Z) (seen : bool) (s : string) : option Z :=
  match s with
  | String c rest =>
      if is_digit c
      then digits_prefix (10 * acc + Z.of_N (byte_of c) - 48) true rest
      else if seen then Some acc else None
  | EmptyString => if seen then Some acc else None
  end.

(** [parseInt(s)] in base ten: leading blanks, a sign, then the longest
    run of digits. *)
Definition decimal_prefix (s : string) : number :=
  match trimStart s with
  | String c rest =>
      if (byte_of c =? 45)%N
      then match digits_prefix 0 false rest with
           | Some z => Fin (- z)
           | None => NaN
           end
      else if (byte_of c =? 43)%N
      then match digits_prefix 0 false rest with
           | Some z => Fin z
           | None => NaN
           end
      else match digits_prefix 0 false (String c rest) with
           | Some z => Fin z
           | None => NaN
           end
  | EmptyString => NaN
  end.

Definition ends_with (s suffix : string) : bool :=
  String.prefix (rev_string suffix) (rev_string s).

Definition json_response (code : Z) (v : value) : exchange :=
  mkExchange (Responded (mkResponse code "OK" (JSON_stringify v) (Some v))) 25.

Definition text_response (code : Z) (text : string) : exchange :=
  mkExchange (Responded (mkResponse code "ERR" text None)) 25.

Definition office (code : string) (ltl : bool) : value :=
  VObj [("code", VStr code); ("is_ltl", VBool ltl)].

Definition tariff (code : Z) (name : string) : value :=
  VObj [("tariff_code", VNum (Fin code)); ("tariff_name", VStr name);
        ("delivery_mode", VNum (Fin 1)); ("delivery_sum", VNum (Fin 500))].

(** A carrier of the test API: it grants tokens, has no
    [/calculator/tariffs], lists two offices of which the second handles
    consolidated freight, and quotes tariff 136 twice. *)
Definition carrier (history : list net_call) (c : net_call) : exchange :=
  if ends_with (url c) "/oauth/token"
  then json_response 200 (VObj [("access_token", VStr "tok-1");
                                ("expires_in", VNum (Fin 3600))])
  else if ends_with (url c) "/calculator/tariffs"
  then text_response 404 "Not Found"
  else if ends_with (url c) "/deliverypoints"
  then json_response 200 (VArr [office "MSK5" false; office "MSK7" true])
  else if ends_with (url c) "/calculator/tarifflist"
  then json_response 200
         (VObj [("tariff_codes",
                 VArr [tariff 136 "Посылка склад-склад";
                       tariff 136 "Посылка склад-склад";
                       tariff 137 "Посылка склад-дверь"])])
  else json_response 200 (VObj [("tariff_code", VNum (Fin 751));
                                ("total_sum", VNum (Fin 900))]).

(** A carrier whose [/calculator/tariffs] breaks with status 500 and a
    text that happens to hold the digits 404. *)
Definition broken (history : list net_call) (c : net_call) : exchange :=
  if ends_with (url c) "/calculator/tariffs"
  then text_response 500 "upstream error, ticket 404"
  else carrier history c.

(** A carrier whose token answer gives no usable lifetime. *)
Definition vague (history : list net_call) (c : net_call) : exchange :=
  if ends_with (url c) "/oauth/token"
  then json_response 200 (VObj [("access_token", VStr "tok-1");
                                ("expires_in", VObj [])])
  else carrier history c.

(** A carrier that cannot be reached. *)
Definition unreachable (history : list net_call) (c : net_call) : exchange :=
  mkExchange (NetworkError "fetch failed") 5.

(** A carrier that refuses the credentials. *)
Definition refusing (history : list net_call) (c : net_call) : exchange :=
  text_response 401 "bad credentials".

Definition noon : date_fields := mkDate (-180) 2024 0 15 12 30 45.

Definition runtime (r : list net_call -> net_call -> exchange) : env :=
  mkEnv decimal_number decimal_prefix (fun _ => noon)
    (fun t => "epoch+" +++ decimal t) None r.

Definition fresh_client : CDEKApiClient :=
  mkClient "https://api.edu.cdek.ru/v2"
    (mkAuth "https://api.edu.cdek.ru/v2" "account" "secret" VNull None).

Definition start (t : Z) : world := mkWorld fresh_client t [] [].

Definition one_package : value :=
  VObj [("weight", VNum (Fin 2000)); ("length", VNum (Fin 10));
        ("width", VNum (Fin 20)); ("height", VNum (Fin 30))].

Definition quote_params : value :=
  VObj [("fromLocation", VObj [("code", VNum (Fin 44));
                               ("address", VStr "г. Москва, ул. Ленина")]);
        ("toLocation", VObj [("code", VNum (Fin 270))]);
        ("packages", VArr [one_package])].

Definition order_params (extra : list (string * value)) (pkg : value) : value :=
  VObj ([("number", VStr "ORDER-1"); ("tariffCode", VNum (Fin 136));
         ("recipient", VObj [("name", VStr "Ivan");
                             ("phones", VArr [VStr "+79991234567"])]);
         ("packages", VArr [pkg])] ++ extra).

Definition bearer_headers : list (string * string) :=
  [("Authorization", "Bearer tok-1"); ("Content-Type", "application/json")].

(** The world that a first [getToken] leaves, and the same world with the
    clock read one minute after the start. *)
Definition after_first_call : world :=
  snd (getToken (runtime carrier) (start 1000)).

Definition a_minute_later : world :=
  mkWorld (client after_first_call) 61000 (trace after_first_call)
    (console after_first_call).

Definition quote_body : value :=
  VObj [("from_location", VObj [("code", VStr "44")]);
        ("to_location", VObj [("code", VStr "270")]);
        ("packages", VArr [one_package])].

Definition quote_call : net_call :=
  mkCall "https://api.edu.cdek.ru/v2/calculator/tarifflist" [] "POST"
    bearer_headers (JsonBody quote_body).

(** A package whose weight is not a number, and one without a weight. *)
Definition heavy_package : value :=
  VObj [("weight", VStr "heavy"); ("length", VNum (Fin 10));
        ("width", VNum (Fin 20)); ("height", VNum (Fin 30))].

Definition weightless_package : value :=
  VObj [("length", VNum (Fin 10)); ("width", VNum (Fin 20));
        ("height", VNum (Fin 30))].

(** A quote for a package of unbounded weight. *)
Definition unbounded_quote : value :=
  VObj [("fromLocation", VObj [("code", VNum (Fin 44))]);
        ("toLocation", VObj [("code", VNum (Fin 270))]);
        ("packages",
         VArr [VObj [("weight", VNum (Inf false)); ("length", VNum (Fin 10));
                     ("width", VNum (Fin 20)); ("height", VNum (Fin 30))]])].

Definition heavy_quote : value :=
  VObj [("tariffCode", VNum (Fin 136));
        ("fromLocation", VObj [("code", VNum (Fin 44))]);
        ("toLocation", VObj [("code", VNum (Fin 270))]);
        ("packages", VArr [one_package; heavy_package])].

Definition empty_quote : value :=
  VObj [("fromLocation", VObj [("code", VNum (Fin 44))]);
        ("toLocation", VObj [("code", VNum (Fin 270))]);
        ("packages", VArr [])].

Definition both_destinations : value :=
  order_params [("deliveryPoint", VStr "MSK123");
                ("toLocation", VObj [("code", VNum (Fin 270))])] one_package.


Definition weightless_order : value :=
  order_params [("deliveryPoint", VStr "MSK123")] weightless_package.



(** A warehouse-to-warehouse quote with a shipment point and a
    destination address, and no delivery point. *)
Definition to_the_door : value :=
  VObj [("tariffCode", VNum (Fin 751)); ("fromCityCode", VNum (Fin 44));
        ("fromAddress", VStr "г. Москва, ул. Ленина, д. 1");
        ("toCityCode", VNum (Fin 270));
        ("toAddress", VStr "г. Новосибирск, ул. Мира, д. 2");
        ("weight", VNum (Fin 50000)); ("length", VNum (Fin 50));
        ("width", VNum (Fin 50)); ("height", VNum (Fin 50));
        ("shipmentPoint", VStr "MSK5")].

(** What the carriers of the runs answer. *)
Definition token_answer : value :=
  VObj [("access_token", VStr "tok-1"); ("expires_in", VNum (Fin 3600))].

Definition vague_answer : value :=
  VObj [("access_token", VStr "tok-1"); ("expires_in", VObj [])].

Definition answer_of (v : value) : response :=
  mkResponse 200 "OK" (JSON_stringify v) (Some v).

Definition refusal : response := mkResponse 401 "ERR" "bad credentials" None.

Definition not_found : response := mkResponse 404 "ERR" "Not Found" None.

Definition quoted_tariffs : list value :=
  [tariff 136 "Посылка склад-склад"; tariff 136 "Посылка склад-склад";
   tariff 137 "Посылка склад-дверь"].

(** An environment whose variables are all set, and one without the
    password. *)
Definition full_env (name : string) : option string :=
  if String.eqb name "CDEK_API_URL" then Some "https://api.edu.cdek.ru/v2"
  else if String.eqb name "CDEK_ACCOUNT" then Some "account"
  else if String.eqb name "CDEK_SECURE_PASSWORD" then Some "secret"
  else None.

Definition no_password (name : string) : option string :=
  if String.eqb name "CDEK_SECURE_PASSWORD" then None else full_env name.

(** A request with a header of its own, and the call it makes with the
    cached token. *)
Definition english : options :=
  mkOptions (Some "GET") VUndefined [("X-User-Lang", "eng")].

Definition english_call : net_call :=
  mkCall "https://api.edu.cdek.ru/v2/calculator/tariffs" [] "GET"
    (bearer_headers ++ [("X-User-Lang", "eng")]) NoBody.

(** The calls of the two lists. *)
Definition cities_call : net_call :=
  mkCall "https://api.edu.cdek.ru/v2/location/cities"
    [("name", "Москва"); ("country_code", "RU"); ("size", "10");
     ("lang", "rus")]
    "GET" bearer_headers NoBody.

Definition offices_call : net_call :=
  mkCall "https://api.edu.cdek.ru/v2/deliverypoints"
    [("city_code", "44"); ("lang", "eng"); ("type", "PVZ")]
    "GET" bearer_headers NoBody.

(** A quote by tariff 136 with a service, a date and a shipment point; the
    call it makes from [start 1000], and the body of that call. *)
Definition insurance : value :=
  VObj [("code", VStr "INSURANCE"); ("parameter", VNum (Fin 1000));
        ("note", VStr "fragile")].

Definition tariff_quote : value :=
  VObj [("tariffCode", VStr "136");
        ("fromLocation", VObj [("code", VNum (Fin 44));
                               ("address", VStr "  г. Москва, ул. Ленина ")]);
        ("toLocation", VObj [("code", VNum (Fin 270));
                             ("address", VStr "   ")]);
        ("packages", VArr [one_package]);
        ("date", VStr "2024-01-15T12:30:45.123+0300");
        ("services", VArr [insurance]);
        ("shipmentPoint", VStr "MSK5")].

Definition tariff_quote_call : net_call :=
  nth 1 (trace (snd (calculateDeliveryByTariff (runtime carrier) tariff_quote
                       (start 1000))))
    (token_call (auth fresh_client)).

Definition body_of (c : net_call) : value :=
  match body c with
  | JsonBody v => v
  | _ => VUndefined
  end.

(** A quote whose date is a number. *)
Definition dated_by_number : value :=
  VObj [("tariffCode", VNum (Fin 136));
        ("fromLocation", VObj [("code", VNum (Fin 44))]);
        ("toLocation", VObj [("code", VNum (Fin 270))]);
        ("packages", VArr [one_package]);
        ("date", VNum (Fin 1705311045000))].

(** An order of two packages, the second without a number, for a
    recipient without phones; and the call it makes from [start 1000]. *)
Definition two_packages : value :=
  VObj [("number", VStr "ORDER-2"); ("tariffCode", VNum (Fin 136));
        ("recipient", VObj [("name", VStr "Ivan")]);
        ("packages",
         VArr [VObj [("number", VStr "BOX-A"); ("weight", VNum (Fin 2000));
                     ("length", VNum (Fin 10)); ("width", VNum (Fin 20));
                     ("height", VNum (Fin 30))];
               weightless_package]);
        ("deliveryPoint", VStr "MSK123")].

Definition two_packages_call : net_call :=
  nth 1 (trace (snd (createOrder (runtime carrier) two_packages (start 1000))))
    (token_call (auth fresh_client)).

(** An order without a number, and one with a shipment point and no
    destination. *)
Definition unnumbered_order : value :=
  VObj [("tariffCode", VNum (Fin 136));
        ("recipient", VObj [("name", VStr "Ivan")]);
        ("packages", VArr [one_package]);
        ("deliveryPoint", VStr "MSK123")].

Definition shipment_only : value :=
  order_params [("shipmentPoint", VStr "MSK5")] one_package.

(** The requests of the quote handlers: a full one, one whose origin is no
    number, and one for tariff 136 with its points. *)
Definition calculate_request : value :=
  VObj [("fromCityCode", VStr "44"); ("fromAddress", VStr "Москва");
        ("toCityCode", VStr "270"); ("toAddress", VStr "Новосибирск");
        ("weight", VStr "2000"); ("length", VStr "10");
        ("width", VStr "20"); ("height", VStr "30")].

Definition calculate_from_nowhere : value :=
  VObj [("fromCityCode", VStr "Moscow"); ("fromAddress", VStr "Москва");
        ("toCityCode", VStr "270"); ("toAddress", VStr "Новосибирск");
        ("weight", VStr "2000"); ("length", VStr "10");
        ("width", VStr "20"); ("height", VStr "30")].

Definition by_tariff_request : value :=
  VObj [("tariffCode", VNum (Fin 136)); ("fromCityCode", VNum (Fin 44));
        ("fromAddress", VStr "г. Москва, ул. Ленина, д. 1");
        ("toCityCode", VNum (Fin 270));
        ("weight", VNum (Fin 2000)); ("length", VNum (Fin 10));
        ("width", VNum (Fin 20)); ("height", VNum (Fin 30));
        ("deliveryPoint", VStr "NSK7")].

(** The call number [n], counted from 0, that [m] makes from [start 1000]. *)
Definition call_of {A} (m : M A) (n : nat) : net_call :=
  nth n (trace (snd (m (start 1000)))) (token_call (auth fresh_client)).

(** An order to an address, its code given as a number. *)
Definition order_to_the_door : value :=
  order_params [("toLocation",
                 VObj [("code", VNum (Fin 270));
                       ("address", VStr "г. Новосибирск, ул. Мира, д. 2")])]
    one_package.

(* ================================================================= *)
(** ** Vocabulary of the properties *)

(** The member [k] of [v], [undefined] when there is none. *)
Definition field (v : value) (k : string) : value :=
  match get v k with
  | Ok x => x
  | Throw _ => VUndefined
  end.

(** [m] adds to the trace only calls that satisfy [P]. *)
Definition emits {A} (P : net_call -> Prop) (m : M A) : Prop :=
  forall w, exists new, trace (snd (m w)) = trace w ++ new /\ Forall P new.

(** [c] is one of the calls that [m] issues when run in [w]. *)
Definition sent {A} (m : M A) (w : world) (c : net_call) : Prop :=
  exists before after, trace (snd (m w)) = trace w ++ before ++ c :: after.

(** Every JSON body satisfies [Q]. *)
Definition json_bodies (Q : value -> Prop) (c : net_call) : Prop :=
  match body c with
  | JsonBody v => Q v
  | _ => True
  end.

Definition silent (c : net_call) : Prop := False.

(** The cache holds a token and an expiry instant, and the clock reads
    less than that instant minus [margin].  The instant stored by
    [getToken] is the expiry announced by the carrier less 60 s: with
    margin 0 this is the test that [getToken] makes, with margin 60000 the
    clock is a further 60 s ahead of the stored instant. *)
Definition within_margin (margin : Z) (w : world) : bool :=
  let a := auth (client w) in
  truthy (token a) &&
  match tokenExpiresAt a with
  | Some t => truthy_num t && num_lt (Fin (clock w)) (num_sub t (Fin margin))
  | None => false
  end.

(** [w] is the world [w1] some time later: the clock and the console may
    have moved, the client and the trace have not. *)
Definition later (w1 w : world) : Prop :=
  client w = client w1 /\ trace w = trace w1.

Definition dimensions : list string := ["weight"; "length"; "width"; "height"].

(** One of the four dimensions of [pkg] converts to [NaN]. *)
Definition has_nan_dimension (E : env) (pkg : value) : bool :=
  existsb (fun k => isNaN (ToNumber E (field pkg k))) dimensions.

(** The members that [JSON.stringify] keeps. *)
Definition clean_members (ms : list (string * value)) : list (string * value) :=
  match json_clean (VObj ms) with
  | VObj l => l
  | _ => []
  end.

(** In [body], the location under [k] carries as [code] the string that
    [String] makes of the code of [loc]. *)
Definition code_as_string (body : value) (k : string) (loc : value) : Prop :=
  field (field body k) "code" = VStr (ToString (field loc "code")).

(** The body of the all-tariffs quote: three members, each location with
    its code only. *)
Definition minimal_quote_body (params v : value) : Prop :=
  exists packages,
    v = VObj
          [("from_location",
            VObj [("code",
                   VStr (ToString (field (field params "fromLocation") "code")))]);
           ("to_location",
            VObj [("code",
                   VStr (ToString (field (field params "toLocation") "code")))]);
           ("packages", VArr packages)].

(** [office.is_ltl === true], read as a flag. *)
Definition ltl_flag (office : value) : bool :=
  match field office "is_ltl" with
  | VBool true => true
  | _ => false
  end.

(** The office that the rule of the claim prefers: one that handles
    consolidated freight when there is one, else the first. *)
Definition preferred_office (items : list value) : option value :=
  match filter ltl_flag items with
  | o :: _ => Some o
  | [] =>
      match items with
      | o :: _ => Some o
      | [] => None
      end
  end.

Definition office_query (E : env) (city : value) : list (string * string) :=
  [("city_code", NumberToString (parseInt E city)); ("lang", "rus");
   ("type", "PVZ"); ("size", "10")].

(** What a discovery block [m], run in [w] for [city] while the point is
    [point], does: it returns, having issued the calls of
    [getOffices(parseInt(city), {type: 'PVZ', size: 10})] and no other;
    the request among them asks for the offices of type PVZ of that city;
    from a list of offices it takes the code of the preferred one; after a
    failure of the lookup it keeps the point and has written a warning. *)
Definition discovery_outcome (E : env) (city point : value) (m : M value)
    (w : world) (failed : string) : Prop :=
  let looked := getOffices E (VNum (parseInt E city))
                  [("type", VStr "PVZ"); ("size", VNum (Fin 10))] w in
  exists v w',
    m w = (Ok v, w')
    /\ trace w' = trace (snd looked)
    /\ (forall c, sent m w c -> body c = NoBody ->
        method c = "GET" /\ query c = office_query E city)
    /\ match fst looked with
       | Throw e =>
           v = point
           /\ In (mkLog LWarn [AText failed; AText (message e)]) (console w')
       | Ok offices =>
           forall items,
             offices = VArr items ->
             Forall (fun o => is_nullish o = false) items ->
             v = match preferred_office items with
                 | Some o => field o "code"
                 | None => point
                 end
       end.

(** The messages of the checks that [createOrder] makes itself. *)
Definition order_checks : list string :=
  ["Номер заказа обязателен"; "Код тарифа обязателен";
   "Получатель обязателен"; "Посылки обязательны";
   "Необходимо указать либо deliveryPoint, либо toLocation"].

(** An exception with which [createOrder] refuses its input: the [Error]
    of one of its checks, or the [TypeError] of reading into a value that
    is not there. *)
Definition order_rejection (e : js_error) : Prop :=
  (ename e = KError /\ In (message e) order_checks) \/ ename e = KTypeError.

Definition is_finite (n : number) : bool :=
  match n with Fin _ => true | _ => false end.

(** The instant that [getToken] stores after an exchange that ended at
    [now] and announced a lifetime of [secs] seconds. *)
Definition stored_expiry (now secs : Z) : Z := now + secs * 1000 - 60000.

(** The world after a [fetch] of [c]. *)
Definition fetched (E : env) (c : net_call) (w : world) : world :=
  mkWorld (client w) (clock w + elapsed (remote E (trace w) c))
    (trace w ++ [c]) (console w).

Definition logged (l : log_level) (xs : list log_arg) (w : world) : world :=
  mkWorld (client w) (clock w) (trace w) (console w ++ [mkLog l xs]).

(** The first value under [k] in a list of pairs of strings. *)
Fixpoint assoc (k : string) (ms : list (string * string)) : option string :=
  match ms with
  | [] => None
  | (k', v) :: rest => if String.eqb k k' then Some v else assoc k rest
  end.

(** The call that [request] makes once it has [token]. *)
Definition carrier_call (c : CDEKApiClient) (token : value) (path : string)
    (q : list (string * string)) (o : options) : net_call :=
  mkCall (if startsWith path "http" then path else apiUrl c +++ path) q
    (match opt_method o with Some m => m | None => "GET" end)
    (spread (spread [("Authorization", "Bearer " +++ ToString token);
                     ("Content-Type", "application/json")] (opt_headers o))
       (opt_headers o))
    (if truthy (opt_body o) then JsonBody (json_clean (opt_body o)) else NoBody).

(** What [request] makes of a response that is not a success. *)
Definition api_error (r : response) : js_error :=
  Error ("CDEK API Error (" +++ decimal (status r) +++ "): "
           +++ JSON_stringify
                 (match body_json r with
                  | Some v => v
                  | None => VObj [("message", VStr (body_text r))]
                  end)).

(** What [request] writes to the console about such a response. *)
Definition error_details (c : net_call) (r : response) : log_entry :=
  mkLog LError
    [AText "CDEK API Error Details:";
     AValue (VObj [("status", VNum (Fin (status r)));
                   ("statusText", VStr (statusText r));
                   ("url", VStr (url c));
                   ("error",
                    match body_json r with
                    | Some v => v
                    | None => VObj [("message", VStr (body_text r))]
                    end)])].

(** How [request] ends once the carrier has answered call [c], its world
    being [w]. *)
Definition answered (c : net_call) (x : fetch_result) (w : world)
  : outcome value * world :=
  match x with
  | NetworkError why => (Throw (TypeError why), w)
  | Responded r =>
      if ok r
      then match body_json r with
           | Some v => (Ok v, w)
           | None => (Throw (mkError KSyntaxError "Unexpected token in JSON"), w)
           end
      else (Throw (api_error r),
            mkWorld (client w) (clock w) (trace w)
              (console w ++ [error_details c r]))
  end.

Definition default_headers (token : value) : list (string * string) :=
  [("Authorization", "Bearer " +++ ToString token);
   ("Content-Type", "application/json")].

(** The filters of [getOffices] as query pairs. *)
Definition filter_pairs (filters : list (string * value))
  : list (string * string) :=
  map (fun kv => (fst kv, ToString (snd kv))) filters.

(** [x] when it is given, [d] when it is [undefined]. *)
Definition or_default (x d : value) : value :=
  if is_undefined x then d else x.

(** A call that reads: a GET without a body. *)
Definition reads (c : net_call) : Prop := method c = "GET" /\ body c = NoBody.

(** The body of the quote that [getTariffs] falls back on. *)
Definition fallback_body (options : value) : value :=
  let options := or_default options (VObj []) in
  VObj [("from_location",
         VObj [("code",
                VStr (ToString (js_or (field options "fromCityCode")
                                  (VNum (Fin 44)))))]);
        ("to_location",
         VObj [("code",
                VStr (ToString (js_or (field options "toCityCode")
                                  (VNum (Fin 270)))))]);
        ("packages",
         VArr [VObj [("weight", VNum (Fin 1000)); ("length", VNum (Fin 10));
                     ("width", VNum (Fin 10)); ("height", VNum (Fin 10))]])].

(** One entry of the list that the fallback returns. *)
Definition tariff_entry (tariff : value) : value :=
  VObj [("tariff_code", field tariff "tariff_code");
        ("tariff_name", field tariff "tariff_name");
        ("tariff_description",
         js_or (field tariff "tariff_description") (VStr EmptyString));
        ("delivery_mode", field tariff "delivery_mode")].

(** The direct call of [getTariffs] and the call of its fallback. *)
Definition tariffs_call (cl : CDEKApiClient) (tok lang : value) : net_call :=
  carrier_call cl tok "/calculator/tariffs" []
    (mkOptions (Some "GET") VUndefined
       [("X-User-Lang", ToString (or_default lang (VStr "rus")))]).

Definition fallback_call (cl : CDEKApiClient) (tok options : value) : net_call :=
  carrier_call cl tok "/calculator/tarifflist" []
    (mkOptions (Some "POST") (fallback_body options) []).

(** The address member of a location of the single-tariff body: the
    address trimmed, when it is a string that is not blank. *)
Definition sent_address (address : value) : list (string * value) :=
  match address with
  | VStr s => if is_empty (trim s) then [] else [("address", VStr (trim s))]
  | _ => []
  end.

(** A point of the single-tariff body or of the order body. *)
Definition sent_point (point : value) : option value :=
  if truthy point then Some (VStr (ToString point)) else None.

(** No dot followed by three digits starts in [s] before its last three
    characters can matter: [s] has no dot at all. *)
Fixpoint no_dot (s : string) : bool :=
  match s with
  | EmptyString => true
  | String c rest => negb (byte_of c =? 46)%N && no_dot rest
  end.

(** A service as the single-tariff body carries it. *)
Definition service_entry (svc : value) : value :=
  VObj [("code", field svc "code"); ("parameter", field svc "parameter")].

(** A phone of the recipient as the order body carries it. *)
Definition phone_entry (phone : value) : value :=
  VObj [("number", VStr (ToString (js_or (field phone "number") phone)))].

(** The phones of the recipient as the order body carries them. *)
Definition sent_phones (phones : value) : list value :=
  match phones with
  | VArr ps => map phone_entry ps
  | p => [VObj [("number", VStr (ToString p))]]
  end.

(** Whatever [m] answers satisfies [P]. *)
Definition replies (P : reply -> Prop) (m : M reply) : Prop :=
  forall w, match fst (m w) with Ok r => P r | Throw _ => True end.

(** [m] answers, and its answer satisfies [P]. *)
Definition answers (P : reply -> Prop) (m : M reply) : Prop :=
  forall w, exists r, fst (m w) = Ok r /\ P r.

(** When [m] answers 400, the trace is as it was: the refusal is decided
    before any call. *)
Definition refuses_early (m : M reply) : Prop :=
  forall w,
    match fst (m w) with
    | Ok r => http_status r = 400 -> trace (snd (m w)) = trace w
    | Throw _ => True
    end.

(** The body of an all-tariffs quote for one package, as it is sent. *)
Definition sent_quote (from to : string) (weight length width height : number)
  : value :=
  VObj [("from_location", VObj [("code", VStr from)]);
        ("to_location", VObj [("code", VStr to)]);
        ("packages",
         VArr [VObj [("weight", json_clean (VNum weight));
                     ("length", json_clean (VNum length));
                     ("width", json_clean (VNum width));
                     ("height", json_clean (VNum height))]])].

(** The two points of a body are those supplied: each is present exactly
    when one is supplied, as a string. *)
Definition points_as_given (shipmentPoint deliveryPoint v : value) : Prop :=
  has_key "shipment_point" v = truthy shipmentPoint
  /\ has_key "delivery_point" v = truthy deliveryPoint
  /\ (truthy shipmentPoint = true ->
      field v "shipment_point" = VStr (ToString shipmentPoint))
  /\ (truthy deliveryPoint = true ->
      field v "delivery_point" = VStr (ToString deliveryPoint)).

(** Two worlds that differ at most in what is on the console. *)
Definition same_run (w w' : world) : Prop :=
  client w = client w' /\ clock w = clock w' /\ trace w = trace w'.

(** [m], run in [w], sends a call whose JSON body is [v]. *)
Definition sends_body {A} (m : M A) (w : world) (v : value) : Prop :=
  exists c, sent m w c /\ body c = JsonBody v.

(** What [createOrder] sends where the destination goes: no
    [from_location]; a [to_location] exactly when no delivery point is
    given, its code a string. *)
Definition order_location (params v : value) : Prop :=
  has_key "from_location" v = false
  /\ has_key "to_location" v = negb (truthy (field params "deliveryPoint"))
  /\ (truthy (field params "deliveryPoint") = false ->
      code_as_string v "to_location" (field params "toLocation")).

(* ================================================================= *)
(** ** Reasoning about computations *)

Lemma emits_ret {A} P (a : A) : emits P (ret a).
Proof. intros w; exists []; cbn; rewrite app_nil_r; auto. Qed.

Lemma emits_throw {A} P e : emits P (@throw A e).
Proof. intros w; exists []; cbn; rewrite app_nil_r; auto. Qed.

Lemma emits_lift {A} P (o : outcome A) : emits P (lift o).
Proof. intros w; exists []; cbn; rewrite app_nil_r; auto. Qed.

Lemma emits_console P l xs : emits P (console_write l xs).
Proof. intros w; exists []; cbn; rewrite app_nil_r; auto. Qed.

Lemma emits_Date_now P : emits P Date_now.
Proof. intros w; exists []; cbn; rewrite app_nil_r; auto. Qed.

Lemma emits_this_auth P : emits P this_auth.
Proof. intros w; exists []; cbn; rewrite app_nil_r; auto. Qed.

Lemma emits_this_client P : emits P this_client.
Proof. intros w; exists []; cbn; rewrite app_nil_r; auto. Qed.

Lemma emits_set_auth P a : emits P (set_auth a).
Proof. intros w; exists []; cbn; rewrite app_nil_r; auto. Qed.

Lemma emits_bind {A B} P (m : M A) (k : A -> M B) :
  emits P m -> (forall a, emits P (k a)) -> emits P (bind m k).
Proof.
  intros Hm Hk w. unfold bind.
  destruct (Hm w) as [n1 [E1 F1]].
  destruct (m w) as [[a | e] w1] eqn:Hmw; cbn in E1.
  - destruct (Hk a w1) as [n2 [E2 F2]].
    exists (n1 ++ n2). rewrite E2, E1, app_assoc. split; auto.
    apply Forall_app; auto.
  - exists n1. cbn. auto.
Qed.

Lemma emits_try_catch {A} P (m : M A) (h : js_error -> M A) :
  emits P m -> (forall e, emits P (h e)) -> emits P (try_catch m h).
Proof.
  intros Hm Hh w. unfold try_catch.
  destruct (Hm w) as [n1 [E1 F1]].
  destruct (m w) as [[a | e] w1] eqn:Hmw; cbn in E1.
  - exists n1. cbn. auto.
  - destruct (Hh e w1) as [n2 [E2 F2]].
    exists (n1 ++ n2). rewrite E2, E1, app_assoc. split; auto.
    apply Forall_app; auto.
Qed.

(** When the first step is pure, only its result matters for the rest. *)
Lemma emits_lift_bind {A B} P (o : outcome A) (k : A -> M B) :
  (forall a, o = Ok a -> emits P (k a)) -> emits P (bind (lift o) k).
Proof.
  intros Hk w. unfold bind, lift. destruct o as [a | e].
  - apply Hk; reflexivity.
  - exists []; cbn; rewrite app_nil_r; auto.
Qed.

Lemma emits_fetch E P c : P c -> emits P (fetch E c).
Proof.
  intros Hc w. exists [c]. unfold fetch.
  destruct (result (remote E (trace w) c)); cbn; auto.
Qed.

Lemma emits_sent {A} P (m : M A) w c : emits P m -> sent m w c -> P c.
Proof.
  intros Hm [before [after Hs]]. destruct (Hm w) as [n [E1 F1]].
  rewrite E1 in Hs. apply app_inv_head in Hs. subst n.
  rewrite Forall_forall in F1. apply F1.
  apply in_or_app; right; left; reflexivity.
Qed.

Lemma silent_trace {A} (m : M A) w : emits silent m -> trace (snd (m w)) = trace w.
Proof.
  intros Hm. destruct (Hm w) as [n [E1 F1]].
  destruct n as [| c n]; [now rewrite app_nil_r in E1 |].
  inversion F1 as [| ? ? Hc]; destruct Hc.
Qed.

Create HintDb emits.

#[local] Hint Resolve emits_ret emits_throw emits_lift emits_console
  emits_Date_now emits_this_auth emits_this_client emits_set_auth : emits.

Ltac emits_step :=
  first [ apply emits_bind; [| intros ?]
        | apply emits_try_catch; [| intros ?]
        | solve [auto with emits] ].

Lemma emits_set_token P v : emits P (set_token v).
Proof. unfold set_token. repeat emits_step. Qed.

Lemma emits_set_tokenExpiresAt P x : emits P (set_tokenExpiresAt x).
Proof. unfold set_tokenExpiresAt. repeat emits_step. Qed.

Lemma emits_response_json P r : emits P (response_json r).
Proof. unfold response_json. destruct (body_json r); auto with emits. Qed.

#[local] Hint Resolve emits_set_token emits_set_tokenExpiresAt
  emits_response_json : emits.

(** What follows the token exchange inside [getToken] touches no network. *)
Lemma emits_getToken E P :
  (forall a, P (token_call a)) -> emits P (getToken E).
Proof.
  intros HP. unfold getToken.
  apply emits_bind; [auto with emits | intros a].
  apply emits_bind; [auto with emits | intros now].
  destruct (cache_valid a now); [auto with emits |].
  apply emits_try_catch.
  - apply emits_bind; [apply emits_fetch, HP | intros r].
    apply emits_bind; [destruct (negb (ok r)); auto with emits | intros _].
    repeat emits_step.
  - intros e. repeat emits_step.
Qed.

Lemma emits_request E (Q : value -> Prop) path q o :
  (truthy (opt_body o) = true -> Q (json_clean (opt_body o))) ->
  emits (json_bodies Q) (request E path q o).
Proof.
  intros HQ. unfold request.
  apply emits_bind; [apply emits_getToken; intros a; exact I | intros token].
  apply emits_bind; [auto with emits | intros c].
  apply emits_bind.
  - apply emits_fetch. unfold json_bodies; cbn.
    destruct (truthy (opt_body o)); auto.
  - intros r. destruct (negb (ok r)); repeat emits_step.
Qed.

Lemma bind_this_auth {B} (k : CDEKAuth -> M B) w :
  bind this_auth k w = k (auth (client w)) w.
Proof. reflexivity. Qed.

Lemma bind_Date_now {B} (k : Z -> M B) w : bind Date_now k w = k (clock w) w.
Proof. reflexivity. Qed.

(** A [try] block that starts with a [fetch] and touches the network
    nowhere else adds exactly that call, whatever the carrier answers. *)
Lemma trace_try_fetch {A} E c (rest : response -> M A) (h : js_error -> M A) w :
  (forall r, emits silent (rest r)) ->
  (forall e, emits silent (h e)) ->
  trace (snd (try_catch (bind (fetch E c) rest) h w)) = trace w ++ [c].
Proof.
  intros Hrest Hh. unfold try_catch, bind, fetch.
  set (w1 := mkWorld (client w) (clock w + elapsed (remote E (trace w) c))
               (trace w ++ [c]) (console w)).
  destruct (result (remote E (trace w) c)) as [why | r].
  - exact (silent_trace (h (TypeError why)) w1 (Hh _)).
  - pose proof (silent_trace (rest r) w1 (Hrest r)) as H1.
    destruct (rest r w1) as [[a | e] w2]; cbn in H1 |- *; [exact H1 |].
    rewrite (silent_trace (h e) w2 (Hh e)). exact H1.
Qed.

Lemma margin_cache_valid margin w :
  0 <= margin ->
  within_margin margin w = true ->
  cache_valid (auth (client w)) (clock w) = true.
Proof.
  intros Hpos. unfold within_margin, cache_valid.
  destruct (truthy (token (auth (client w)))); cbn; [| discriminate].
  destruct (tokenExpiresAt (auth (client w))) as [[| b | z] |]; cbn;
    try discriminate; auto.
  destruct (z =? 0); cbn; [discriminate |].
  intros H. apply Z.ltb_lt in H. apply Z.ltb_lt. lia.
Qed.

Lemma getToken_hit E w :
  cache_valid (auth (client w)) (clock w) = true ->
  getToken E w = (Ok (token (auth (client w))), w).
Proof.
  intros H. unfold getToken. rewrite bind_this_auth, bind_Date_now, H.
  reflexivity.
Qed.

Lemma getToken_miss_trace E w :
  cache_valid (auth (client w)) (clock w) = false ->
  trace (snd (getToken E w)) = trace w ++ [token_call (auth (client w))].
Proof.
  intros H. unfold getToken. rewrite bind_this_auth, bind_Date_now, H.
  apply trace_try_fetch.
  - intros r.
    apply emits_bind; [destruct (negb (ok r)); auto with emits | intros _].
    repeat emits_step.
  - intros e. repeat emits_step.
Qed.

(* ================================================================= *)
(** ** The credential cache *)

(** C1.  When the cache holds a token and an expiry instant and the clock
    reads less than that instant minus the margin (60 s, or any margin from
    0 up), [getToken] hands back the cached token and leaves the world as
    it was: no [fetch] is issued.  Consequently, when a first call found
    nothing valid in the cache and a second call is made in such a world
    [w], left by the first some time later, the two calls together have
    issued exactly one call, the token exchange. *)
Theorem getToken_within_margin E margin w :
  0 <= margin ->
  within_margin margin w = true ->
  getToken E w = (Ok (token (auth (client w))), w) /\
  forall w0,
    cache_valid (auth (client w0)) (clock w0) = false ->
    later (snd (getToken E w0)) w ->
    trace (snd (getToken E w)) = trace w0 ++ [token_call (auth (client w0))].
Proof.
  intros Hpos Hm.
  pose proof (getToken_hit E w (margin_cache_valid margin w Hpos Hm)) as Hhit.
  split; [exact Hhit |].
  intros w0 Hmiss [_ Htr]. rewrite Hhit. cbn.
  rewrite Htr. apply getToken_miss_trace, Hmiss.
Qed.

(** C2.  When the exchange is answered with a status outside 200..299,
    [getToken] throws an error whose message carries the status code and
    the response text, and the client object, hence the stored token and
    expiry, is what it was before the call. *)
Theorem getToken_rejected E w r :
  cache_valid (auth (client w)) (clock w) = false ->
  result (remote E (trace w) (token_call (auth (client w)))) = Responded r ->
  ok r = false ->
  exists w',
    getToken E w
    = (Throw (Error ("Ошибка авторизации: " +++ decimal (status r) +++ " "
                       +++ body_text r)), w')
    /\ client w' = client w
    /\ token (auth (client w')) = token (auth (client w))
    /\ tokenExpiresAt (auth (client w')) = tokenExpiresAt (auth (client w)).
Proof.
  intros Hmiss Hr Hok. unfold getToken.
  rewrite bind_this_auth, bind_Date_now, Hmiss.
  unfold try_catch, bind at 1. unfold fetch. rewrite Hr.
  unfold bind at 1. rewrite Hok. cbn.
  eexists; split; [reflexivity |]. cbn. auto.
Qed.

(* ================================================================= *)
(** ** Values and bodies *)

Lemma get_field v k : is_nullish v = false -> get v k = Ok (field v k).
Proof. unfold field. destruct v; cbn; try discriminate; reflexivity. Qed.

Lemma get_Ok_field v k x : get v k = Ok x -> field v k = x.
Proof. unfold field. intros ->. reflexivity. Qed.

Lemma get_Ok_not_nullish v k x : get v k = Ok x -> is_nullish v = false.
Proof. destruct v; cbn; try discriminate; reflexivity. Qed.

Lemma mapM_throws {A B} (f : A -> outcome B) xs x e :
  In x xs -> f x = Throw e -> exists e', mapM f xs = Throw e'.
Proof.
  induction xs as [| y ys IH]; cbn; [tauto |].
  intros [-> | Hin] Hx.
  - rewrite Hx. eauto.
  - destruct (f y); [| eauto].
    destruct (IH Hin Hx) as [e' ->]. eauto.
Qed.

(** A package with a dimension that converts to [NaN] is refused by the
    callback of both quote methods. *)
Lemma quote_package_nan E pkg :
  has_nan_dimension E pkg = true ->
  exists e, quote_package E pkg = Throw e /\
            (is_nullish pkg = false ->
             e = Error "Неверные числовые значения в параметрах посылки").
Proof.
  intros H. destruct (is_nullish pkg) eqn:Hn.
  - destruct pkg; try discriminate; cbn; eauto.
    + eexists; split; [reflexivity | discriminate].
    + eexists; split; [reflexivity | discriminate].
  - unfold quote_package. rewrite !(get_field _ _ Hn). cbn [obind].
    unfold has_nan_dimension, dimensions in H. cbn [existsb] in H.
    rewrite orb_false_r in H.
    cbv zeta. rewrite <- !orb_assoc, H. eauto.
Qed.

Lemma packages_with_nan E pkgs :
  existsb (has_nan_dimension E) pkgs = true ->
  exists e, mapM (quote_package E) pkgs = Throw e.
Proof.
  intros H. apply existsb_exists in H. destruct H as [p [Hin Hp]].
  destruct (quote_package_nan E p Hp) as [e [He _]].
  eapply mapM_throws; eauto.
Qed.

Lemma calculateDelivery_throws E params w e :
  calculateDelivery_body E params = Throw e ->
  calculateDelivery E params w = (Throw e, w).
Proof. intros H. unfold calculateDelivery. rewrite H. reflexivity. Qed.

Lemma calculateDeliveryByTariff_throws E params w e :
  calculateDeliveryByTariff_body E (clock w) params = Throw e ->
  calculateDeliveryByTariff E params w = (Throw e, w).
Proof.
  intros H. unfold calculateDeliveryByTariff. rewrite bind_Date_now, H.
  reflexivity.
Qed.

Lemma createOrder_throws E params w e :
  createOrder_body E params = Throw e ->
  createOrder E params w = (Throw e, w).
Proof. intros H. unfold createOrder. rewrite H. reflexivity. Qed.

(** Runs a chain of pure steps until the goal is decided: a step that
    throws ends the chain with that exception. *)
Ltac step_or_throw :=
  cbn [obind array_method];
  match goal with
  | |- exists _, obind (mapM _ _) _ = _ => fail 1
  | |- exists _, obind ?o _ = _ =>
      let X := fresh "X" in
      destruct o eqn:X; cbn [obind]; [| solve [eauto]]
  end.

(* ================================================================= *)
(** ** Validation before the network *)

(** C10.  With an empty [packages] array the all-tariffs quote throws and
    leaves the world untouched: neither a token exchange nor a carrier
    request is issued.  When both locations are given, the exception is
    the one of the emptiness check. *)
Theorem empty_packages_rejected E params w :
  get params "packages" = Ok (VArr []) ->
  exists e,
    calculateDelivery E params w = (Throw e, w)
    /\ (is_nullish (field params "fromLocation") = false ->
        is_nullish (field params "toLocation") = false ->
        e = Error "packages должен быть непустым массивом").
Proof.
  intros Hp. pose proof (get_Ok_not_nullish _ _ _ Hp) as Hn.
  assert (Hb : exists e, calculateDelivery_body E params = Throw e /\
                 (is_nullish (field params "fromLocation") = false ->
                  is_nullish (field params "toLocation") = false ->
                  e = Error "packages должен быть непустым массивом")).
  { unfold calculateDelivery_body.
    rewrite (get_field _ "fromLocation" Hn), (get_field _ "toLocation" Hn), Hp.
    cbn [obind].
    destruct (is_nullish (field params "fromLocation")) eqn:Hf.
    - destruct (field params "fromLocation"); try discriminate; cbn;
        eexists; (split; [reflexivity | discriminate]).
    - rewrite (get_field _ "code" Hf). cbn [obind].
      destruct (is_nullish (field params "toLocation")) eqn:Ht.
      + destruct (field params "toLocation"); try discriminate; cbn;
          eexists; (split; [reflexivity | discriminate]).
      + rewrite (get_field _ "code" Ht). cbn. eauto. }
  destruct Hb as [e [Hb He]]. exists e. split; [| exact He].
  apply calculateDelivery_throws, Hb.
Qed.

(** C3, as the code has it.  When one of weight, length, width or height
    of some package converts to [NaN], the all-tariffs quote and the
    single-tariff quote throw and leave the world untouched, so that no
    token exchange and no carrier request is issued; for a package that is
    neither [null] nor [undefined] the callback throws the error of the
    numeric check. *)
Theorem nan_dimension_rejected E params pkgs w :
  get params "packages" = Ok (VArr pkgs) ->
  existsb (has_nan_dimension E) pkgs = true ->
  (exists e, calculateDelivery E params w = (Throw e, w))
  /\ (exists e, calculateDeliveryByTariff E params w = (Throw e, w))
  /\ (forall pkg, In pkg pkgs -> has_nan_dimension E pkg = true ->
      is_nullish pkg = false ->
      quote_package E pkg
      = Throw (Error "Неверные числовые значения в параметрах посылки")).
Proof.
  intros Hp Hnan.
  destruct (packages_with_nan E pkgs Hnan) as [e0 Hmap].
  repeat split.
  - assert (Hb : exists e, calculateDelivery_body E params = Throw e).
    { unfold calculateDelivery_body. rewrite Hp.
      repeat step_or_throw. rewrite Hmap. cbn [obind]. eauto. }
    destruct Hb as [e Hb]. exists e. apply calculateDelivery_throws, Hb.
  - assert (Hb : exists e,
               calculateDeliveryByTariff_body E (clock w) params = Throw e).
    { unfold calculateDeliveryByTariff_body. rewrite Hp.
      repeat step_or_throw. rewrite Hmap. cbn [obind]. eauto. }
    destruct Hb as [e Hb]. exists e. apply calculateDeliveryByTariff_throws, Hb.
  - intros pkg _ Hpkg Hn.
    destruct (quote_package_nan E pkg Hpkg) as [e [He Hmsg]].
    rewrite He, (Hmsg Hn). reflexivity.
Qed.

(* ================================================================= *)
(** ** What is serialised *)

Ltac step_ok H :=
  cbn [obind array_method] in H;
  match type of H with
  | obind ?o _ = Ok _ =>
      let X := fresh "X" in
      destruct o eqn:X; cbn [obind] in H; [| discriminate H]
  end.

(** Turns each successful read [get v k = Ok a] into [a := field v k]. *)
Ltac fields_of_gets :=
  repeat match goal with
         | X : get _ _ = Ok ?a |- _ => apply get_Ok_field in X; subst a
         end.

Lemma json_clean_obj ms : json_clean (VObj ms) = VObj (clean_members ms).
Proof. reflexivity. Qed.

Lemma clean_members_cons k x rest :
  clean_members ((k, x) :: rest)
  = if is_undefined x then clean_members rest
    else (k, json_clean x) :: clean_members rest.
Proof. reflexivity. Qed.

Lemma lookup_clean k ms x :
  lookup k ms = Some x -> is_undefined x = false ->
  lookup k (clean_members ms) = Some (json_clean x).
Proof.
  induction ms as [| [k' y] rest IH]; cbn [lookup]; [discriminate |].
  rewrite clean_members_cons.
  destruct (String.eqb k k') eqn:Hk.
  - intros [= ->] Hx. rewrite Hx. cbn [lookup]. rewrite Hk. reflexivity.
  - intros Hl Hx. destruct (is_undefined y); [auto |].
    cbn [lookup]. rewrite Hk. auto.
Qed.

Lemma lookup_clean_none k ms :
  lookup k ms = None -> lookup k (clean_members ms) = None.
Proof.
  induction ms as [| [k' y] rest IH]; cbn [lookup]; [reflexivity |].
  rewrite clean_members_cons.
  destruct (String.eqb k k') eqn:Hk; [discriminate |].
  intros Hl. destruct (is_undefined y); [auto |].
  cbn [lookup]. rewrite Hk. auto.
Qed.

Lemma field_obj k ms :
  field (VObj ms) k = match lookup k ms with Some x => x | None => VUndefined end.
Proof. reflexivity. Qed.

Lemma field_clean k ms x :
  lookup k ms = Some x -> is_undefined x = false ->
  field (json_clean (VObj ms)) k = json_clean x.
Proof.
  intros Hl Hx. rewrite json_clean_obj, field_obj, (lookup_clean _ _ _ Hl Hx).
  reflexivity.
Qed.

Lemma has_key_clean_false k ms :
  has_key k (VObj ms) = false -> has_key k (json_clean (VObj ms)) = false.
Proof.
  rewrite json_clean_obj. cbn [has_key].
  destruct (lookup k ms) eqn:Hl; [discriminate |].
  rewrite (lookup_clean_none _ _ Hl). reflexivity.
Qed.

(** A member that is a string is the only shape under which the field of a
    field can be a string: the outer value and the member are objects. *)
Lemma field_string_inv v k s :
  field v k = VStr s -> exists ms, v = VObj ms /\ lookup k ms = Some (VStr s).
Proof.
  unfold field. destruct v; cbn; try discriminate.
  - destruct (String.eqb k "length"); discriminate.
  - destruct (String.eqb k "length"); discriminate.
  - destruct (lookup k members) eqn:Hl; [| discriminate].
    intros ->. eauto.
Qed.

Lemma field_object_inv v k ms :
  field v k = VObj ms -> exists vs, v = VObj vs /\ lookup k vs = Some (VObj ms).
Proof.
  unfold field. destruct v; cbn; try discriminate.
  - destruct (String.eqb k "length"); discriminate.
  - destruct (String.eqb k "length"); discriminate.
  - destruct (lookup k members) eqn:Hl; [| discriminate].
    intros ->. eauto.
Qed.

(** Serialising keeps a string found under [k] then ["code"]. *)
Lemma code_field_clean v k s :
  field (field v k) "code" = VStr s ->
  field (field (json_clean v) k) "code" = VStr s.
Proof.
  intros H. destruct (field_string_inv _ _ _ H) as [ms [Hloc Hcode]].
  destruct (field_object_inv _ _ _ Hloc) as [vs [-> Hk]].
  rewrite (field_clean k vs (VObj ms) Hk eq_refl).
  rewrite (field_clean "code" ms (VStr s) Hcode eq_refl). reflexivity.
Qed.

Lemma code_as_string_clean v k loc :
  code_as_string v k loc -> code_as_string (json_clean v) k loc.
Proof. apply code_field_clean. Qed.

Lemma calculateDelivery_body_shape E params b :
  calculateDelivery_body E params = Ok b -> minimal_quote_body params b.
Proof.
  unfold calculateDelivery_body. intros H.
  repeat step_ok H. fields_of_gets.
  match type of H with
  | (if ?c then _ else _) = _ => destruct c; [discriminate |]
  end.
  injection H as <-. eexists. cbn. reflexivity.
Qed.

Lemma minimal_quote_body_clean params b :
  minimal_quote_body params b -> minimal_quote_body params (json_clean b).
Proof. intros [ps ->]. eexists. cbn. reflexivity. Qed.

Lemma minimal_quote_codes params b :
  minimal_quote_body params b ->
  code_as_string b "from_location" (field params "fromLocation")
  /\ code_as_string b "to_location" (field params "toLocation").
Proof. intros [ps ->]. split; reflexivity. Qed.

Lemma emits_calculateDelivery E params :
  emits (json_bodies (minimal_quote_body params)) (calculateDelivery E params).
Proof.
  unfold calculateDelivery. apply emits_lift_bind. intros b Hb.
  apply emits_bind;
    [destruct (negb (string_eq_opt (NODE_ENV E) "production"));
     auto with emits | intros _].
  apply emits_request. intros _. cbn [opt_body].
  apply minimal_quote_body_clean, (calculateDelivery_body_shape E), Hb.
Qed.

(** C5.  Every JSON body that the all-tariffs quote sends is an object of
    exactly three members, [from_location], [to_location] and [packages],
    in which each location has the single member [code], the string made
    of the code supplied; an address given with a location is not sent. *)
Theorem quote_body_minimal E params w c v :
  sent (calculateDelivery E params) w c ->
  body c = JsonBody v ->
  minimal_quote_body params v.
Proof.
  intros Hs Hb.
  pose proof (emits_sent _ _ w c (emits_calculateDelivery E params) Hs) as H.
  unfold json_bodies in H. rewrite Hb in H. exact H.
Qed.

Lemma lookup_assign k k' v ms :
  String.eqb k k' = false -> lookup k (assign k' v ms) = lookup k ms.
Proof.
  intros Hk. induction ms as [| [k0 x] rest IH]; cbn.
  - rewrite Hk. reflexivity.
  - destruct (String.eqb k' k0) eqn:H0.
    + apply String.eqb_eq in H0. subst k0. cbn. rewrite Hk. reflexivity.
    + cbn. destruct (String.eqb k k0); auto.
Qed.

Lemma lookup_assign_same k v ms : lookup k (assign k v ms) = Some v.
Proof.
  induction ms as [| [k0 x] rest IH]; cbn.
  - rewrite String.eqb_refl. reflexivity.
  - destruct (String.eqb k k0) eqn:H0; cbn.
    + rewrite String.eqb_refl. reflexivity.
    + rewrite H0. exact IH.
Qed.

(** [H : Ok x = Ok b] names [b], with [x] kept as it is written. *)
Ltac unwrap_ok H :=
  match type of H with
  | Ok ?x = Ok ?b =>
      let Hb := fresh "Hb" in
      assert (Hb : b = x) by (injection H; intros Hinj; symmetry; exact Hinj);
      clear H; subst b
  end.

Ltac step_if H :=
  match type of H with
  | (if ?c then _ else _) = Ok _ =>
      let X := fresh "C" in destruct c eqn:X; try discriminate H
  end.

Lemma tariff_location_code loc l :
  tariff_location loc = Ok l ->
  field l "code" = VStr (ToString (field loc "code")).
Proof.
  unfold tariff_location. intros H. repeat step_ok H. fields_of_gets.
  destruct (field loc "address"); try (injection H as <-; reflexivity).
  step_if H; injection H as <-; reflexivity.
Qed.

Lemma calculateDeliveryByTariff_body_codes E now params b :
  calculateDeliveryByTariff_body E now params = Ok b ->
  code_as_string b "from_location" (field params "fromLocation")
  /\ code_as_string b "to_location" (field params "toLocation").
Proof.
  unfold calculateDeliveryByTariff_body. intros H.
  repeat step_ok H. fields_of_gets.
  unwrap_ok H.
  match goal with
  | Hf : tariff_location (field params "fromLocation") = Ok ?f,
    Ht : tariff_location (field params "toLocation") = Ok ?t,
    X : (if truthy _ then _ else _) = Ok ?b1 |- _ =>
      apply tariff_location_code in Hf; apply tariff_location_code in Ht;
      assert (Hl : lookup "from_location" b1 = Some f
                   /\ lookup "to_location" b1 = Some t);
      [ repeat first [step_if X | step_ok X]; injection X as <-;
        rewrite ?lookup_assign by reflexivity; split; reflexivity |]
  end.
  destruct Hl as [Hlf Hlt].
  split; apply code_as_string_clean; unfold code_as_string;
    rewrite field_obj;
    repeat match goal with
           | |- context [if ?c then _ else _] => destruct c
           end;
    rewrite ?lookup_assign by reflexivity;
    rewrite ?Hlf, ?Hlt; assumption.
Qed.

Lemma emits_calculateDeliveryByTariff E params :
  emits (json_bodies
           (fun v =>
              code_as_string v "from_location" (field params "fromLocation")
              /\ code_as_string v "to_location" (field params "toLocation")))
    (calculateDeliveryByTariff E params).
Proof.
  unfold calculateDeliveryByTariff.
  apply emits_bind; [auto with emits | intros now].
  apply emits_lift_bind. intros b Hb.
  apply emits_bind; [auto with emits | intros _].
  apply emits_request. intros _. cbn [opt_body].
  destruct (calculateDeliveryByTariff_body_codes E now params b Hb).
  split; apply code_as_string_clean; assumption.
Qed.

(** The two ways in which [createOrder] completes its body: with the
    delivery point, or, when there is none, with the location. *)
Lemma createOrder_body_destination E params b :
  createOrder_body E params = Ok b ->
  exists body1,
    ((truthy (field params "deliveryPoint") = true
      /\ b = VObj (assign "delivery_point"
                     (VStr (ToString (field params "deliveryPoint"))) body1))
     \/ (truthy (field params "deliveryPoint") = false
         /\ truthy (field params "toLocation") = true
         /\ exists rest,
             b = VObj (assign "to_location"
                         (VObj (("code",
                                 VStr (ToString
                                         (field (field params "toLocation")
                                            "code"))) :: rest))
                         body1)))
    /\ lookup "delivery_point" body1 = None
    /\ lookup "to_location" body1 = None.
Proof.
  unfold createOrder_body. intros H.
  repeat first [step_ok H | step_if H]; fields_of_gets;
    repeat match type of H with
           | context [if ?c then _ else _] => destruct c
           end;
    unwrap_ok H; eexists;
    (split;
     [ first [ left; split; [assumption | reflexivity]
             | right; split; [assumption |]; split; [assumption |];
               eexists; reflexivity ]
     | split; reflexivity ]).
Qed.


Lemma get_throws v k e : get v k = Throw e -> ename e = KTypeError.
Proof. destruct v; cbn; intros [= <-]; reflexivity. Qed.

Lemma get_default_throws v k d e :
  get_default v k d = Throw e -> ename e = KTypeError.
Proof.
  unfold get_default. destruct (get v k) as [x | e'] eqn:Hg.
  - destruct x; discriminate.
  - intros [= <-]. eapply get_throws; eauto.
Qed.

Lemma array_method_throws v name e :
  array_method v name = Throw e -> ename e = KTypeError.
Proof. destruct v; cbn; intros [= <-]; reflexivity. Qed.

Lemma mapM_throws_only {A B} (P : js_error -> Prop) (f : A -> outcome B) xs e :
  (forall x e', f x = Throw e' -> P e') -> mapM f xs = Throw e -> P e.
Proof.
  intros Hf. induction xs as [| x rest IH]; cbn; [discriminate |].
  destruct (f x) as [y | e'] eqn:Hx.
  - destruct (mapM f rest); [discriminate |]. intros [= <-]. auto.
  - intros [= <-]. eauto.
Qed.

Lemma mapiM_throws_only {A B} (P : js_error -> Prop) (f : A -> Z -> outcome B)
    xs i e :
  (forall x j e', f x j = Throw e' -> P e') -> mapiM f i xs = Throw e -> P e.
Proof.
  intros Hf. revert i. induction xs as [| x rest IH]; intros i; cbn;
    [discriminate |].
  destruct (f x i) as [y | e'] eqn:Hx; cbn [obind].
  - destruct (mapiM f (i + 1) rest) eqn:Hr; cbn [obind]; [discriminate |].
    intros [= <-]. eauto.
  - intros [= <-]. eauto.
Qed.

(** A chain of pure steps that ended in [Throw e]: the step that threw. *)
Ltac step_throw H :=
  cbn [obind] in H;
  match type of H with
  | obind ?o _ = Throw _ =>
      let X := fresh "X" in
      destruct o eqn:X; cbn [obind] in H;
      [| injection H as <-]
  | (if ?c then _ else _) = Throw _ => destruct c
  | Throw _ = Throw _ => injection H as <-
  | Ok _ = Throw _ => discriminate H
  end.

Lemma order_phone_throws phone e :
  order_phone phone = Throw e -> ename e = KTypeError.
Proof.
  unfold order_phone. intros H. step_throw H; [discriminate |].
  eapply get_throws; eauto.
Qed.

Lemma order_package_throws E pkg i e :
  order_package E pkg i = Throw e -> ename e = KTypeError.
Proof.
  unfold order_package. intros H.
  repeat (step_throw H; [| eapply get_throws; eassumption]).
  discriminate.
Qed.

(** Whatever [createOrder] throws while it builds the body is one of its
    own checks or a [TypeError]. *)
Lemma createOrder_body_rejection E params e :
  createOrder_body E params = Throw e -> order_rejection e.
Proof.
  unfold createOrder_body, order_rejection, order_checks. intros H.
  repeat
    (step_throw H;
     try solve
       [ right;
         first [ eapply get_throws; eassumption
               | eapply get_default_throws; eassumption
               | eapply array_method_throws; eassumption ]
       | left; split; [reflexivity | cbn; tauto] ]).
  all: right;
    match goal with
    | X : mapiM _ _ _ = Throw _ |- _ =>
        eapply (mapiM_throws_only (fun e => ename e = KTypeError));
        [intros ? ? ?; apply order_package_throws | exact X]
    | X : (if ?c then _ else _) = Throw _ |- _ =>
        destruct c; [eapply get_throws; exact X | discriminate X]
    | X : match ?p with _ => _ end = Throw _ |- _ =>
        destruct p; try discriminate X;
        eapply (mapM_throws_only (fun e => ename e = KTypeError));
        [intros ? ?; apply order_phone_throws | exact X]
    end.
Qed.

(* ================================================================= *)
(** ** Request bodies *)


(* ================================================================= *)
(** ** Address formatting *)

Lemma trim_empty_string : trim EmptyString = EmptyString.
Proof. reflexivity. Qed.

(** C9, as the code has it.  For an address that is not blank, with [t]
    the address trimmed: when [t] has no comma and does not already start
    with the marker, the result is the marker followed by [t]; when [t]
    has a comma, or starts with the marker, the result is [t]. *)
Theorem formatAddress_rule s :
  is_empty (trim s) = false ->
  (includes (trim s) "," = false -> startsWith (trim s) "г. " = false ->
   formatAddress (VStr s) = Ok (VStr ("г. " +++ trim s)))
  /\ (includes (trim s) "," = true -> formatAddress (VStr s) = Ok (VStr (trim s)))
  /\ (startsWith (trim s) "г. " = true ->
      formatAddress (VStr s) = Ok (VStr (trim s))).
Proof.
  intros Hb.
  assert (Hs : truthy (VStr s) = true).
  { destruct s; [rewrite trim_empty_string in Hb; discriminate | reflexivity]. }
  unfold formatAddress. rewrite Hs, Hb. cbn [negb].
  repeat split.
  - intros -> ->. reflexivity.
  - intros ->. rewrite andb_false_r. reflexivity.
  - intros ->. reflexivity.
Qed.

(* ================================================================= *)
(** ** Listing tariffs *)

(** C6, the code at the failing inputs.  With a carrier that answers 404
    on [/calculator/tariffs] and quotes tariff 136 twice, [getTariffs]
    returns tariff 136 twice: nothing is de-duplicated.  With a carrier
    that answers 500 there, in a text holding the digits 404, the failure
    does not reach the caller: the fallback runs and a list comes back. *)
Theorem getTariffs_fallback_runs :
  fst (getTariffs (runtime carrier) VUndefined VUndefined (start 1000))
  = Ok (VArr [VObj [("tariff_code", VNum (Fin 136));
                    ("tariff_name", VStr "Посылка склад-склад");
                    ("tariff_description", VStr EmptyString);
                    ("delivery_mode", VNum (Fin 1))];
              VObj [("tariff_code", VNum (Fin 136));
                    ("tariff_name", VStr "Посылка склад-склад");
                    ("tariff_description", VStr EmptyString);
                    ("delivery_mode", VNum (Fin 1))];
              VObj [("tariff_code", VNum (Fin 137));
                    ("tariff_name", VStr "Посылка склад-дверь");
                    ("tariff_description", VStr EmptyString);
                    ("delivery_mode", VNum (Fin 1))]])
  /\ (result (broken [token_call (auth fresh_client)]
                (mkCall "https://api.edu.cdek.ru/v2/calculator/tariffs" [] "GET"
                   [("Authorization", "Bearer tok-1");
                    ("Content-Type", "application/json");
                    ("X-User-Lang", "rus")] NoBody))
      = Responded (mkResponse 500 "ERR" "upstream error, ticket 404" None)
      /\ exists items,
          fst (getTariffs (runtime broken) VUndefined VUndefined (start 1000))
          = Ok (VArr items)).
Proof.
  split; [vm_compute; reflexivity |].
  split; [vm_compute; reflexivity |].
  eexists. vm_compute. reflexivity.
Qed.

(* ================================================================= *)
(** ** Discovery of pickup points *)

Lemma emits_request_calls E (P : net_call -> Prop) path q o :
  (forall a, P (token_call a)) ->
  (forall u h,
     P (mkCall u q (match opt_method o with Some m => m | None => "GET" end) h
          (if truthy (opt_body o) then JsonBody (json_clean (opt_body o))
           else NoBody))) ->
  emits P (request E path q o).
Proof.
  intros Htok Hcall. unfold request.
  apply emits_bind; [apply emits_getToken, Htok | intros token].
  apply emits_bind; [auto with emits | intros c].
  apply emits_bind; [apply emits_fetch, Hcall | intros r].
  destruct (negb (ok r)); repeat emits_step.
Qed.

Lemma getOffices_PVZ E city :
  getOffices E (VNum (parseInt E city))
    [("type", VStr "PVZ"); ("size", VNum (Fin 10))]
  = request E "/deliverypoints" (office_query E city) no_options.
Proof. reflexivity. Qed.

Lemma filterM_is_ltl items :
  Forall (fun o => is_nullish o = false) items ->
  filterM is_ltl items = Ok (filter ltl_flag items).
Proof.
  induction 1 as [| o rest Ho _ IH]; [reflexivity |].
  cbn [filterM filter]. unfold is_ltl at 1, ltl_flag at 1.
  rewrite (get_field _ _ Ho). cbn [obind]. rewrite IH. cbn [obind].
  reflexivity.
Qed.

Lemma filter_head_in {A} (p : A -> bool) xs o rest :
  filter p xs = o :: rest -> In o xs /\ p o = true.
Proof.
  intros H. apply filter_In. rewrite H. left; reflexivity.
Qed.

(** On a list of offices the code follows the rule of the claim. *)
Lemma pick_office_preferred E items :
  Forall (fun o => is_nullish o = false) items ->
  exists flag,
    pick_office E (VArr items)
    = Ok (match preferred_office items with
          | Some o => Some (field o "code", flag)
          | None => None
          end).
Proof.
  intros Hall. unfold pick_office, preferred_office.
  cbn [truthy get obind String.eqb Ascii.eqb Bool.eqb].
  unfold gt_zero. cbn [ToNumber num_lt].
  destruct items as [| o rest]; [exists true; reflexivity |].
  replace (0 <? Z.of_nat (List.length (o :: rest))) with true
    by (symmetry; apply Z.ltb_lt; cbn [List.length]; lia).
  cbn [array_method obind]. rewrite (filterM_is_ltl _ Hall). cbn [obind].
  destruct (filter ltl_flag (o :: rest)) as [| f fs] eqn:Hf.
  - cbn [List.length Z.of_nat Z.ltb Z.compare nth].
    inversion Hall as [| ? ? Ho _]; subst.
    rewrite (get_field _ _ Ho). exists false. reflexivity.
  - replace (0 <? Z.of_nat (List.length (f :: fs))) with true
      by (symmetry; apply Z.ltb_lt; cbn [List.length]; lia).
    cbn [nth]. destruct (filter_head_in _ _ _ _ Hf) as [Hin _].
    rewrite Forall_forall in Hall.
    rewrite (get_field _ _ (Hall f Hin)). exists true. reflexivity.
Qed.

Lemma sent_of_trace {A B} (m : M A) (m' : M B) w c :
  trace (snd (m w)) = trace (snd (m' w)) -> sent m w c -> sent m' w c.
Proof. intros Ht [b [a Hs]]. exists b, a. rewrite <- Ht. exact Hs. Qed.

Lemma discover_result E city point found_ltl found_any failed w :
  let looked := getOffices E (VNum (parseInt E city))
                  [("type", VStr "PVZ"); ("size", VNum (Fin 10))] w in
  exists v w',
    discover E city point found_ltl found_any failed w = (Ok v, w')
    /\ trace w' = trace (snd looked)
    /\ match fst looked with
       | Throw e =>
           v = point
           /\ In (mkLog LWarn [AText failed; AText (message e)]) (console w')
       | Ok offices =>
           forall items,
             offices = VArr items ->
             Forall (fun o => is_nullish o = false) items ->
             v = match preferred_office items with
                 | Some o => field o "code"
                 | None => point
                 end
       end.
Proof.
  cbv zeta. unfold discover, try_catch, bind at 1.
  destruct (getOffices E (VNum (parseInt E city))
              [("type", VStr "PVZ"); ("size", VNum (Fin 10))] w)
    as [[offices | e] w1]; cbn [fst snd].
  - unfold bind at 1, lift.
    destruct (pick_office E offices) as [[[code flag] |] | e'] eqn:Hpick;
      (eexists; eexists; split; [reflexivity |]; split; [reflexivity |];
       intros items -> Hall;
       destruct (pick_office_preferred E items Hall) as [flag' Hp];
       rewrite Hp in Hpick;
       destruct (preferred_office items); congruence).
  - eexists; eexists. split; [reflexivity |]. split; [reflexivity |].
    split; [reflexivity |].
    cbn. apply in_or_app. right. left. reflexivity.
Qed.

Lemma discover_outcome E city point found_ltl found_any failed w :
  discovery_outcome E city point
    (discover E city point found_ltl found_any failed) w failed.
Proof.
  unfold discovery_outcome.
  destruct (discover_result E city point found_ltl found_any failed w)
    as [v [w' [Hrun [Htr Hsel]]]].
  exists v, w'. split; [exact Hrun |]. split; [exact Htr |].
  split; [| exact Hsel].
  intros c Hs Hbody.
  assert (Hs' : sent (getOffices E (VNum (parseInt E city))
                        [("type", VStr "PVZ"); ("size", VNum (Fin 10))]) w c).
  { apply (sent_of_trace
             (discover E city point found_ltl found_any failed) _ w c);
      [rewrite Hrun; exact Htr | exact Hs]. }
  refine (emits_sent
            (fun c => body c = NoBody ->
                      method c = "GET" /\ query c = office_query E city)
            _ w c _ Hs' Hbody).
  rewrite getOffices_PVZ. apply emits_request_calls.
  - intros a. cbn. discriminate.
  - intros u h _. cbn. auto.
Qed.

(** The handler answers whatever happens inside its [try] block. *)
Lemma calculate_by_tariff_answers E req w :
  exists rep w', calculate_by_tariff E req w = (Ok rep, w').
Proof.
  unfold calculate_by_tariff, try_catch.
  destruct (calculate_by_tariff_try E req w) as [[rep | e] w1].
  - eauto.
  - eexists; eexists. reflexivity.
Qed.

(** C8, as the code has it.  For tariff 751 and no point supplied: the
    block for the shipment point looks up the offices of type PVZ of the
    origin city and takes the code of an office that handles consolidated
    freight when the list has one, else of the first office; the block for
    the delivery point does the same for the destination city when, in
    addition, no destination address is supplied.  A failure of the lookup
    leaves the point as it was and is written to the console as a warning;
    the block returns, and the handler always answers. *)
Theorem pickup_point_discovery E tariffCode fromCityCode toCityCode toAddress
    point w :
  parseInt E tariffCode = Fin 751 ->
  truthy point = false ->
  discovery_outcome E fromCityCode point
    (finalShipmentPoint E tariffCode fromCityCode point) w
    "Не удалось найти ПВЗ отправления:"
  /\ (truthy toAddress = false ->
      discovery_outcome E toCityCode point
        (finalDeliveryPoint E tariffCode toCityCode toAddress point) w
        "Не удалось найти ПВЗ доставки:")
  /\ (forall req w0, exists rep w',
        calculate_by_tariff E req w0 = (Ok rep, w')).
Proof.
  intros Ht Hp. split; [| split].
  - unfold finalShipmentPoint. rewrite Ht, Hp. cbn [num_eq Z.eqb Pos.eqb andb negb].
    apply discover_outcome.
  - intros Ha. unfold finalDeliveryPoint. rewrite Ht, Hp, Ha.
    cbn [num_eq Z.eqb Pos.eqb andb negb].
    apply discover_outcome.
  - intros req w0. apply calculate_by_tariff_answers.
Qed.

(* ================================================================= *)
(** ** Concrete runs *)

(** A second call one minute after a first one that fetched a token valid
    for an hour: the token comes from the cache, and the trace holds the
    single exchange of the first call. *)
Lemma getToken_within_margin_run :
  getToken (runtime carrier) a_minute_later
  = (Ok (VStr "tok-1"), a_minute_later)
  /\ trace (snd (getToken (runtime carrier) a_minute_later))
     = [token_call (auth fresh_client)].
Proof.
  assert (Hpos : 0 <= 60000) by lia.
  assert (Hm : within_margin 60000 a_minute_later = true)
    by (vm_compute; reflexivity).
  destruct (getToken_within_margin (runtime carrier) 60000 a_minute_later
              Hpos Hm) as [H1 H2].
  split; [exact H1 |].
  apply (H2 (start 1000)); [reflexivity | split; reflexivity].
Defined.

(** A carrier that answers 401: the error carries "401" and the text, the
    client is the fresh one still. *)
Lemma getToken_rejected_run :
  exists w',
    getToken (runtime refusing) (start 1000)
    = (Throw (Error "Ошибка авторизации: 401 bad credentials"), w')
    /\ client w' = fresh_client
    /\ token (auth (client w')) = VNull
    /\ tokenExpiresAt (auth (client w')) = None.
Proof.
  exact (getToken_rejected (runtime refusing) (start 1000)
           (mkResponse 401 "ERR" "bad credentials" None)
           eq_refl eq_refl eq_refl).
Defined.

(** A quote with a package whose weight reads "heavy". *)
Lemma nan_dimension_rejected_run :
  (exists e, calculateDelivery (runtime carrier) heavy_quote (start 1000)
             = (Throw e, start 1000))
  /\ (exists e, calculateDeliveryByTariff (runtime carrier) heavy_quote
                  (start 1000)
                = (Throw e, start 1000))
  /\ quote_package (runtime carrier) heavy_package
     = Throw (Error "Неверные числовые значения в параметрах посылки").
Proof.
  destruct (nan_dimension_rejected (runtime carrier) heavy_quote
              [one_package; heavy_package] (start 1000) eq_refl eq_refl)
    as [H1 [H2 H3]].
  split; [exact H1 |]. split; [exact H2 |].
  apply H3; [right; left; reflexivity | reflexivity | reflexivity].
Defined.

(** C3 as stated fails: an order whose package has no weight passes
    [createOrder] without an error; the token exchange and the carrier
    request are issued, and the weight travels as [null].  So does a quote
    for a weight that is a number but not a finite one. *)
Lemma unparsed_dimensions_are_sent :
  map url (trace (snd (calculateDelivery (runtime carrier) unbounded_quote
                         (start 1000))))
  = ["https://api.edu.cdek.ru/v2/oauth/token";
     "https://api.edu.cdek.ru/v2/calculator/tarifflist"]
  /\ is_finite (ToNumber (runtime carrier) (field weightless_package "weight"))
  = false
  /\ fst (createOrder (runtime carrier) weightless_order (start 1000))
     = Ok (VObj [("tariff_code", VNum (Fin 751)); ("total_sum", VNum (Fin 900))])
  /\ map url (trace (snd (createOrder (runtime carrier) weightless_order
                            (start 1000))))
     = ["https://api.edu.cdek.ru/v2/oauth/token";
        "https://api.edu.cdek.ru/v2/orders"]
  /\ exists c v pkg,
      nth_error (trace (snd (createOrder (runtime carrier) weightless_order
                               (start 1000)))) 1 = Some c
      /\ body c = JsonBody v
      /\ field v "packages" = VArr [pkg]
      /\ field pkg "weight" = VNull.
Proof.
  split; [vm_compute; reflexivity |].
  split; [reflexivity |]. split; [vm_compute; reflexivity |].
  split; [vm_compute; reflexivity |].
  eexists; eexists; eexists.
  split; [vm_compute; reflexivity |]. split; [reflexivity |].
  split; reflexivity.
Qed.

(** The body of a quote whose origin has an address. *)
Lemma quote_body_minimal_run : minimal_quote_body quote_params quote_body.
Proof.
  apply (quote_body_minimal (runtime carrier) quote_params (start 1000)
           quote_call quote_body); [| reflexivity].
  exists [token_call (auth fresh_client)], []. vm_compute. reflexivity.
Defined.


(** An empty list of packages. *)
Lemma empty_packages_rejected_run :
  calculateDelivery (runtime carrier) empty_quote (start 1000)
  = (Throw (Error "packages должен быть непустым массивом"), start 1000).
Proof.
  destruct (empty_packages_rejected (runtime carrier) empty_quote (start 1000)
              eq_refl) as [e [Hrun He]].
  rewrite Hrun, (He eq_refl eq_refl). reflexivity.
Defined.

(** The two addresses of the specification. *)
Lemma formatAddress_rule_run :
  formatAddress (VStr "Москва") = Ok (VStr "г. Москва")
  /\ formatAddress (VStr "г. Москва, ул. Ленина")
     = Ok (VStr "г. Москва, ул. Ленина").
Proof.
  split.
  - apply (formatAddress_rule "Москва" eq_refl); reflexivity.
  - apply (formatAddress_rule "г. Москва, ул. Ленина" eq_refl); reflexivity.
Defined.

(** C9 as stated fails: "г. Москва" is not blank and has no comma, yet it
    comes back as it is, not with a second marker in front. *)
Lemma formatAddress_keeps_marked_city :
  is_empty (trim "г. Москва") = false
  /\ includes "г. Москва" "," = false
  /\ formatAddress (VStr "г. Москва") = Ok (VStr "г. Москва")
  /\ formatAddress (VStr "г. Москва") <> Ok (VStr ("г. " +++ "г. Москва")).
Proof.
  split; [reflexivity |]. split; [reflexivity |]. split; [reflexivity |].
  vm_compute. discriminate.
Qed.

(** With the test carrier, whose second office handles consolidated
    freight, the shipment point found for tariff 751 is that office. *)
Lemma pickup_point_discovery_run :
  fst (finalShipmentPoint (runtime carrier) (VNum (Fin 751)) (VNum (Fin 44))
         VUndefined (start 1000))
  = Ok (VStr "MSK7").
Proof.
  destruct (pickup_point_discovery (runtime carrier) (VNum (Fin 751))
              (VNum (Fin 44)) (VNum (Fin 270)) VUndefined VUndefined
              (start 1000) eq_refl eq_refl) as [[v [w' [Hrun [_ [_ Hsel]]]]] _].
  rewrite Hrun. cbn [fst].
  assert (Hlook : fst (getOffices (runtime carrier)
                         (VNum (parseInt (runtime carrier) (VNum (Fin 44))))
                         [("type", VStr "PVZ"); ("size", VNum (Fin 10))]
                         (start 1000))
                  = Ok (VArr [office "MSK5" false; office "MSK7" true]))
    by (vm_compute; reflexivity).
  rewrite Hlook in Hsel.
  rewrite (Hsel [office "MSK5" false; office "MSK7" true] eq_refl).
  - reflexivity.
  - repeat constructor.
Defined.

(** C8 as stated fails on the delivery side: tariff 751, no delivery point,
    a destination address: the handler asks for no pickup points, sends
    the quote without a [delivery_point], and answers 200. *)
Lemma no_delivery_discovery_with_address :
  parseInt (runtime carrier) (field to_the_door "tariffCode") = Fin 751
  /\ field to_the_door "deliveryPoint" = VUndefined
  /\ map url (trace (snd (calculate_by_tariff (runtime carrier) to_the_door
                            (start 1000))))
     = ["https://api.edu.cdek.ru/v2/oauth/token";
        "https://api.edu.cdek.ru/v2/calculator/tariff"]
  /\ (exists c v,
        nth_error (trace (snd (calculate_by_tariff (runtime carrier)
                                 to_the_door (start 1000)))) 1 = Some c
        /\ body c = JsonBody v
        /\ has_key "delivery_point" v = false)
  /\ exists rep,
      fst (calculate_by_tariff (runtime carrier) to_the_door (start 1000))
      = Ok rep /\ http_status rep = 200.
Proof.
  split; [reflexivity |]. split; [reflexivity |].
  split; [vm_compute; reflexivity |].
  split.
  - eexists; eexists. split; [vm_compute; reflexivity |].
    split; [reflexivity |]. reflexivity.
  - eexists. split; [vm_compute; reflexivity | reflexivity].
Qed.

(* ================================================================= *)
(** ** More on the credential cache *)

Lemma bind_Ok {A B} (m : M A) (k : A -> M B) w a w1 :
  m w = (Ok a, w1) -> bind m k w = k a w1.
Proof. intros H. unfold bind. rewrite H. reflexivity. Qed.

Lemma bind_lift_Ok_eq {A B} (a : A) (k : A -> M B) w :
  bind (lift (Ok a)) k w = k a w.
Proof. reflexivity. Qed.

Lemma bind_Throw {A B} (m : M A) (k : A -> M B) w e w1 :
  m w = (Throw e, w1) -> bind m k w = (Throw e, w1).
Proof. intros H. unfold bind. rewrite H. reflexivity. Qed.

Lemma cache_valid_reset a t :
  cache_valid (mkAuth (auth_apiUrl a) (account a) (securePassword a) VNull None)
    t = false.
Proof. reflexivity. Qed.

(** X1.  After [resetToken] the next [getToken] goes to the network,
    whatever the cache held: the two together add exactly the token
    exchange to the trace. *)
Theorem resetToken_forces_exchange E w :
  trace (snd (bind resetToken (fun _ => getToken E) w))
  = trace w ++ [token_call (auth (client w))].
Proof.
  unfold bind at 1.
  destruct (resetToken w) as [[[] | e] w1] eqn:Hr;
    unfold resetToken, set_token, set_tokenExpiresAt, bind, this_auth,
      set_auth in Hr; cbn in Hr; [| discriminate].
  injection Hr as <-.
  rewrite getToken_miss_trace by reflexivity. reflexivity.
Qed.

(** The outcome of [getToken] when the exchange is refused. *)
Lemma getToken_refused E w r :
  cache_valid (auth (client w)) (clock w) = false ->
  result (remote E (trace w) (token_call (auth (client w)))) = Responded r ->
  ok r = false ->
  let e := Error ("Ошибка авторизации: " +++ decimal (status r) +++ " "
                    +++ body_text r) in
  getToken E w
  = (Throw e,
     logged LError [AText "Ошибка при получении токена CDEK:"; AError e]
       (fetched E (token_call (auth (client w))) w)).
Proof.
  intros Hmiss Hr Hok. unfold getToken.
  rewrite bind_this_auth, bind_Date_now, Hmiss.
  unfold try_catch, bind at 1. unfold fetch. rewrite Hr.
  unfold bind at 1. rewrite Hok. reflexivity.
Qed.

(** X3.  When the exchange cannot be made at all, [getToken] throws the
    [TypeError] of [fetch]; the client object is as before, the trace has
    the attempted exchange, and the error is on the console. *)
Theorem getToken_network_failure E w why :
  cache_valid (auth (client w)) (clock w) = false ->
  result (remote E (trace w) (token_call (auth (client w))))
  = NetworkError why ->
  exists w',
    getToken E w = (Throw (TypeError why), w')
    /\ client w' = client w
    /\ trace w' = trace w ++ [token_call (auth (client w))]
    /\ console w'
       = console w ++ [mkLog LError [AText "Ошибка при получении токена CDEK:";
                                     AError (TypeError why)]].
Proof.
  intros Hmiss Hr. unfold getToken.
  rewrite bind_this_auth, bind_Date_now, Hmiss.
  unfold try_catch, bind at 1. unfold fetch. rewrite Hr.
  eexists. split; [reflexivity |]. cbn. auto.
Qed.

(** The outcome of [getToken] when the exchange succeeds and announces a
    lifetime that is a number. *)
Lemma getToken_granted E w r data secs :
  cache_valid (auth (client w)) (clock w) = false ->
  result (remote E (trace w) (token_call (auth (client w)))) = Responded r ->
  ok r = true ->
  body_json r = Some data ->
  is_nullish data = false ->
  ToNumber E (js_or (field data "expires_in") (VNum (Fin 3600))) = Fin secs ->
  let w1 := fetched E (token_call (auth (client w))) w in
  (Z.abs (stored_expiry (clock w1) secs) <=? 8640000000000000) = true ->
  exists w',
    getToken E w = (Ok (field data "access_token"), w')
    /\ auth (client w')
       = mkAuth (auth_apiUrl (auth (client w))) (account (auth (client w)))
           (securePassword (auth (client w))) (field data "access_token")
           (Some (Fin (stored_expiry (clock w1) secs)))
    /\ apiUrl (client w') = apiUrl (client w)
    /\ clock w' = clock w1
    /\ trace w' = trace w1.
Proof.
  intros Hmiss Hr Hok Hjson Hdata Hsecs w1 Hrange. unfold getToken.
  rewrite bind_this_auth, bind_Date_now, Hmiss.
  unfold try_catch, bind at 1. unfold fetch. rewrite Hr.
  unfold bind at 1. rewrite Hok. cbn [negb ret].
  unfold bind at 1. unfold response_json. rewrite Hjson. cbn [ret].
  unfold bind at 1. rewrite (get_field _ "access_token" Hdata). cbn [lift].
  unfold set_token, set_tokenExpiresAt, bind, this_auth, set_auth, lift,
    Date_now.
  cbn [client auth clock trace console auth_apiUrl account securePassword
         token tokenExpiresAt].
  rewrite (get_field _ "expires_in" Hdata). rewrite Hsecs.
  cbn [num_mul num_add num_sub num_neg Date_toISOString].
  rewrite !Z.add_opp_r.
  unfold stored_expiry, w1, fetched in Hrange. cbn [clock] in Hrange.
  rewrite Hrange.
  eexists. split; [reflexivity |]. cbn.
  unfold stored_expiry, w1, fetched. cbn. auto.
Qed.

(** X2.  A token granted for [secs] seconds, 3600 when the answer names no
    lifetime, is returned and then served from the cache exactly until the
    clock reaches the end of the exchange plus the lifetime less 60 s:
    before that instant a call returns it and leaves the world alone, from
    that instant on a call goes to the network again. *)
Theorem token_lifetime E w r data secs :
  cache_valid (auth (client w)) (clock w) = false ->
  result (remote E (trace w) (token_call (auth (client w)))) = Responded r ->
  ok r = true ->
  body_json r = Some data ->
  is_nullish data = false ->
  truthy (field data "access_token") = true ->
  ToNumber E (js_or (field data "expires_in") (VNum (Fin 3600))) = Fin secs ->
  let expiry :=
    stored_expiry (clock (fetched E (token_call (auth (client w))) w)) secs in
  (Z.abs expiry <=? 8640000000000000) = true ->
  expiry <> 0 ->
  fst (getToken E w) = Ok (field data "access_token")
  /\ (truthy (field data "expires_in") = false -> secs = 3600)
  /\ forall w2,
      later (snd (getToken E w)) w2 ->
      (clock w2 < expiry ->
       getToken E w2 = (Ok (field data "access_token"), w2))
      /\ (expiry <= clock w2 ->
          trace (snd (getToken E w2))
          = trace w2 ++ [token_call (auth (client w2))]).
Proof.
  intros Hmiss Hr Hok Hjson Hdata Htok Hsecs expiry Hrange Hnz.
  destruct (getToken_granted E w r data secs Hmiss Hr Hok Hjson Hdata Hsecs
              Hrange) as [w' [Hrun [Hauth _]]].
  rewrite Hrun. cbn [fst snd].
  split; [reflexivity |]. split.
  - intros Hfalsy. unfold js_or in Hsecs. rewrite Hfalsy in Hsecs.
    cbn in Hsecs. congruence.
  - intros w2 [Hclient _].
    assert (Hvalid : cache_valid (auth (client w2)) (clock w2)
                     = (clock w2 <? expiry)).
    { rewrite Hclient, Hauth. unfold cache_valid.
      cbn [token tokenExpiresAt truthy_num num_lt]. rewrite Htok.
      fold expiry. destruct (expiry =? 0) eqn:Hz;
        [apply Z.eqb_eq in Hz; contradiction | reflexivity]. }
    split.
    + intros Hlt. rewrite getToken_hit.
      * rewrite Hclient, Hauth. reflexivity.
      * rewrite Hvalid. apply Z.ltb_lt, Hlt.
    + intros Hge. apply getToken_miss_trace.
      rewrite Hvalid. apply Z.ltb_ge, Hge.
Qed.

(** X4.  When the answer announces a lifetime that is not a number,
    [getToken] has already stored the token when the date of expiry fails
    to print: it throws a [RangeError], and the cache it leaves is valid at
    no instant, so that the next call exchanges again. *)
Theorem getToken_lifetime_not_a_number E w r data :
  cache_valid (auth (client w)) (clock w) = false ->
  result (remote E (trace w) (token_call (auth (client w)))) = Responded r ->
  ok r = true ->
  body_json r = Some data ->
  is_nullish data = false ->
  ToNumber E (js_or (field data "expires_in") (VNum (Fin 3600))) = NaN ->
  exists w',
    getToken E w = (Throw (mkError KRangeError "Invalid time value"), w')
    /\ token (auth (client w')) = field data "access_token"
    /\ tokenExpiresAt (auth (client w')) = Some NaN
    /\ (forall t, cache_valid (auth (client w')) t = false)
    /\ trace w' = trace w ++ [token_call (auth (client w))].
Proof.
  intros Hmiss Hr Hok Hjson Hdata Hsecs. unfold getToken.
  rewrite bind_this_auth, bind_Date_now, Hmiss.
  unfold try_catch, bind at 1. unfold fetch. rewrite Hr.
  unfold bind at 1. rewrite Hok. cbn [negb ret].
  unfold bind at 1. unfold response_json. rewrite Hjson. cbn [ret].
  unfold bind at 1. rewrite (get_field _ "access_token" Hdata). cbn [lift].
  unfold set_token, set_tokenExpiresAt, bind, this_auth, set_auth, lift,
    Date_now.
  cbn [client auth clock trace console auth_apiUrl account securePassword
         token tokenExpiresAt].
  rewrite (get_field _ "expires_in" Hdata). rewrite Hsecs.
  cbn [num_mul num_add num_sub num_neg Date_toISOString].
  eexists. split; [reflexivity |]. cbn.
  repeat split. intros t. unfold cache_valid. cbn.
  apply andb_false_r.
Qed.

(* ================================================================= *)
(** ** Start-up *)

Lemma env_truthy_string x : env_truthy x = true -> x = Some (env_string x).
Proof. destruct x; [reflexivity | discriminate]. Qed.

(** X5.  The client is constructed exactly when the start-up check finds
    no variable missing; it then talks to the URL configured and starts
    with an empty cache, valid at no instant. *)
Theorem configured_client process_env :
  (missingVars process_env = [] <-> exists c, cdekClient process_env = Ok c)
  /\ forall c,
      cdekClient process_env = Ok c ->
      process_env "CDEK_API_URL" = Some (apiUrl c)
      /\ process_env "CDEK_ACCOUNT" = Some (account (auth c))
      /\ process_env "CDEK_SECURE_PASSWORD" = Some (securePassword (auth c))
      /\ auth_apiUrl (auth c) = apiUrl c
      /\ token (auth c) = VNull
      /\ forall t, cache_valid (auth c) t = false.
Proof.
  unfold missingVars, requiredEnvVars, cdekClient, new_CDEKApiClient,
    new_CDEKAuth. cbn [filter].
  destruct (env_truthy (process_env "CDEK_API_URL")) eqn:H1;
    destruct (env_truthy (process_env "CDEK_ACCOUNT")) eqn:H2;
    destruct (env_truthy (process_env "CDEK_SECURE_PASSWORD")) eqn:H3;
    cbn [negb]; (split; [split |]);
    try discriminate; try (intros [c Hc]; discriminate Hc);
    try (intros c Hc; discriminate Hc).
  - intros _. eexists. reflexivity.
  - reflexivity.
  - intros c [= <-]. cbn.
    rewrite <- (env_truthy_string _ H1), <- (env_truthy_string _ H2),
      <- (env_truthy_string _ H3).
    repeat split.
Qed.

(* ================================================================= *)
(** ** The request primitive *)

(** [request] after [getToken] has returned [tok]: one [fetch], and the
    end that the answer decides. *)
Lemma bind_fetch {B} E c (k : response -> M B) w :
  bind (fetch E c) k w
  = match result (remote E (trace w) c) with
    | NetworkError why => (Throw (TypeError why), fetched E c w)
    | Responded r => k r (fetched E c w)
    end.
Proof.
  unfold bind, fetch, fetched.
  destruct (result (remote E (trace w) c)); reflexivity.
Qed.

Lemma request_run E path q o w tok w1 :
  getToken E w = (Ok tok, w1) ->
  let c := carrier_call (client w1) tok path q o in
  request E path q o w
  = answered c (result (remote E (trace w1) c)) (fetched E c w1).
Proof.
  intros Hget c. unfold request. rewrite (bind_Ok _ _ _ _ _ Hget).
  unfold bind at 1. cbn [this_client].
  rewrite bind_fetch. subst c. unfold carrier_call, answered.
  destruct (result (remote E (trace w1) _)) as [why | r]; [reflexivity |].
  destruct (ok r); cbn [negb].
  - unfold response_json. destruct (body_json r); reflexivity.
  - reflexivity.
Qed.

(** X6.  A request never goes out without a token: when the exchange is
    refused, [request] throws the error of [getToken], and the only call
    made is the exchange. *)
Theorem request_without_token E path q o w r :
  cache_valid (auth (client w)) (clock w) = false ->
  result (remote E (trace w) (token_call (auth (client w)))) = Responded r ->
  ok r = false ->
  exists w',
    request E path q o w
    = (Throw (Error ("Ошибка авторизации: " +++ decimal (status r) +++ " "
                       +++ body_text r)), w')
    /\ trace w' = trace w ++ [token_call (auth (client w))]
    /\ client w' = client w.
Proof.
  intros Hmiss Hr Hok.
  pose proof (getToken_refused E w r Hmiss Hr Hok) as Hget. cbv zeta in Hget.
  unfold request. rewrite (bind_Throw _ _ _ _ _ Hget).
  eexists. split; [reflexivity |]. split; reflexivity.
Qed.

(** X7.  With a valid token in the cache, [request] makes exactly one
    call: to the API URL followed by the path, with the method given or
    GET, and with the body as JSON when there is one.  A success gives the
    parsed body; a failure throws an error whose message carries the
    status and the body, parsed, or wrapped as a message when it is not
    JSON; a network failure throws what [fetch] threw. *)
Theorem request_with_cached_token E path q o w :
  cache_valid (auth (client w)) (clock w) = true ->
  let c := carrier_call (client w) (token (auth (client w))) path q o in
  trace (snd (request E path q o w)) = trace w ++ [c]
  /\ client (snd (request E path q o w)) = client w
  /\ match result (remote E (trace w) c) with
     | NetworkError why => fst (request E path q o w) = Throw (TypeError why)
     | Responded r =>
         (ok r = true -> forall v, body_json r = Some v ->
          fst (request E path q o w) = Ok v)
         /\ (ok r = false ->
             fst (request E path q o w) = Throw (api_error r)
             /\ In (error_details c r) (console (snd (request E path q o w))))
     end.
Proof.
  intros Hhit c.
  rewrite (request_run E path q o w _ _ (getToken_hit E w Hhit)). fold c.
  unfold answered.
  destruct (result (remote E (trace w) c)) as [why | r].
  - cbn. auto.
  - destruct (ok r).
    + destruct (body_json r) as [v |]; cbn;
        (split; [reflexivity |]; split; [reflexivity |];
         split; [| intros Hf; discriminate Hf]).
      * intros _ v' [= <-]. reflexivity.
      * intros _ v' Hv. discriminate Hv.
    + cbn. split; [reflexivity |]. split; [reflexivity |].
      split; [intros Hf; discriminate Hf |].
      intros _. split; [reflexivity |].
      apply in_or_app. right. left. reflexivity.
Qed.

Lemma assoc_assign_same k v ms : assoc k (assign k v ms) = Some v.
Proof.
  induction ms as [| [k0 x] rest IH]; cbn.
  - rewrite String.eqb_refl. reflexivity.
  - destruct (String.eqb k k0) eqn:H0; cbn.
    + rewrite String.eqb_refl. reflexivity.
    + rewrite H0. exact IH.
Qed.

Lemma assoc_assign_other k k' v ms :
  String.eqb k k' = false -> assoc k (assign k' v ms) = assoc k ms.
Proof.
  intros Hk. induction ms as [| [k0 x] rest IH]; cbn.
  - rewrite Hk. reflexivity.
  - destruct (String.eqb k' k0) eqn:H0.
    + apply String.eqb_eq in H0. subst k0. cbn. rewrite Hk. reflexivity.
    + cbn. destruct (String.eqb k k0); auto.
Qed.

Lemma assoc_none_not_in k ms : ~ In k (map fst ms) -> assoc k ms = None.
Proof.
  induction ms as [| [k0 x] rest IH]; cbn; [reflexivity |].
  intros Hn. destruct (String.eqb k k0) eqn:H0.
  - apply String.eqb_eq in H0. subst. tauto.
  - apply IH. tauto.
Qed.

(** Spreading [b] over [a]: a key of [b] has the value of [b], any other
    key keeps the value of [a]. *)
Lemma assoc_spread k a b :
  NoDup (map fst b) ->
  assoc k (spread a b)
  = match assoc k b with Some v => Some v | None => assoc k a end.
Proof.
  intros Hnd. revert a.
  induction b as [| [k' v] rest IH]; intros a; cbn [spread assoc];
    [reflexivity |].
  inversion Hnd as [| ? ? Hnotin Hrest]; subst.
  rewrite (IH Hrest). destruct (String.eqb k k') eqn:Hk.
  - apply String.eqb_eq in Hk. subst k'.
    rewrite (assoc_none_not_in _ _ Hnotin). apply assoc_assign_same.
  - destruct (assoc k rest); [reflexivity |].
    apply assoc_assign_other, Hk.
Qed.

Lemma emits_request_shape E path q o :
  emits (fun c => (exists a, c = token_call a)
                  \/ exists cl tok, c = carrier_call cl tok path q o)
    (request E path q o).
Proof.
  unfold request.
  apply emits_bind; [apply emits_getToken; intros a; left; eauto | intros tok].
  apply emits_bind; [auto with emits | intros cl].
  apply emits_bind.
  - apply emits_fetch. right. exists cl, tok. reflexivity.
  - intros r. destruct (negb (ok r)); repeat emits_step.
Qed.

(** X8.  Every call that [request] makes, the token exchange apart,
    carries the headers of the caller, and for a header that the caller
    does not give, the bearer token under [Authorization] and
    [application/json] under [Content-Type]: the caller overrides these
    two, nothing else does. *)
Theorem request_headers E path q o w c :
  NoDup (map fst (opt_headers o)) ->
  sent (request E path q o) w c ->
  (exists a, c = token_call a)
  \/ exists tok,
      forall k,
        assoc k (headers c)
        = match assoc k (opt_headers o) with
          | Some v => Some v
          | None => assoc k (default_headers tok)
          end.
Proof.
  intros Hnd Hs.
  destruct (emits_sent _ _ w c (emits_request_shape E path q o) Hs)
    as [Htok | [cl [tok ->]]]; [left; exact Htok | right].
  exists tok. intros k. unfold carrier_call. cbn [headers].
  rewrite (assoc_spread k _ _ Hnd).
  destruct (assoc k (opt_headers o)) eqn:Hk; [reflexivity |].
  rewrite (assoc_spread k _ _ Hnd), Hk. reflexivity.
Qed.

(* ================================================================= *)
(** ** Looking up cities and offices *)

(** [getToken] changes the cache and nothing else of the client. *)
Lemma getToken_keeps_url E w :
  apiUrl (client (snd (getToken E w))) = apiUrl (client w).
Proof.
  unfold getToken. rewrite bind_this_auth, bind_Date_now.
  destruct (cache_valid (auth (client w)) (clock w)); [reflexivity |].
  unfold try_catch. rewrite bind_fetch.
  destruct (result (remote E (trace w) (token_call (auth (client w)))))
    as [why | r]; [reflexivity |].
  unfold bind at 1.
  destruct (negb (ok r)); [reflexivity |]. cbn [ret].
  unfold bind at 1. unfold response_json.
  destruct (body_json r) as [data |]; [| reflexivity]. cbn [ret].
  unfold bind at 1, lift.
  destruct (get data "access_token") as [tok | e]; [| reflexivity].
  unfold set_token, set_tokenExpiresAt, bind, this_auth, set_auth, lift,
    Date_now.
  cbn [client auth clock trace console].
  destruct (get data "expires_in") as [ex | e]; [| reflexivity].
  destruct (Date_toISOString E _); reflexivity.
Qed.

(** The calls of one [request]: the token exchange when the cache has no
    valid token, then, with a token, one call to the carrier. *)
Lemma request_calls E path q o w :
  exists new,
    trace (snd (request E path q o w)) = trace w ++ new
    /\ forall c,
        In c new ->
        c = token_call (auth (client w))
        \/ exists tok w1,
            apiUrl (client w1) = apiUrl (client w)
            /\ c = carrier_call (client w1) tok path q o.
Proof.
  destruct (getToken E w) as [[tok | e] w1] eqn:Hget.
  - rewrite (request_run E path q o w tok w1 Hget).
    assert (Hans : forall c x w0, trace (snd (answered c x w0)) = trace w0).
    { intros c x w0. unfold answered. destruct x as [why | r]; [reflexivity |].
      destruct (ok r); [destruct (body_json r) |]; reflexivity. }
    rewrite Hans. cbn [fetched trace].
    assert (Hurl : apiUrl (client w1) = apiUrl (client w))
      by (rewrite <- (getToken_keeps_url E w), Hget; reflexivity).
    destruct (cache_valid (auth (client w)) (clock w)) eqn:Hc.
    + rewrite (getToken_hit E w Hc) in Hget. injection Hget as <- <-.
      eexists. split; [reflexivity |].
      intros c [<- | []]. right. eauto.
    + pose proof (getToken_miss_trace E w Hc) as Ht. rewrite Hget in Ht.
      cbn [snd] in Ht. rewrite Ht, <- app_assoc.
      eexists. split; [reflexivity |].
      intros c [<- | [<- | []]]; [left; reflexivity | right; eauto].
  - unfold request. rewrite (bind_Throw _ _ _ _ _ Hget). cbn [snd].
    destruct (cache_valid (auth (client w)) (clock w)) eqn:Hc.
    + rewrite (getToken_hit E w Hc) in Hget. discriminate Hget.
    + pose proof (getToken_miss_trace E w Hc) as Ht. rewrite Hget in Ht.
      cbn [snd] in Ht. rewrite Ht.
      eexists. split; [reflexivity |].
      intros c [<- | []]. left. reflexivity.
Qed.

Lemma sent_request E path q o w c :
  sent (request E path q o) w c ->
  c = token_call (auth (client w))
  \/ exists tok w1,
      apiUrl (client w1) = apiUrl (client w)
      /\ c = carrier_call (client w1) tok path q o.
Proof.
  intros [b [af Hs]].
  destruct (request_calls E path q o w) as [new [Hnew Hall]].
  rewrite Hnew in Hs. apply app_inv_head in Hs. subst new.
  apply Hall. apply in_or_app. right. left. reflexivity.
Qed.

Lemma sent_lift_bind {A B} (o : outcome A) (k : A -> M B) w c :
  sent (bind (lift o) k) w c -> exists a, o = Ok a /\ sent (k a) w c.
Proof.
  destruct o as [a | e]; intros Hs; [exists a; split; [reflexivity | exact Hs] |].
  destruct Hs as [b [af Hs]]. cbn in Hs.
  rewrite <- (app_nil_r (trace w)) in Hs at 1.
  apply app_inv_head in Hs. destruct b; discriminate Hs.
Qed.

Lemma mapM_toString filters :
  Forall (fun kv => is_nullish (snd kv) = false) filters ->
  mapM (fun kv => s <~ toString_method (snd kv) ;; Ok (fst kv, s)) filters
  = Ok (filter_pairs filters).
Proof.
  induction 1 as [| [k v] rest Hv _ IH]; [reflexivity |].
  cbn [mapM filter_pairs map fst snd] in *.
  destruct v; try discriminate Hv; cbn [toString_method obind];
    rewrite IH; reflexivity.
Qed.

Lemma toString_method_text v text :
  toString_method v = Ok text -> text = ToString v /\ is_nullish v = false.
Proof. destruct v; cbn; intros [= <-]; split; reflexivity. Qed.

(** X9.  [searchCities] only reads: each of its calls, the token exchange
    apart, is a GET without a body to the path [/location/cities] of the
    API, asking for the name with country RU and size 10 unless given
    otherwise, in Russian.  A size of [null] makes it throw before any
    call. *)
Theorem searchCities_reads E cityName countryCode size w :
  (forall c,
     sent (searchCities E cityName countryCode size) w c ->
     c = token_call (auth (client w))
     \/ (reads c
         /\ url c = apiUrl (client w) +++ "/location/cities"
         /\ query c
            = [("name", ToString cityName);
               ("country_code", ToString (or_default countryCode (VStr "RU")));
               ("size", ToString (or_default size (VNum (Fin 10))));
               ("lang", "rus")]))
  /\ (size = VNull ->
      exists e, searchCities E cityName countryCode size w = (Throw e, w)).
Proof.
  split.
  - intros c Hs. unfold searchCities in Hs.
    apply sent_lift_bind in Hs. destruct Hs as [text [Htext Hs]].
    apply toString_method_text in Htext. destruct Htext as [-> _].
    destruct (sent_request _ _ _ _ _ _ Hs) as [Ht | [tok [w1 [Hurl ->]]]];
      [left; exact Ht | right].
    split; [split; reflexivity |].
    cbn [url query carrier_call]. rewrite Hurl. split; reflexivity.
  - intros ->. eexists. reflexivity.
Qed.

(** X10.  [getOffices] only reads: each of its calls, the token exchange
    apart, is a GET without a body to [/deliverypoints]; in its query a key
    of the filters has the text of the filter, so that a filter named
    [city_code] or [lang] replaces the city asked for or the language, and
    otherwise [city_code] is the text of the city and [lang] is [rus].  A
    city or a filter that is [null] or [undefined] makes it throw before
    any call. *)
Theorem getOffices_reads E cityCode filters w :
  NoDup (map fst filters) ->
  (forall c,
     sent (getOffices E cityCode filters) w c ->
     c = token_call (auth (client w))
     \/ (reads c
         /\ url c = apiUrl (client w) +++ "/deliverypoints"
         /\ forall k,
             assoc k (query c)
             = match assoc k (filter_pairs filters) with
               | Some text => Some text
               | None => assoc k [("city_code", ToString cityCode);
                                  ("lang", "rus")]
               end))
  /\ (is_nullish cityCode = true
      \/ Exists (fun kv => is_nullish (snd kv) = true) filters ->
      exists e, getOffices E cityCode filters w = (Throw e, w)).
Proof.
  intros Hnd. split.
  - intros c Hs. unfold getOffices in Hs.
    apply sent_lift_bind in Hs. destruct Hs as [city [Hcity Hs]].
    apply toString_method_text in Hcity. destruct Hcity as [-> _].
    apply sent_lift_bind in Hs. destruct Hs as [entries [Hentries Hs]].
    assert (Hpairs : entries = filter_pairs filters /\
                     NoDup (map fst entries)).
    { assert (Hall : Forall (fun kv => is_nullish (snd kv) = false) filters).
      { clear Hs. revert entries Hentries.
        induction filters as [| [k v] rest IH]; intros entries Hentries;
          [constructor |].
        cbn [mapM fst snd] in Hentries.
        destruct (toString_method v) as [t |] eqn:Hv; [| discriminate].
        cbn [obind] in Hentries.
        destruct (mapM _ rest) as [ys |] eqn:Hrest; [| discriminate].
        inversion Hnd; subst.
        constructor; [exact (proj2 (toString_method_text _ _ Hv)) |].
        eapply IH; eauto. }
      rewrite (mapM_toString _ Hall) in Hentries. injection Hentries as <-.
      split; [reflexivity |].
      unfold filter_pairs. rewrite map_map. cbn [fst]. exact Hnd. }
    destruct Hpairs as [-> Hnd'].
    destruct (sent_request _ _ _ _ _ _ Hs) as [Ht | [tok [w1 [Hurl ->]]]];
      [left; exact Ht | right].
    split; [split; reflexivity |].
    cbn [url query carrier_call]. rewrite Hurl. split; [reflexivity |].
    intros k. apply assoc_spread, Hnd'.
  - intros [Hcity | Hfilter]; unfold getOffices.
    + destruct cityCode; try discriminate Hcity; eexists; reflexivity.
    + destruct (toString_method cityCode) as [city |] eqn:Hc;
        [| eexists; reflexivity].
      rewrite bind_lift_Ok_eq.
      assert (Hthrow : exists e,
                 mapM (fun kv => s <~ toString_method (snd kv) ;; Ok (fst kv, s))
                   filters = Throw e).
      { apply Exists_exists in Hfilter. destruct Hfilter as [[k v] [Hin Hv]].
        eapply (mapM_throws _ filters (k, v)); [exact Hin |].
        cbn [snd] in *. destruct v; try discriminate Hv; reflexivity. }
      destruct Hthrow as [e ->]. eexists. reflexivity.
Qed.

(* ================================================================= *)
(** ** Listing tariffs, further *)

Lemma emits_impl {A} (P Q : net_call -> Prop) (m : M A) :
  (forall c, P c -> Q c) -> emits P m -> emits Q m.
Proof.
  intros HPQ Hm w. destruct (Hm w) as [n [E1 F1]].
  exists n; split; auto. eapply Forall_impl; eauto.
Qed.

Lemma fallback_quote_body E options :
  is_nullish (or_default options (VObj [])) = false ->
  calculateDelivery_body E
    (VObj [("fromLocation",
            VObj [("code", js_or (field (or_default options (VObj []))
                                    "fromCityCode") (VNum (Fin 44)))]);
           ("toLocation",
            VObj [("code", js_or (field (or_default options (VObj []))
                                    "toCityCode") (VNum (Fin 270)))]);
           ("packages",
            VArr [VObj [("weight", VNum (Fin 1000)); ("length", VNum (Fin 10));
                        ("width", VNum (Fin 10)); ("height", VNum (Fin 10))]])])
  = Ok (fallback_body options).
Proof. intros _. reflexivity. Qed.

Lemma fallback_body_clean options :
  json_clean (fallback_body options) = fallback_body options.
Proof. reflexivity. Qed.

Lemma emits_getTariffs E lang options :
  emits (fun c =>
           (exists a, c = token_call a)
           \/ (reads c /\ query c = []
               /\ assoc "X-User-Lang" (headers c)
                  = Some (ToString (or_default lang (VStr "rus"))))
           \/ (method c = "POST" /\ query c = []
               /\ body c = JsonBody (fallback_body options)))
    (getTariffs E lang options).
Proof.
  unfold getTariffs.
  apply emits_try_catch.
  - eapply emits_impl; [| apply emits_request_shape].
    intros c' [Ht | [cl [tok ->]]]; [left; exact Ht | right; left].
    split; [split; reflexivity |]. split; [reflexivity |].
    cbn [carrier_call headers opt_headers].
    rewrite !assoc_spread by (repeat constructor; cbn; tauto).
    reflexivity.
  - intros e.
    destruct (negb (is_empty (message e)) && includes (message e) "404");
      [| auto with emits].
    apply emits_bind; [auto with emits | intros _].
    fold (or_default options (VObj [])).
    apply emits_lift_bind. intros from Hfrom.
    apply emits_lift_bind. intros to Hto.
    apply get_Ok_field in Hfrom. subst from.
    pose proof (get_Ok_not_nullish _ _ _ Hto) as Hopt.
    apply get_Ok_field in Hto. subst to.
    apply emits_bind; [| intros result; repeat emits_step].
    unfold calculateDelivery. rewrite (fallback_quote_body E options Hopt).
    apply emits_lift_bind. intros b [= <-].
    apply emits_bind;
      [destruct (negb (string_eq_opt (NODE_ENV E) "production"));
       auto with emits | intros _].
    eapply emits_impl; [| apply emits_request_shape].
    intros c' [Ht | [cl [tok ->]]]; [left; exact Ht | right; right].
    split; [reflexivity |]. split; reflexivity.
Qed.

(** X11.  Whatever [getTariffs] sends is one of three calls: the token
    exchange; the direct call, a GET without body or query that names the
    language, [rus] by default, in the header [X-User-Lang]; or the quote
    of the fallback, a POST whose body is the minimal quote between the
    cities of the options, 44 and 270 by default, for one package of
    1000 g and 10 x 10 x 10 cm. *)
Theorem getTariffs_calls E lang options w c :
  sent (getTariffs E lang options) w c ->
  (exists a, c = token_call a)
  \/ (reads c /\ query c = []
      /\ assoc "X-User-Lang" (headers c)
         = Some (ToString (or_default lang (VStr "rus"))))
  \/ (method c = "POST" /\ query c = []
      /\ body c = JsonBody (fallback_body options)).
Proof.
  intros Hs.
  exact (emits_sent _ _ w c (emits_getTariffs E lang options) Hs).
Qed.

Lemma includes_404 rest :
  includes ("CDEK API Error (" +++ "404" +++ rest) "404" = true.
Proof. cbn. destruct rest; reflexivity. Qed.

Lemma mapM_tariff_summary items :
  Forall (fun t => is_nullish t = false) items ->
  mapM tariff_summary items = Ok (map tariff_entry items).
Proof.
  induction 1 as [| t rest Ht _ IH]; [reflexivity |].
  cbn [mapM map]. unfold tariff_summary at 1.
  rewrite !(get_field _ _ Ht). cbn [obind]. rewrite IH. reflexivity.
Qed.

Lemma field_get_array v k items :
  field v k = VArr items -> get v k = Ok (VArr items).
Proof.
  unfold field. destruct (get v k) as [x | e]; [intros ->; reflexivity |].
  discriminate.
Qed.

Lemma trace_bind_silent {A B} (m : M A) (k : A -> M B) w :
  (forall a, emits silent (k a)) ->
  trace (snd (bind m k w)) = trace (snd (m w)).
Proof.
  intros Hk. unfold bind. destruct (m w) as [[a | e] w1]; [| reflexivity].
  apply silent_trace, Hk.
Qed.

Lemma answered_trace c x w : trace (snd (answered c x w)) = trace w.
Proof.
  unfold answered. destruct x as [why | r]; [reflexivity |].
  destruct (ok r); [destruct (body_json r) |]; reflexivity.
Qed.

(** The world in which [calculateDelivery] calls [request]: the body is on
    the console unless the process runs in production. *)
Lemma calculateDelivery_cached E params b w :
  calculateDelivery_body E params = Ok b ->
  cache_valid (auth (client w)) (clock w) = true ->
  let c := carrier_call (client w) (token (auth (client w)))
             "/calculator/tarifflist" [] (mkOptions (Some "POST") b []) in
  exists w0,
    client w0 = client w /\ clock w0 = clock w /\ trace w0 = trace w
    /\ calculateDelivery E params w
       = answered c (result (remote E (trace w) c)) (fetched E c w0).
Proof.
  intros Hb Hhit c. unfold calculateDelivery. rewrite Hb, bind_lift_Ok_eq.
  destruct (negb (string_eq_opt (NODE_ENV E) "production")).
  - unfold bind at 1. cbn [console_write].
    set (w' := mkWorld _ _ _ _).
    assert (Hhit' : cache_valid (auth (client w')) (clock w') = true)
      by exact Hhit.
    rewrite (request_run E _ _ _ _ _ _ (getToken_hit E w' Hhit')).
    exists w'. repeat split.
  - exists w. repeat split. unfold bind at 1. cbn [ret].
    rewrite (request_run E _ _ _ _ _ _ (getToken_hit E w Hhit)).
    reflexivity.
Qed.

(** X12.  With a valid token in the cache, a 404 from the direct call is
    always followed by the quote of the fallback, and by nothing else; a
    successful quote whose [tariff_codes] is a list comes back as one
    entry for each of its elements, in their order, reduced to code, name,
    description (empty when there is none) and mode. *)
Theorem getTariffs_falls_back_on_404 E lang options w r1 :
  let a := auth (client w) in
  let c1 := tariffs_call (client w) (token a) lang in
  let c2 := fallback_call (client w) (token a) options in
  cache_valid a (clock w) = true ->
  result (remote E (trace w) c1) = Responded r1 ->
  status r1 = 404 ->
  is_nullish (or_default options (VObj [])) = false ->
  cache_valid a (clock (fetched E c1 w)) = true ->
  trace (snd (getTariffs E lang options w)) = trace w ++ [c1; c2]
  /\ forall r2 res items,
      result (remote E (trace w ++ [c1]) c2) = Responded r2 ->
      ok r2 = true ->
      body_json r2 = Some res ->
      field res "tariff_codes" = VArr items ->
      Forall (fun t => is_nullish t = false) items ->
      fst (getTariffs E lang options w) = Ok (VArr (map tariff_entry items)).
Proof.
  intros a c1 c2 Hhit Hr1 H404 Hopt Hhit1.
  assert (Hok1 : ok r1 = false) by (unfold ok; rewrite H404; reflexivity).
  assert (Hcond : negb (is_empty (message (api_error r1)))
                  && includes (message (api_error r1)) "404" = true).
  { unfold api_error. cbn [message Error]. rewrite H404.
    change (decimal 404) with "404". rewrite includes_404. reflexivity. }
  split; [| intros r2 res items Hr2 Hok2 Hjson Hcodes Hall].
  all: unfold getTariffs, try_catch;
    fold (or_default lang (VStr "rus")); fold (or_default options (VObj []));
    rewrite (request_run E _ _ _ w _ _ (getToken_hit E w Hhit));
    fold a; fold (tariffs_call (client w) (token a) lang); fold c1;
    rewrite Hr1; unfold answered at 1; rewrite Hok1, Hcond;
    set (w1 := mkWorld _ _ _ _);
    unfold bind at 1; cbn [console_write];
    set (w2 := mkWorld _ _ _ _);
    rewrite !(get_field _ _ Hopt), !bind_lift_Ok_eq;
    assert (Hhit2 : cache_valid (auth (client w2)) (clock w2) = true)
      by exact Hhit1;
    destruct (calculateDelivery_cached E _ _ w2
                (fallback_quote_body E options Hopt) Hhit2)
      as [w3 [Hc3 [Hk3 [Ht3 Hrun]]]];
    change (carrier_call (client w2) (token (auth (client w2)))
              "/calculator/tarifflist" []
              (mkOptions (Some "POST") (fallback_body options) []))
      with c2 in Hrun;
    change (trace w2) with (trace w ++ [c1]) in Hrun, Ht3.
  - rewrite trace_bind_silent by (intros res; repeat emits_step).
    rewrite Hrun, answered_trace. cbn [fetched trace]. rewrite Ht3.
    rewrite <- app_assoc. reflexivity.
  - unfold bind at 1. rewrite Hrun, Hr2. unfold answered.
    rewrite Hok2, Hjson.
    rewrite (field_get_array _ _ _ Hcodes), bind_lift_Ok_eq.
    cbn [js_or truthy array_method]. rewrite bind_lift_Ok_eq.
    rewrite (mapM_tariff_summary _ Hall), bind_lift_Ok_eq. reflexivity.
Qed.

(* ================================================================= *)
(** ** The body of the single-tariff quote *)

Lemma get_default_Ok v k d x :
  get_default v k d = Ok x -> x = or_default (field v k) d.
Proof.
  unfold get_default, field, or_default.
  destruct (get v k) as [y | e]; [| discriminate].
  destruct y; intros [= <-]; reflexivity.
Qed.

Lemma tariff_location_shape loc l :
  tariff_location loc = Ok l ->
  l = VObj (("code", VStr (ToString (field loc "code")))
              :: sent_address (field loc "address")).
Proof.
  unfold tariff_location, sent_address. intros H.
  repeat step_ok H. fields_of_gets.
  destruct (field loc "address") as [| | | | s | |];
    try (injection H as <-; reflexivity).
  destruct s as [| ch s']; [injection H as <-; reflexivity |].
  cbn [truthy is_empty negb andb] in H.
  destruct (is_empty (trim (String ch s'))); injection H as <-; reflexivity.
Qed.

(** The members of the single-tariff body before it is serialised. *)
Lemma tariff_body_members E now params b :
  calculateDeliveryByTariff_body E now params = Ok b ->
  exists ms date,
    b = json_clean (VObj ms)
    /\ format_date E now (field params "date") = Ok date
    /\ lookup "tariff_code" ms
       = Some (VNum (ToNumber E (field params "tariffCode")))
    /\ lookup "date" ms = Some (VStr date)
    /\ lookup "currency" ms
       = Some (VNum (ToNumber E (or_default (field params "currency")
                                   (VNum (Fin 1)))))
    /\ lookup "lang" ms = Some (VStr "rus")
    /\ lookup "from_location" ms
       = Some (VObj (("code",
                      VStr (ToString (field (field params "fromLocation")
                                        "code")))
                       :: sent_address (field (field params "fromLocation")
                                          "address")))
    /\ lookup "to_location" ms
       = Some (VObj (("code",
                      VStr (ToString (field (field params "toLocation")
                                        "code")))
                       :: sent_address (field (field params "toLocation")
                                          "address")))
    /\ lookup "shipment_point" ms = sent_point (field params "shipmentPoint")
    /\ lookup "delivery_point" ms = sent_point (field params "deliveryPoint").
Proof.
  unfold calculateDeliveryByTariff_body, sent_point. intros H.
  repeat step_ok H. fields_of_gets. unwrap_ok H.
  repeat match goal with
         | X : get_default _ _ _ = Ok _ |- _ =>
             apply get_default_Ok in X; subst
         | X : tariff_location _ = Ok _ |- _ =>
             apply tariff_location_shape in X; subst
         end.
  match goal with
  | X : (if truthy _ then _ else _) = Ok _ |- _ =>
      repeat first [step_if X | step_ok X]; unwrap_ok X
  end;
    destruct (truthy (field params "shipmentPoint"));
    destruct (truthy (field params "deliveryPoint"));
    eexists; eexists; (split; [reflexivity |]); (split; [eassumption |]);
    repeat split.
Qed.

Lemma clean_field_twice ms k x :
  lookup k ms = Some x ->
  is_undefined x = false ->
  is_undefined (json_clean x) = false ->
  field (json_clean (json_clean (VObj ms))) k = json_clean (json_clean x).
Proof.
  intros Hl Hx Hx'. rewrite json_clean_obj.
  apply field_clean; [apply lookup_clean; assumption | exact Hx'].
Qed.

Lemma clean_has_key ms k x :
  lookup k ms = Some x ->
  is_undefined x = false ->
  has_key k (json_clean (VObj ms)) = true.
Proof.
  intros Hl Hx. rewrite json_clean_obj. cbn [has_key].
  rewrite (lookup_clean _ _ _ Hl Hx). reflexivity.
Qed.

Lemma clean_has_key_twice ms k x :
  lookup k ms = Some x ->
  is_undefined x = false ->
  is_undefined (json_clean x) = false ->
  has_key k (json_clean (json_clean (VObj ms))) = true.
Proof.
  intros Hl Hx Hx'. rewrite json_clean_obj.
  eapply clean_has_key; [apply lookup_clean; eassumption | exact Hx'].
Qed.

Lemma clean_no_key_twice ms k :
  lookup k ms = None ->
  has_key k (json_clean (json_clean (VObj ms))) = false.
Proof.
  intros Hl. rewrite json_clean_obj. apply has_key_clean_false.
  cbn [has_key]. rewrite (lookup_clean_none _ _ Hl). reflexivity.
Qed.

Lemma clean_number_twice n :
  json_clean (json_clean (VNum n)) = json_clean (VNum n).
Proof. destruct n; reflexivity. Qed.

Lemma clean_number_defined n : is_undefined (json_clean (VNum n)) = false.
Proof. destruct n; reflexivity. Qed.

Lemma clean_location_twice code address :
  json_clean (json_clean (VObj (("code", VStr code) :: sent_address address)))
  = VObj (("code", VStr code) :: sent_address address).
Proof.
  unfold sent_address. destruct address; try reflexivity.
  destruct (is_empty (trim s)); reflexivity.
Qed.

(** What the single-tariff quote sends is the body it built, serialised. *)
Lemma sent_tariff_body E params w c v :
  sent (calculateDeliveryByTariff E params) w c ->
  body c = JsonBody v ->
  exists now b,
    calculateDeliveryByTariff_body E now params = Ok b /\ v = json_clean b.
Proof.
  intros Hs Hb.
  assert (Hem : emits (json_bodies
                         (fun v => exists now b,
                            calculateDeliveryByTariff_body E now params = Ok b
                            /\ v = json_clean b))
                  (calculateDeliveryByTariff E params)).
  { unfold calculateDeliveryByTariff.
    apply emits_bind; [auto with emits | intros now].
    apply emits_lift_bind. intros b Hbody.
    apply emits_bind; [auto with emits | intros _].
    apply emits_request. intros _. cbn [opt_body]. eauto. }
  pose proof (emits_sent _ _ w c Hem Hs) as H.
  unfold json_bodies in H. rewrite Hb in H. exact H.
Qed.

(** X13.  In every body that the single-tariff quote sends, the language
    is [rus], the tariff code is the number made of the code supplied, the
    currency is the number made of the currency supplied, 1 when there is
    none (either is [null] when it is not a finite number), and a shipment
    or delivery point is present exactly when one is supplied, as a
    string. *)
Theorem tariff_body_fields E params w c v :
  sent (calculateDeliveryByTariff E params) w c ->
  body c = JsonBody v ->
  field v "lang" = VStr "rus"
  /\ field v "tariff_code"
     = json_clean (VNum (ToNumber E (field params "tariffCode")))
  /\ field v "currency"
     = json_clean (VNum (ToNumber E (or_default (field params "currency")
                                       (VNum (Fin 1)))))
  /\ has_key "shipment_point" v = truthy (field params "shipmentPoint")
  /\ has_key "delivery_point" v = truthy (field params "deliveryPoint")
  /\ (truthy (field params "shipmentPoint") = true ->
      field v "shipment_point"
      = VStr (ToString (field params "shipmentPoint")))
  /\ (truthy (field params "deliveryPoint") = true ->
      field v "delivery_point"
      = VStr (ToString (field params "deliveryPoint"))).
Proof.
  intros Hs Hb.
  destruct (sent_tariff_body E params w c v Hs Hb) as [now [b [Hbody ->]]].
  destruct (tariff_body_members E now params b Hbody)
    as [ms [date [-> [_ [Hcode [_ [Hcur [Hlang [_ [_ [Hsp Hdp]]]]]]]]]]].
  unfold sent_point in Hsp, Hdp.
  split; [apply (clean_field_twice ms "lang" _ Hlang); reflexivity |].
  split.
  { rewrite (clean_field_twice ms "tariff_code" _ Hcode);
      [apply clean_number_twice | reflexivity | apply clean_number_defined]. }
  split.
  { rewrite (clean_field_twice ms "currency" _ Hcur);
      [apply clean_number_twice | reflexivity | apply clean_number_defined]. }
  destruct (truthy (field params "shipmentPoint"));
    destruct (truthy (field params "deliveryPoint"));
    repeat split; try discriminate;
    try (intros _);
    first [ apply (clean_has_key_twice ms _ _ Hsp); reflexivity
          | apply (clean_has_key_twice ms _ _ Hdp); reflexivity
          | apply (clean_no_key_twice ms _ Hsp)
          | apply (clean_no_key_twice ms _ Hdp)
          | apply (clean_field_twice ms "shipment_point" _ Hsp); reflexivity
          | apply (clean_field_twice ms "delivery_point" _ Hdp); reflexivity ].
Qed.

(** X14.  In every body that the single-tariff quote sends, a location is
    exactly its code as a string and, when the address supplied with it is
    a string that is not blank, that address trimmed; an address that is
    blank, or is no string, is not sent. *)
Theorem tariff_body_locations E params w c v :
  sent (calculateDeliveryByTariff E params) w c ->
  body c = JsonBody v ->
  field v "from_location"
  = VObj (("code", VStr (ToString (field (field params "fromLocation") "code")))
            :: sent_address (field (field params "fromLocation") "address"))
  /\ field v "to_location"
     = VObj (("code", VStr (ToString (field (field params "toLocation") "code")))
               :: sent_address (field (field params "toLocation") "address")).
Proof.
  intros Hs Hb.
  destruct (sent_tariff_body E params w c v Hs Hb) as [now [b [Hbody ->]]].
  destruct (tariff_body_members E now params b Hbody)
    as [ms [date [-> [_ [_ [_ [_ [_ [Hfrom [Hto _]]]]]]]]]].
  split.
  - rewrite (clean_field_twice ms "from_location" _ Hfrom) by reflexivity.
    apply clean_location_twice.
  - rewrite (clean_field_twice ms "to_location" _ Hto) by reflexivity.
    apply clean_location_twice.
Qed.

Lemma strip_millis_other c rest :
  (byte_of c =? 46)%N = false ->
  strip_millis (String c rest) = String c (strip_millis rest).
Proof.
  intros Hc. destruct rest as [| d1 [| d2 [| d3 r]]]; cbn [strip_millis];
    rewrite ?Hc; reflexivity.
Qed.

Lemma strip_millis_first a d1 d2 d3 rest :
  no_dot a = true ->
  is_digit d1 = true -> is_digit d2 = true -> is_digit d3 = true ->
  strip_millis (a +++ String "." (String d1 (String d2 (String d3 rest))))
  = a +++ rest.
Proof.
  intros Ha H1 H2 H3. induction a as [| ch a' IH].
  - cbn [String.append strip_millis]. rewrite H1, H2, H3. reflexivity.
  - cbn [no_dot] in Ha. apply andb_prop in Ha. destruct Ha as [Hc Ha].
    apply negb_true_iff in Hc.
    cbn [String.append]. rewrite (strip_millis_other _ _ Hc), (IH Ha).
    reflexivity.
Qed.

(** X15.  A date supplied as text travels without its milliseconds: the
    body carries the text less the first dot that three digits follow,
    and those digits; for a text of the form [a.dddz] with no dot in [a]
    that is [az].  A date that is given but is no text makes the quote
    throw before any call. *)
Theorem tariff_body_date E params w :
  (forall c v s,
     sent (calculateDeliveryByTariff E params) w c ->
     body c = JsonBody v ->
     field params "date" = VStr s ->
     is_empty s = false ->
     field v "date" = VStr (strip_millis s))
  /\ (forall a d1 d2 d3 z,
        no_dot a = true ->
        is_digit d1 = true -> is_digit d2 = true -> is_digit d3 = true ->
        strip_millis (a +++ String "." (String d1 (String d2 (String d3 z))))
        = a +++ z)
  /\ (is_nullish params = false ->
      truthy (field params "date") = true ->
      (forall s, field params "date" <> VStr s) ->
      exists e, calculateDeliveryByTariff E params w = (Throw e, w)).
Proof.
  split; [| split].
  - intros c v s Hs Hb Hdate Hne.
    destruct (sent_tariff_body E params w c v Hs Hb) as [now [b [Hbody ->]]].
    destruct (tariff_body_members E now params b Hbody)
      as [ms [date [-> [Hfmt [_ [Hd _]]]]]].
    rewrite (clean_field_twice ms "date" _ Hd) by reflexivity.
    unfold format_date in Hfmt. rewrite Hdate in Hfmt.
    cbn [truthy] in Hfmt. rewrite Hne in Hfmt. cbn [negb] in Hfmt.
    injection Hfmt as <-. reflexivity.
  - exact strip_millis_first.
  - intros Hn Htruthy Hnot.
    assert (Hb : exists e,
               calculateDeliveryByTariff_body E (clock w) params = Throw e).
    { unfold calculateDeliveryByTariff_body.
      rewrite !(get_field _ _ Hn). cbn [obind].
      destruct (get_default params "services" (VArr [])) eqn:Hsv;
        cbn [obind]; [| eauto].
      destruct (get_default params "currency" (VNum (Fin 1))) eqn:Hcu;
        cbn [obind]; [| eauto].
      unfold format_date. rewrite Htruthy. cbn [negb].
      destruct (field params "date") as [| | | | s | |] eqn:Hd; cbn [obind];
        eauto.
      exfalso. exact (Hnot s eq_refl). }
    destruct Hb as [e Hb]. exists e.
    apply calculateDeliveryByTariff_throws, Hb.
Qed.

(* ================================================================= *)
(** ** Serialising twice *)

Lemma json_clean_undefined v :
  is_undefined (json_clean v) = is_undefined v.
Proof. destruct v as [| | | [| |] | | |]; reflexivity. Qed.

(** Serialising and parsing again changes nothing: what [request] sends of
    a body that was already cleaned is that body. *)
Lemma json_clean_idem : forall v, json_clean (json_clean v) = json_clean v.
Proof.
  fix IH 1. intros [| | b | n | s | items | ms]; try reflexivity.
  - destruct n; reflexivity.
  - cbn [json_clean]. f_equal. revert items.
    fix IHl 1. intros [| x rest]; [reflexivity |].
    cbn [map]. f_equal; [| apply IHl].
    destruct (is_undefined x) eqn:Hx; [reflexivity |].
    rewrite json_clean_undefined, Hx. apply IH.
  - rewrite !json_clean_obj. f_equal. revert ms.
    fix IHl 1. intros [| [k x] rest]; [reflexivity |].
    rewrite clean_members_cons.
    destruct (is_undefined x) eqn:Hx; [apply IHl |].
    rewrite clean_members_cons, json_clean_undefined, Hx.
    f_equal; [f_equal; apply IH | apply IHl].
Qed.

Lemma mapM_tariff_service svcs :
  Forall (fun s => is_nullish s = false) svcs ->
  mapM tariff_service svcs = Ok (map service_entry svcs).
Proof.
  induction 1 as [| s rest Hs _ IH]; [reflexivity |].
  cbn [mapM map]. unfold tariff_service at 1.
  rewrite !(get_field _ _ Hs). cbn [obind]. rewrite IH. reflexivity.
Qed.

Lemma tariff_body_services E now params b svcs :
  calculateDeliveryByTariff_body E now params = Ok b ->
  or_default (field params "services") (VArr []) = VArr svcs ->
  Forall (fun s => is_nullish s = false) svcs ->
  exists ms,
    b = json_clean (VObj ms)
    /\ lookup "services" ms
       = match svcs with
         | [] => None
         | _ :: _ => Some (VArr (map service_entry svcs))
         end.
Proof.
  unfold calculateDeliveryByTariff_body. intros H Hsv Hall.
  repeat step_ok H. fields_of_gets. unwrap_ok H.
  repeat match goal with
         | X : get_default _ _ _ = Ok _ |- _ =>
             apply get_default_Ok in X; subst
         end.
  rewrite Hsv in *.
  match goal with
  | X : (if truthy _ then _ else _) = Ok _ |- _ =>
      cbn [truthy get obind String.eqb Ascii.eqb Bool.eqb] in X;
      unfold gt_zero in X; cbn [ToNumber num_lt] in X;
      destruct svcs as [| s0 rest];
      [ cbn in X
      | replace (0 <? Z.of_nat (List.length (s0 :: rest))) with true in X
          by (symmetry; apply Z.ltb_lt; cbn [List.length]; lia);
        cbn [array_method obind] in X;
        rewrite (mapM_tariff_service _ Hall) in X; cbn [obind] in X ];
      unwrap_ok X
  end;
    eexists; (split; [reflexivity |]);
    destruct (truthy (field params "shipmentPoint"));
    destruct (truthy (field params "deliveryPoint"));
    rewrite ?lookup_assign by reflexivity; reflexivity.
Qed.

(** X16.  In every body that the single-tariff quote sends, the services
    are present exactly when the list supplied is not empty, and each is
    reduced to its code and its parameter. *)
Theorem tariff_body_service_list E params w c v svcs :
  sent (calculateDeliveryByTariff E params) w c ->
  body c = JsonBody v ->
  or_default (field params "services") (VArr []) = VArr svcs ->
  Forall (fun s => is_nullish s = false) svcs ->
  (svcs = [] -> has_key "services" v = false)
  /\ (svcs <> [] ->
      field v "services" = json_clean (VArr (map service_entry svcs))).
Proof.
  intros Hs Hb Hsv Hall.
  destruct (sent_tariff_body E params w c v Hs Hb) as [now [b [Hbody ->]]].
  destruct (tariff_body_services E now params b svcs Hbody Hsv Hall)
    as [ms [-> Hl]].
  rewrite json_clean_idem. split.
  - intros ->. apply has_key_clean_false. cbn [has_key]. rewrite Hl.
    reflexivity.
  - intros Hne. destruct svcs as [| s0 rest]; [contradiction |].
    apply (field_clean "services" ms _ Hl). reflexivity.
Qed.

(* ================================================================= *)
(** ** Orders *)

Lemma sent_order_body E params w c v :
  sent (createOrder E params) w c ->
  body c = JsonBody v ->
  exists b, createOrder_body E params = Ok b /\ v = json_clean b.
Proof.
  intros Hs Hb.
  assert (Hem : emits (json_bodies
                         (fun v => exists b,
                            createOrder_body E params = Ok b
                            /\ v = json_clean b))
                  (createOrder E params)).
  { unfold createOrder. apply emits_lift_bind. intros b Hbody.
    apply emits_bind; [auto with emits | intros _].
    apply emits_request. intros _. cbn [opt_body]. eauto. }
  pose proof (emits_sent _ _ w c Hem Hs) as H.
  unfold json_bodies in H. rewrite Hb in H. exact H.
Qed.

Lemma mapM_order_phone ps l :
  mapM order_phone ps = Ok l -> l = map phone_entry ps.
Proof.
  revert l. induction ps as [| p rest IH]; intros l; cbn [mapM map].
  - intros [= <-]. reflexivity.
  - unfold order_phone at 1.
    destruct (get p "number") as [n | e] eqn:Hn; cbn [obind]; [| discriminate].
    destruct (mapM order_phone rest) as [l' |]; [| discriminate].
    intros [= <-]. rewrite (IH l' eq_refl). unfold phone_entry.
    rewrite (get_Ok_field _ _ _ Hn). reflexivity.
Qed.

Lemma clean_phone_entries ps :
  map (fun x => if is_undefined x then VNull else json_clean x)
    (map phone_entry ps)
  = map phone_entry ps.
Proof.
  induction ps as [| p rest IH]; [reflexivity |].
  cbn [map]. rewrite IH. reflexivity.
Qed.

(** The members of the body that [createOrder] builds. *)
Lemma createOrder_body_parts E params b :
  createOrder_body E params = Ok b ->
  exists ms phone_list items package_list,
    b = VObj ms
    /\ lookup "recipient" ms
       = Some (VObj [("name",
                      VStr (ToString (field (field params "recipient")
                                        "name")));
                     ("phones", VArr phone_list)])
    /\ lookup "packages" ms = Some (VArr package_list)
    /\ match field (field params "recipient") "phones" with
       | VArr ps => phone_list = map phone_entry ps
       | p => phone_list = [VObj [("number", VStr (ToString p))]]
       end
    /\ field params "packages" = VArr items
    /\ mapiM (order_package E) 0 items = Ok package_list.
Proof.
  unfold createOrder_body. intros H.
  repeat first [step_ok H | step_if H].
  all: fields_of_gets.
  all: repeat match goal with
         | X : (if ?c then _ else _) = Ok _ |- _ =>
             destruct c; [| discriminate];
             apply get_Ok_field in X; subst
         end.
  all: match goal with
       | X : array_method ?p _ = Ok ?items |- _ =>
           destruct p eqn:Hp; try discriminate X; cbn [array_method] in X;
           unwrap_ok X
       end.
  all: match goal with
       | X : match ?p with _ => _ end = Ok ?l |- _ =>
           assert (Hph : match p with
                         | VArr ps => l = map phone_entry ps
                         | q => l = [VObj [("number", VStr (ToString q))]]
                         end)
             by (destruct p; first [ apply mapM_order_phone; exact X
                                   | injection X as <-; reflexivity ]);
           clear X
       end.
  all: repeat match type of H with
         | context [if ?c then _ else _] => destruct c
         end;
    unwrap_ok H;
    do 4 eexists;
    (split; [reflexivity |]);
    rewrite ?lookup_assign by reflexivity;
    (split; [reflexivity |]); (split; [reflexivity |]);
    (split; [exact Hph |]); (split; [reflexivity | eassumption]).
Qed.

Lemma truthy_not_nullish v : truthy v = true -> is_nullish v = false.
Proof. destruct v; cbn; congruence. Qed.

Lemma truthy_defined v : truthy v = true -> is_undefined v = false.
Proof. destruct v; cbn; congruence. Qed.

Lemma get_default_field v k d :
  is_nullish v = false -> get_default v k d = Ok (or_default (field v k) d).
Proof.
  intros Hn. unfold get_default, or_default. rewrite (get_field _ _ Hn).
  destruct (field v k); reflexivity.
Qed.

Lemma mapiM_nth {A B} (f : A -> Z -> outcome B) xs :
  forall i ys,
    mapiM f i xs = Ok ys ->
    List.length ys = List.length xs
    /\ forall k x,
        nth_error xs k = Some x ->
        exists y, nth_error ys k = Some y /\ f x (i + Z.of_nat k) = Ok y.
Proof.
  induction xs as [| x0 rest IH]; intros i ys; cbn [mapiM].
  - intros [= <-]. split; [reflexivity |]. intros [| k] x; discriminate.
  - destruct (f x0 i) as [y0 |] eqn:H0; cbn [obind]; [| discriminate].
    destruct (mapiM f (i + 1) rest) as [ys' |] eqn:Hr; cbn [obind];
      [| discriminate].
    intros [= <-]. destruct (IH _ _ Hr) as [Hlen Hnth].
    split; [cbn [List.length]; congruence |].
    intros [| k] x; cbn [nth_error].
    + intros [= <-]. exists y0. rewrite Z.add_0_r. auto.
    + intros Hx. destruct (Hnth k x Hx) as [y [Hy Hf]].
      exists y. split; [exact Hy |].
      replace (i + Z.of_nat (S k)) with (i + 1 + Z.of_nat k) by lia.
      exact Hf.
Qed.

Lemma order_package_entry E pkg i y :
  order_package E pkg i = Ok y ->
  y = VObj [("number",
             js_or (field pkg "number") (VStr ("PACK-" +++ decimal (i + 1))));
            ("weight", VNum (ToNumber E (field pkg "weight")));
            ("length", VNum (ToNumber E (field pkg "length")));
            ("width", VNum (ToNumber E (field pkg "width")));
            ("height", VNum (ToNumber E (field pkg "height")));
            ("items", js_or (field pkg "items") (VArr []))].
Proof.
  unfold order_package. intros H. repeat step_ok H. fields_of_gets.
  unwrap_ok H. reflexivity.
Qed.

Lemma js_or_defined a b :
  is_undefined b = false -> is_undefined (js_or a b) = false.
Proof.
  intros Hb. unfold js_or. destruct (truthy a) eqn:Ha; [| exact Hb].
  apply truthy_defined, Ha.
Qed.

Lemma order_entry_fields n w l wd h it :
  is_undefined n = false ->
  is_undefined it = false ->
  let entry := json_clean (VObj [("number", n); ("weight", VNum w);
                                 ("length", VNum l); ("width", VNum wd);
                                 ("height", VNum h); ("items", it)]) in
  field entry "number" = json_clean n
  /\ field entry "weight" = json_clean (VNum w)
  /\ field entry "length" = json_clean (VNum l)
  /\ field entry "width" = json_clean (VNum wd)
  /\ field entry "height" = json_clean (VNum h)
  /\ field entry "items" = json_clean it.
Proof.
  intros Hn Hit entry. subst entry.
  rewrite json_clean_obj, !clean_members_cons, Hn, Hit.
  cbn [is_undefined]. repeat split; reflexivity.
Qed.

(** X17.  [createOrder] makes its checks in a fixed order, each with its
    own message: the order number, the tariff code, the name of the
    recipient, the packages.  A parameter object that fails one of them is
    refused with the message of the first check it fails, and nothing is
    sent: no token exchange, no carrier request. *)
Theorem createOrder_checks E params w :
  is_nullish params = false ->
  (truthy (field params "number") = false ->
   createOrder E params w = (Throw (Error "Номер заказа обязателен"), w))
  /\ (truthy (field params "number") = true ->
      truthy (field params "tariffCode") = false ->
      createOrder E params w = (Throw (Error "Код тарифа обязателен"), w))
  /\ (truthy (field params "number") = true ->
      truthy (field params "tariffCode") = true ->
      truthy (field params "recipient")
      && truthy (field (field params "recipient") "name") = false ->
      createOrder E params w = (Throw (Error "Получатель обязателен"), w))
  /\ (truthy (field params "number") = true ->
      truthy (field params "tariffCode") = true ->
      truthy (field params "recipient")
      && truthy (field (field params "recipient") "name") = true ->
      truthy (field params "packages") = false
      \/ is_zero (field (field params "packages") "length") = true ->
      createOrder E params w = (Throw (Error "Посылки обязательны"), w)).
Proof.
  intros Hn.
  repeat split.
  - intros H1. apply createOrder_throws. unfold createOrder_body.
    rewrite (get_default_field _ _ _ Hn), !(get_field _ _ Hn).
    cbn [obind]. rewrite H1. reflexivity.
  - intros H1 H2. apply createOrder_throws. unfold createOrder_body.
    rewrite (get_default_field _ _ _ Hn), !(get_field _ _ Hn).
    cbn [obind]. rewrite H1, H2. reflexivity.
  - intros H1 H2 H3. apply createOrder_throws. unfold createOrder_body.
    rewrite (get_default_field _ _ _ Hn), !(get_field _ _ Hn).
    cbn [obind]. rewrite H1, H2. cbn [negb].
    destruct (truthy (field params "recipient")) eqn:Hr; [| reflexivity].
    rewrite (get_field _ _ (truthy_not_nullish _ Hr)). cbn [obind negb orb].
    cbn [andb] in H3. rewrite H3. reflexivity.
  - intros H1 H2 H3 H4. apply createOrder_throws. unfold createOrder_body.
    rewrite (get_default_field _ _ _ Hn), !(get_field _ _ Hn).
    cbn [obind]. rewrite H1, H2. cbn [negb].
    apply andb_prop in H3. destruct H3 as [Hr Hname].
    rewrite Hr. rewrite (get_field _ _ (truthy_not_nullish _ Hr)).
    cbn [obind negb orb]. rewrite Hname. cbn [negb].
    destruct (truthy (field params "packages")) eqn:Hp; [| reflexivity].
    destruct H4 as [H4 | H4]; [discriminate |].
    rewrite (get_field _ _ (truthy_not_nullish _ Hp)). cbn [obind negb orb].
    rewrite H4. reflexivity.
Qed.

(** X18.  In every body that [createOrder] sends, the recipient carries
    the name as a string and the phones as a list of numbers: one entry
    for each phone of an array, its [number] or else the phone itself made
    a string; a single entry for anything that is not an array.  A
    recipient without phones is sent with the one number [undefined]. *)
Theorem order_recipient E params w c v :
  sent (createOrder E params) w c ->
  body c = JsonBody v ->
  field (field v "recipient") "name"
  = VStr (ToString (field (field params "recipient") "name"))
  /\ field (field v "recipient") "phones"
     = VArr (sent_phones (field (field params "recipient") "phones"))
  /\ (field (field params "recipient") "phones" = VUndefined ->
      field (field v "recipient") "phones"
      = VArr [VObj [("number", VStr "undefined")]]).
Proof.
  intros Hs Hb.
  destruct (sent_order_body E params w c v Hs Hb) as [b [Hbody ->]].
  destruct (createOrder_body_parts E params b Hbody)
    as [ms [phone_list [items [package_list
        [-> [Hrec [_ [Hph _]]]]]]]].
  rewrite (field_clean "recipient" ms _ Hrec eq_refl).
  assert (Hphones :
            field (json_clean
                     (VObj [("name",
                             VStr (ToString (field (field params "recipient")
                                               "name")));
                            ("phones", VArr phone_list)])) "phones"
            = VArr (sent_phones (field (field params "recipient") "phones"))).
  { unfold sent_phones.
    destruct (field (field params "recipient") "phones");
      subst phone_list; try reflexivity.
    cbn [json_clean is_undefined field get lookup String.eqb Ascii.eqb
           Bool.eqb]. cbn. rewrite clean_phone_entries. reflexivity. }
  split; [reflexivity |]. split; [exact Hphones |].
  intros Hu. rewrite Hphones, Hu. reflexivity.
Qed.

(** X19.  In every body that [createOrder] sends there is one package for
    each package supplied, in the same order.  A package keeps its own
    number when it has one and is numbered [PACK-] and its position,
    counted from 1, when it has none; its dimensions are the numbers made
    of those supplied, [null] for what is not a finite number: no
    dimension is checked before an order is sent. *)
Theorem order_packages E params w c v items :
  sent (createOrder E params) w c ->
  body c = JsonBody v ->
  field params "packages" = VArr items ->
  exists entries,
    field v "packages" = VArr entries
    /\ List.length entries = List.length items
    /\ forall k pkg,
        nth_error items k = Some pkg ->
        exists entry,
          nth_error entries k = Some entry
          /\ field entry "number"
             = (if truthy (field pkg "number")
                then json_clean (field pkg "number")
                else VStr ("PACK-" +++ decimal (Z.of_nat k + 1)))
          /\ field entry "weight"
             = json_clean (VNum (ToNumber E (field pkg "weight")))
          /\ field entry "length"
             = json_clean (VNum (ToNumber E (field pkg "length")))
          /\ field entry "width"
             = json_clean (VNum (ToNumber E (field pkg "width")))
          /\ field entry "height"
             = json_clean (VNum (ToNumber E (field pkg "height")))
          /\ field entry "items"
             = json_clean (js_or (field pkg "items") (VArr [])).
Proof.
  intros Hs Hb Hitems.
  destruct (sent_order_body E params w c v Hs Hb) as [b [Hbody ->]].
  destruct (createOrder_body_parts E params b Hbody)
    as [ms [phone_list [items' [package_list
        [-> [_ [Hpk [_ [Hitems' Hmap]]]]]]]]].
  rewrite Hitems in Hitems'. injection Hitems' as <-.
  destruct (mapiM_nth _ _ _ _ Hmap) as [Hlen Hnth].
  rewrite (field_clean "packages" ms _ Hpk eq_refl). cbn [json_clean].
  eexists. split; [reflexivity |].
  split; [rewrite length_map; exact Hlen |].
  intros k pkg Hk. destruct (Hnth k pkg Hk) as [y [Hy Hf]].
  apply order_package_entry in Hf. cbn [Z.add] in Hf.
  exists (json_clean y). split.
  - rewrite nth_error_map, Hy. cbn [option_map]. subst y. reflexivity.
  - subst y.
    destruct (order_entry_fields
                (js_or (field pkg "number")
                   (VStr ("PACK-" +++ decimal (Z.of_nat k + 1))))
                (ToNumber E (field pkg "weight"))
                (ToNumber E (field pkg "length"))
                (ToNumber E (field pkg "width"))
                (ToNumber E (field pkg "height"))
                (js_or (field pkg "items") (VArr []))
                (js_or_defined _ (VStr _) eq_refl)
                (js_or_defined _ (VArr []) eq_refl))
      as [Hn [Hw [Hl [Hwd [Hh Hit]]]]].
    rewrite Hn, Hw, Hl, Hwd, Hh, Hit. repeat split. unfold js_or.
    destruct (truthy (field pkg "number")); reflexivity.
Qed.

(* ================================================================= *)
(** ** What the handlers answer *)

Lemma replies_ret (P : reply -> Prop) r : P r -> replies P (ret r).
Proof. intros H w. exact H. Qed.

Lemma replies_send (P : reply -> Prop) code v :
  P (mkReply code (json_clean v)) -> replies P (send code v).
Proof. intros H w. exact H. Qed.

Lemma replies_bind {A} (P : reply -> Prop) (m : M A) (k : A -> M reply) :
  (forall a, replies P (k a)) -> replies P (bind m k).
Proof.
  intros H w. unfold bind. destruct (m w) as [[a | e] w1]; [apply H | exact I].
Qed.

Lemma replies_if (P : reply -> Prop) (b : bool) (m1 m2 : M reply) :
  replies P m1 -> replies P m2 -> replies P (if b then m1 else m2).
Proof. destruct b; auto. Qed.

Lemma answers_try_catch (P : reply -> Prop) m h :
  replies P m -> (forall e, answers P (h e)) -> answers P (try_catch m h).
Proof.
  intros Hm Hh w. unfold try_catch. specialize (Hm w).
  destruct (m w) as [[r | e] w1]; cbn [fst] in *; [eauto | apply Hh].
Qed.

Lemma answers_handler_catch (P : reply -> Prop) context failure e :
  (forall v, P (mkReply 500 v)) ->
  answers P (handler_catch context failure e).
Proof. intros H w. eexists. split; [reflexivity | apply H]. Qed.

Lemma refuses_early_ret r : refuses_early (ret r).
Proof. intros w _. reflexivity. Qed.

Lemma refuses_early_lift_bind {A} (o : outcome A) (k : A -> M reply) :
  (forall a, o = Ok a -> refuses_early (k a)) ->
  refuses_early (bind (lift o) k).
Proof.
  intros H w. destruct o as [a | e]; [apply (H a eq_refl) | exact I].
Qed.

Lemma refuses_early_after {A} (m : M A) (k : A -> M reply) :
  (forall a, replies (fun r => http_status r <> 400) (k a)) ->
  refuses_early (bind m k).
Proof.
  intros H w. unfold bind. destruct (m w) as [[a | e] w1]; [| exact I].
  specialize (H a w1). destruct (fst (k a w1)); [| exact I].
  intros H4. contradiction.
Qed.

Lemma refuses_early_if (b : bool) (m1 m2 : M reply) :
  refuses_early m1 -> refuses_early m2 ->
  refuses_early (if b then m1 else m2).
Proof. destruct b; auto. Qed.

Lemma refuses_early_try_catch m h :
  refuses_early m ->
  (forall e, replies (fun r => http_status r <> 400) (h e)) ->
  refuses_early (try_catch m h).
Proof.
  intros Hm Hh w. unfold try_catch. specialize (Hm w).
  destruct (m w) as [[r | e] w1]; cbn [fst snd] in *; [exact Hm |].
  specialize (Hh e w1). destruct (fst (h e w1)); [| exact I].
  intros H4. contradiction.
Qed.

Lemma replies_handler_catch (P : reply -> Prop) context failure e :
  (forall v, P (mkReply 500 v)) ->
  replies P (handler_catch context failure e).
Proof. intros H w. apply H. Qed.

(** Every way through a handler ends in [res.json]: the statuses that the
    [try] block can answer with. *)
Ltac replies_steps :=
  repeat match goal with
         | |- replies _ (bind _ _) => apply replies_bind; intros ?
         | |- replies _ (if _ then _ else _) => apply replies_if
         | |- replies _ (send _ _) => apply replies_send
         | |- replies _ (ret _) => apply replies_ret
         end.

Ltac refuses_steps :=
  repeat match goal with
         | |- refuses_early (bind (lift _) _) =>
             apply refuses_early_lift_bind; intros ? _
         | |- refuses_early (if _ then _ else _) => apply refuses_early_if
         | |- refuses_early (ret _) => apply refuses_early_ret
         | |- refuses_early (bind _ _) =>
             apply refuses_early_after; intros ?; replies_steps;
             cbn [http_status]; discriminate
         end.

(** X20.  Every handler answers whatever the request and whatever the
    carrier does, an exception of its [try] block included; the status is
    200 (202 for an order), 400 or 500. *)
Theorem handlers_answer E input :
  answers (fun r => In (http_status r) [200; 400; 500]) (get_cities E input)
  /\ answers (fun r => In (http_status r) [200; 400; 500])
       (get_calculate E input)
  /\ answers (fun r => In (http_status r) [200; 400; 500])
       (post_calculate E input)
  /\ answers (fun r => In (http_status r) [200; 400; 500])
       (calculate_by_tariff E input)
  /\ answers (fun r => In (http_status r) [200; 400; 500])
       (get_offices E input)
  /\ answers (fun r => In (http_status r) [200; 400; 500])
       (get_tariffs E input)
  /\ answers (fun r => In (http_status r) [202; 400; 500])
       (post_orders E input).
Proof.
  repeat apply conj.
  all: first [ unfold get_cities | unfold get_calculate | unfold post_calculate
             | unfold calculate_by_tariff | unfold get_offices
             | unfold get_tariffs | unfold post_orders ].
  all: apply answers_try_catch;
    [ try unfold calculate_by_tariff_try; unfold validation_failed;
      replies_steps; cbn [http_status In]; tauto
    | intros e; apply answers_handler_catch; intros v;
      cbn [http_status In]; tauto ].
Qed.

(** X21.  A handler that answers 400 has sent nothing: the refusal is
    decided before the token exchange and before any carrier request. *)
Theorem refusals_send_nothing E input :
  refuses_early (get_cities E input)
  /\ refuses_early (get_calculate E input)
  /\ refuses_early (post_calculate E input)
  /\ refuses_early (calculate_by_tariff E input)
  /\ refuses_early (get_offices E input)
  /\ refuses_early (get_tariffs E input)
  /\ refuses_early (post_orders E input).
Proof.
  repeat apply conj.
  all: first [ unfold get_cities | unfold get_calculate | unfold post_calculate
             | unfold calculate_by_tariff | unfold get_offices
             | unfold get_tariffs | unfold post_orders ].
  all: apply refuses_early_try_catch;
    [ try unfold calculate_by_tariff_try; unfold validation_failed, send;
      refuses_steps
    | intros e; apply replies_handler_catch; intros v;
      cbn [http_status]; discriminate ].
Qed.

Lemma bind_lift_Ok {A B} (o : outcome A) a (k : A -> M B) w :
  o = Ok a -> bind (lift o) k w = k a w.
Proof. intros ->. reflexivity. Qed.

Lemma truthy_field_object v k : truthy (field v k) = true -> is_nullish v = false.
Proof. destruct v; cbn; congruence. Qed.

(** X22.  An order with a shipment point and neither a delivery point nor
    a location passes the checks of [POST /orders], although their message
    asks for a destination as well: it is [createOrder] that refuses it,
    and the handler answers 500, not 400, with the message of that refusal.
    Nothing is sent. *)
Theorem order_without_destination E req_body w :
  truthy (field req_body "number") = true ->
  truthy (field req_body "tariffCode") = true ->
  truthy (field req_body "recipient") = true ->
  truthy (field (field req_body "recipient") "name") = true ->
  truthy (field req_body "packages") = true ->
  is_zero (field (field req_body "packages") "length") = false ->
  truthy (field req_body "shipmentPoint") = true ->
  truthy (field req_body "deliveryPoint") = false ->
  truthy (field req_body "toLocation") = false ->
  exists e,
    order_rejection e
    /\ fst (post_orders E req_body w)
       = Ok (mkReply 500
               (VObj [("error", VStr "Ошибка при создании заказа");
                      ("message", VStr (message e))]))
    /\ trace (snd (post_orders E req_body w)) = trace w.
Proof.
  intros Hnum Htc Hrec Hname Hpk Hlen Hsp Hdp Htl.
  pose proof (truthy_field_object _ _ Hnum) as Hn.
  unfold post_orders, try_catch.
  rewrite (bind_lift_Ok _ _ _ _ (get_default_field _ "type" _ Hn)).
  do 7 (erewrite bind_lift_Ok by (apply (get_field _ _ Hn))).
  rewrite Hrec, Hpk.
  erewrite bind_lift_Ok by (apply get_field, truthy_not_nullish, Hrec).
  erewrite bind_lift_Ok by (apply get_field, truthy_not_nullish, Hpk).
  unfold required. rewrite Hnum, Htc, Hname, Hlen, Hsp.
  cbn [negb orb andb app List.length Z.of_nat Z.ltb Z.compare].
  match goal with
  | |- context [createOrder E ?p] => set (params := p)
  end.
  destruct (createOrder_body E params) as [b | e] eqn:Hbody.
  - destruct (createOrder_body_destination E params b Hbody)
      as [body1 [[[Hd _] | [_ [Ht _]]] _]].
    + change (field params "deliveryPoint")
        with (field req_body "deliveryPoint") in Hd. congruence.
    + change (field params "toLocation")
        with (field req_body "toLocation") in Ht. congruence.
  - exists e. split; [apply (createOrder_body_rejection E params), Hbody |].
    rewrite (bind_Throw _ _ _ _ _ (createOrder_throws E params w e Hbody)).
    split; reflexivity.
Qed.

(* ================================================================= *)
(** ** What the quote handlers send *)

Lemma quote_body_one_package E params pw pl pwd ph b :
  field params "packages"
  = VArr [VObj [("weight", VNum pw); ("length", VNum pl);
                ("width", VNum pwd); ("height", VNum ph)]] ->
  calculateDelivery_body E params = Ok b ->
  json_clean b
  = sent_quote (ToString (field (field params "fromLocation") "code"))
      (ToString (field (field params "toLocation") "code")) pw pl pwd ph
  /\ isNaN pw || isNaN pl || isNaN pwd || isNaN ph = false.
Proof.
  unfold calculateDelivery_body. intros Hp H.
  repeat step_ok H. fields_of_gets.
  match goal with
  | X : array_method _ _ = Ok _ |- _ =>
      rewrite Hp in X; cbn [array_method] in X; unwrap_ok X
  end.
  match goal with
  | X : mapM _ _ = Ok _ |- _ =>
      cbn [mapM] in X; unfold quote_package in X;
      cbn [get lookup String.eqb Ascii.eqb Bool.eqb obind ToNumber] in X;
      destruct (isNaN pw || isNaN pl || isNaN pwd || isNaN ph) eqn:Hnan;
      [discriminate X |]; unwrap_ok X
  end.
  cbn [List.length Z.of_nat Pos.of_succ_nat Z.eqb] in H. unwrap_ok H.
  split; [| reflexivity].
  rewrite json_clean_idem. reflexivity.
Qed.

Lemma emits_quote_one_package E params pw pl pwd ph :
  field params "packages"
  = VArr [VObj [("weight", VNum pw); ("length", VNum pl);
                ("width", VNum pwd); ("height", VNum ph)]] ->
  emits (json_bodies
           (fun v =>
              v = sent_quote
                    (ToString (field (field params "fromLocation") "code"))
                    (ToString (field (field params "toLocation") "code"))
                    pw pl pwd ph
              /\ isNaN pw || isNaN pl || isNaN pwd || isNaN ph = false))
    (calculateDelivery E params).
Proof.
  intros Hp. unfold calculateDelivery. apply emits_lift_bind. intros b Hb.
  apply emits_bind;
    [destruct (negb (string_eq_opt (NODE_ENV E) "production"));
     auto with emits | intros _].
  apply emits_request. intros _. cbn [opt_body].
  apply (quote_body_one_package E params); assumption.
Qed.

Lemma emits_handler_catch P context failure e :
  emits P (handler_catch context failure e).
Proof. unfold handler_catch, send. repeat emits_step. Qed.

Lemma emits_send P code v : emits P (send code v).
Proof. unfold send. auto with emits. Qed.

Lemma emits_validation_failed P details : emits P (validation_failed details).
Proof. unfold validation_failed. apply emits_send. Qed.

Lemma no_errors (errors : list string) :
  (0 <? Z.of_nat (List.length errors)) = false -> errors = [].
Proof.
  destruct errors as [| x rest]; [reflexivity |].
  intros H. apply Z.ltb_ge in H. cbn [List.length] in H. lia.
Qed.

Lemma required_nil v name : required v name = [] -> truthy v = true.
Proof. unfold required. destruct (truthy v); [reflexivity | discriminate]. Qed.

Lemma located_code code address l :
  located code address = Ok l -> field l "code" = VNum code.
Proof.
  unfold located. intros H. step_ok H. unwrap_ok H.
  destruct (truthy _); reflexivity.
Qed.

(** X23.  [POST /calculate] refuses a request without the two addresses,
    yet what it sends carries none: the body of its quote is the two city
    codes, the strings of the integers read from what was supplied, and
    the one package.  The dimensions of that package are numbers; a city
    code of which no integer can be read is not refused and goes out as
    the string [NaN]. *)
Theorem post_calculate_sends E req_body w c v :
  sent (post_calculate E req_body) w c ->
  body c = JsonBody v ->
  v = sent_quote
        (ToString (VNum (parseInt E (field req_body "fromCityCode"))))
        (ToString (VNum (parseInt E (field req_body "toCityCode"))))
        (parseInt E (field req_body "weight"))
        (parseInt E (field req_body "length"))
        (parseInt E (field req_body "width"))
        (parseInt E (field req_body "height"))
  /\ truthy (field req_body "fromAddress") = true
  /\ truthy (field req_body "toAddress") = true
  /\ isNaN (parseInt E (field req_body "weight"))
     || isNaN (parseInt E (field req_body "length"))
     || isNaN (parseInt E (field req_body "width"))
     || isNaN (parseInt E (field req_body "height")) = false
  /\ (parseInt E (field req_body "fromCityCode") = NaN ->
      field (field v "from_location") "code" = VStr "NaN").
Proof.
  intros Hs Hb.
  assert (Hem :
            emits (json_bodies
                     (fun v =>
                        (v = sent_quote
                               (ToString (VNum (parseInt E (field req_body
                                                              "fromCityCode"))))
                               (ToString (VNum (parseInt E (field req_body
                                                              "toCityCode"))))
                               (parseInt E (field req_body "weight"))
                               (parseInt E (field req_body "length"))
                               (parseInt E (field req_body "width"))
                               (parseInt E (field req_body "height"))
                         /\ isNaN (parseInt E (field req_body "weight"))
                            || isNaN (parseInt E (field req_body "length"))
                            || isNaN (parseInt E (field req_body "width"))
                            || isNaN (parseInt E (field req_body "height"))
                            = false)
                        /\ truthy (field req_body "fromAddress") = true
                        /\ truthy (field req_body "toAddress") = true))
              (post_calculate E req_body)).
  { unfold post_calculate.
    apply emits_try_catch; [| intros e; apply emits_handler_catch].
    do 8 (apply emits_lift_bind; intros ? ?). fields_of_gets. cbv zeta.
    match goal with
    | |- emits _ (if ?t then _ else _) => destruct t eqn:Herr
    end; [apply emits_validation_failed |].
    apply no_errors in Herr.
    repeat match type of Herr with
           | _ ++ _ = [] =>
               apply app_eq_nil in Herr;
               let H := fresh "Hreq" in destruct Herr as [H Herr];
               apply required_nil in H
           end.
    apply required_nil in Herr.
    apply emits_bind;
      [| intros result; apply emits_lift_bind; intros ? _; apply emits_send].
    eapply emits_impl;
      [| apply (emits_quote_one_package E _
                  (parseInt E (field req_body "weight"))
                  (parseInt E (field req_body "length"))
                  (parseInt E (field req_body "width"))
                  (parseInt E (field req_body "height"))); reflexivity].
    intros c'. unfold json_bodies. destruct (body c'); auto. }
  pose proof (emits_sent _ _ w c Hem Hs) as H.
  unfold json_bodies in H. rewrite Hb in H.
  destruct H as [[-> Hnan] [Hfa Hta]].
  repeat split; try assumption.
  intros Hcode. rewrite Hcode. reflexivity.
Qed.

(** X24.  [GET /calculate] formats the addresses it is given and sends
    neither: the body of its quote is the two city codes, the strings of
    the integers read from what was supplied, and the one package.  It
    sends nothing unless an integer can be read from each of the two codes
    and the four dimensions. *)
Theorem get_calculate_sends E query w c v :
  sent (get_calculate E query) w c ->
  body c = JsonBody v ->
  v = sent_quote
        (ToString (VNum (parseInt E (field query "fromCityCode"))))
        (ToString (VNum (parseInt E (field query "toCityCode"))))
        (parseInt E (field query "weight"))
        (parseInt E (field query "length"))
        (parseInt E (field query "width"))
        (parseInt E (field query "height"))
  /\ isNaN (parseInt E (field query "fromCityCode"))
     || isNaN (parseInt E (field query "toCityCode"))
     || isNaN (parseInt E (field query "weight"))
     || isNaN (parseInt E (field query "length"))
     || isNaN (parseInt E (field query "width"))
     || isNaN (parseInt E (field query "height")) = false.
Proof.
  intros Hs Hb.
  assert (Hem :
            emits (json_bodies
                     (fun v =>
                        (v = sent_quote
                               (ToString (VNum (parseInt E (field query
                                                              "fromCityCode"))))
                               (ToString (VNum (parseInt E (field query
                                                              "toCityCode"))))
                               (parseInt E (field query "weight"))
                               (parseInt E (field query "length"))
                               (parseInt E (field query "width"))
                               (parseInt E (field query "height"))
                         /\ isNaN (parseInt E (field query "weight"))
                            || isNaN (parseInt E (field query "length"))
                            || isNaN (parseInt E (field query "width"))
                            || isNaN (parseInt E (field query "height"))
                            = false)
                        /\ isNaN (parseInt E (field query "fromCityCode"))
                           || isNaN (parseInt E (field query "toCityCode"))
                           || isNaN (parseInt E (field query "weight"))
                           || isNaN (parseInt E (field query "length"))
                           || isNaN (parseInt E (field query "width"))
                           || isNaN (parseInt E (field query "height"))
                           = false))
              (get_calculate E query)).
  { unfold get_calculate.
    apply emits_try_catch; [| intros e; apply emits_handler_catch].
    do 8 (apply emits_lift_bind; intros ? ?). fields_of_gets. cbv zeta.
    match goal with
    | |- emits _ (if ?t then _ else _) => destruct t
    end; [apply emits_validation_failed |].
    match goal with
    | |- emits _ (if ?t then _ else _) => destruct t eqn:Hnan
    end; [apply emits_validation_failed |].
    apply emits_lift_bind. intros fromLocation Hfrom.
    apply emits_lift_bind. intros toLocation Hto.
    apply located_code in Hfrom. apply located_code in Hto.
    apply emits_bind;
      [| intros result; apply emits_lift_bind; intros ? _; apply emits_send].
    eapply emits_impl;
      [| apply (emits_quote_one_package E _
                  (parseInt E (field query "weight"))
                  (parseInt E (field query "length"))
                  (parseInt E (field query "width"))
                  (parseInt E (field query "height"))); reflexivity].
    intros c'. unfold json_bodies. destruct (body c'); auto.
    change (field (field (VObj _) "fromLocation") "code")
      with (field fromLocation "code").
    change (field (field (VObj _) "toLocation") "code")
      with (field toLocation "code").
    rewrite Hfrom, Hto. auto. }
  pose proof (emits_sent _ _ w c Hem Hs) as H.
  unfold json_bodies in H. rewrite Hb in H.
  destruct H as [[-> _] Hnan]. split; [reflexivity | exact Hnan].
Qed.

(* ================================================================= *)
(** ** Tariffs that need no pickup point *)

Lemma emits_and {A} (P Q : net_call -> Prop) (m : M A) :
  emits P m -> emits Q m -> emits (fun c => P c /\ Q c) m.
Proof.
  intros HP HQ w. destruct (HP w) as [n [E1 F1]]. destruct (HQ w) as [n' [E2 F2]].
  rewrite E1 in E2. apply app_inv_head in E2. subst n'.
  exists n. split; [exact E1 |]. apply Forall_forall. intros c Hc.
  rewrite Forall_forall in F1, F2. auto.
Qed.

Lemma emits_ret_bind {A B} P (a : A) (k : A -> M B) :
  emits P (k a) -> emits P (bind (ret a) k).
Proof. intros H w. exact (H w). Qed.

Lemma tariff_points E now params b :
  calculateDeliveryByTariff_body E now params = Ok b ->
  points_as_given (field params "shipmentPoint") (field params "deliveryPoint")
    (json_clean b).
Proof.
  intros Hbody.
  destruct (tariff_body_members E now params b Hbody)
    as [ms [date [-> [_ [_ [_ [_ [_ [_ [_ [Hsp Hdp]]]]]]]]]]].
  unfold sent_point in Hsp, Hdp. unfold points_as_given.
  destruct (truthy (field params "shipmentPoint"));
    destruct (truthy (field params "deliveryPoint"));
    repeat split; try discriminate;
    try (intros _);
    first [ apply (clean_has_key_twice ms _ _ Hsp); reflexivity
          | apply (clean_has_key_twice ms _ _ Hdp); reflexivity
          | apply (clean_no_key_twice ms _ Hsp)
          | apply (clean_no_key_twice ms _ Hdp)
          | apply (clean_field_twice ms "shipment_point" _ Hsp); reflexivity
          | apply (clean_field_twice ms "delivery_point" _ Hdp); reflexivity ].
Qed.

Lemma emits_tariff_points E params :
  emits (fun c =>
           ((exists a, c = token_call a) \/ method c = "POST")
           /\ json_bodies
                (points_as_given (field params "shipmentPoint")
                   (field params "deliveryPoint")) c)
    (calculateDeliveryByTariff E params).
Proof.
  unfold calculateDeliveryByTariff.
  apply emits_bind; [auto with emits | intros now].
  apply emits_lift_bind. intros b Hb.
  apply emits_bind; [auto with emits | intros _].
  apply emits_and.
  - eapply emits_impl; [| apply emits_request_shape].
    intros c [Ht | [cl [tok ->]]]; [left; exact Ht | right; reflexivity].
  - apply emits_request. intros _. cbn [opt_body].
    apply (tariff_points E now), Hb.
Qed.

(** X25.  For a tariff other than 751, [POST /calculate-by-tariff] looks
    up no pickup point: all it sends is the token exchange and the quote
    itself, and the quote carries the shipment point and the delivery
    point exactly as supplied, each present when one is given and absent
    when none is. *)
Theorem other_tariffs_points_as_given E req_body w c :
  num_eq (parseInt E (field req_body "tariffCode")) (Fin 751) = false ->
  sent (calculate_by_tariff E req_body) w c ->
  ((exists a, c = token_call a) \/ method c = "POST")
  /\ forall v,
      body c = JsonBody v ->
      points_as_given (field req_body "shipmentPoint")
        (field req_body "deliveryPoint") v.
Proof.
  intros Hne Hs.
  assert (Hem :
            emits (fun c =>
                     ((exists a, c = token_call a) \/ method c = "POST")
                     /\ json_bodies
                          (points_as_given (field req_body "shipmentPoint")
                             (field req_body "deliveryPoint")) c)
              (calculate_by_tariff E req_body)).
  { unfold calculate_by_tariff.
    apply emits_try_catch; [| intros e; repeat emits_step].
    unfold calculate_by_tariff_try.
    do 12 (apply emits_lift_bind; intros ? ?). fields_of_gets. cbv zeta.
    match goal with
    | |- emits _ (if ?t then _ else _) => destruct t
    end; [auto with emits |].
    unfold finalShipmentPoint, finalDeliveryPoint. rewrite Hne.
    cbn [andb]. apply emits_ret_bind. apply emits_ret_bind.
    apply emits_bind.
    { destruct (truthy (field req_body "toAddress")); [| auto with emits].
      destruct (field req_body "toAddress"); auto with emits.
      destruct (negb _); auto with emits. }
    intros toLocation.
    apply emits_bind;
      [eapply emits_impl; [| apply emits_tariff_points];
       intros c' Hc'; exact Hc' |].
    intros result.
    repeat first
      [ emits_step
      | match goal with
        | |- emits _ (if ?t then _ else _) => destruct t
        end ]. }
  pose proof (emits_sent _ _ w c Hem Hs) as [H1 H2].
  split; [exact H1 |]. intros v Hb.
  unfold json_bodies in H2. rewrite Hb in H2. exact H2.
Qed.

(* ================================================================= *)
(** ** The answer of the single-tariff quote *)

Lemma replies_lift_bind {A} (P : reply -> Prop) (o : outcome A)
    (k : A -> M reply) :
  (forall a, o = Ok a -> replies P (k a)) -> replies P (bind (lift o) k).
Proof.
  intros H w. destruct o as [a | e]; [apply (H a eq_refl) | exact I].
Qed.

Lemma replies_try_catch (P : reply -> Prop) m h :
  replies P m -> (forall e, replies P (h e)) -> replies P (try_catch m h).
Proof.
  intros Hm Hh w. unfold try_catch. specialize (Hm w).
  destruct (m w) as [[r | e] w1]; cbn [fst] in *; [exact Hm | apply Hh].
Qed.

Lemma lookup_clean_dropped k ms :
  (forall x, In (k, x) ms -> is_undefined x = true) ->
  lookup k (clean_members ms) = None.
Proof.
  induction ms as [| [k' y] rest IH]; intros H; [reflexivity |].
  rewrite clean_members_cons.
  destruct (is_undefined y) eqn:Hy.
  - apply IH. intros x Hx. apply H. right. exact Hx.
  - cbn [lookup]. destruct (String.eqb k k') eqn:Hk.
    + apply String.eqb_eq in Hk. subst k'.
      rewrite (H y (or_introl eq_refl)) in Hy. discriminate.
    + apply IH. intros x Hx. apply H. right. exact Hx.
Qed.

(** X26.  When [POST /calculate-by-tariff] answers 200, the answer says
    [success], and it carries the answer of the carrier as [_raw] exactly
    when the server does not run in production. *)
Theorem raw_answer_outside_production E req_body w r :
  fst (calculate_by_tariff E req_body w) = Ok r ->
  http_status r = 200 ->
  field (json r) "success" = VBool true
  /\ has_key "_raw" (json r)
     = negb (string_eq_opt (NODE_ENV E) "production").
Proof.
  intros Hr H200.
  assert (Hrep :
            replies (fun r =>
                       http_status r = 200 ->
                       field (json r) "success" = VBool true
                       /\ has_key "_raw" (json r)
                          = negb (string_eq_opt (NODE_ENV E) "production"))
              (calculate_by_tariff E req_body)).
  { unfold calculate_by_tariff.
    apply replies_try_catch;
      [| intros e; apply replies_bind; intros _; apply replies_ret;
         cbn [http_status]; discriminate].
    unfold calculate_by_tariff_try.
    do 12 (apply replies_bind; intros ?). cbv zeta.
    apply replies_if; [apply replies_ret; cbn [http_status]; discriminate |].
    do 4 (apply replies_bind; intros ?).
    match goal with
    | |- replies _ (bind (console_write _ [_; AValue ?x]) _) =>
        rename x into result
    end.
    apply replies_bind; intros _.
    apply replies_lift_bind. intros tariff_code Hget.
    apply get_Ok_not_nullish in Hget.
    do 11 (apply replies_bind; intros ?).
    apply replies_ret. intros _. cbn [json].
    split; [apply (field_clean "success" _ (VBool true)); reflexivity |].
    destruct (negb (string_eq_opt (NODE_ENV E) "production")).
    - eapply clean_has_key; [reflexivity |].
      destruct result; try discriminate Hget; reflexivity.
    - rewrite json_clean_obj. cbn [has_key].
      rewrite lookup_clean_dropped; [reflexivity |].
      intros x Hx. cbn [In] in Hx.
      repeat match type of Hx with
             | _ \/ _ => destruct Hx as [Hx | Hx]
             end;
        first [ contradiction
              | discriminate Hx
              | inversion Hx; reflexivity ]. }
  specialize (Hrep w). rewrite Hr in Hrep. exact (Hrep H200).
Qed.

(* ================================================================= *)
(** ** The language of the tariff list *)

Lemma valid_lang_text lang :
  valid_lang lang = true ->
  exists s, lang = VStr s /\ In s ["rus"; "eng"; "zho"].
Proof.
  destruct lang as [| | | | s | |]; try discriminate. cbn [valid_lang].
  intros H. exists s. split; [reflexivity |].
  apply orb_prop in H. destruct H as [H | H];
    [apply orb_prop in H; destruct H as [H | H] |];
    apply String.eqb_eq in H; subst s; cbn; tauto.
Qed.

(** X27.  All that [GET /tariffs] sends is the token exchange, a GET whose
    [X-User-Lang] header is one of [rus], [eng] and [zho], the language
    asked for and [rus] when none is, and the quote that [getTariffs]
    falls back on, with its default cities. *)
Theorem tariffs_handler_language E query w c :
  sent (get_tariffs E query) w c ->
  (exists a, c = token_call a)
  \/ (reads c
      /\ exists s,
          In s ["rus"; "eng"; "zho"]
          /\ assoc "X-User-Lang" (headers c) = Some s
          /\ or_default (field query "lang") (VStr "rus") = VStr s)
  \/ (method c = "POST" /\ body c = JsonBody (fallback_body VUndefined)).
Proof.
  apply (emits_sent
           (fun c =>
              (exists a, c = token_call a)
              \/ (reads c
                  /\ exists s,
                      In s ["rus"; "eng"; "zho"]
                      /\ assoc "X-User-Lang" (headers c) = Some s
                      /\ or_default (field query "lang") (VStr "rus") = VStr s)
              \/ (method c = "POST"
                  /\ body c = JsonBody (fallback_body VUndefined)))).
  unfold get_tariffs.
  apply emits_try_catch; [| intros e; apply emits_handler_catch].
  apply emits_lift_bind. intros lang Hlang.
  apply get_default_Ok in Hlang.
  destruct (valid_lang lang) eqn:Hv; cbn [negb];
    [| apply emits_validation_failed].
  destruct (valid_lang_text lang Hv) as [s [Hs Hin]].
  apply emits_bind; [| intros tariffs; apply emits_send].
  eapply emits_impl; [| apply emits_getTariffs].
  intros c' [Ht | [[Hr [_ Hh]] | [Hm [_ Hb]]]];
    [left; exact Ht | right; left | right; right; auto].
  split; [exact Hr |]. exists s. split; [exact Hin |].
  rewrite Hh, <- Hlang, Hs. auto.
Qed.

(* ================================================================= *)
(** ** Further runs *)

(** A token granted for an hour at instant 1025 is served from the cache
    one minute after the start. *)
Lemma token_lifetime_run :
  fst (getToken (runtime carrier) (start 1000)) = Ok (VStr "tok-1")
  /\ getToken (runtime carrier) a_minute_later
     = (Ok (VStr "tok-1"), a_minute_later).
Proof.
  pose proof (token_lifetime (runtime carrier) (start 1000)
                (answer_of token_answer) token_answer 3600
                eq_refl eq_refl eq_refl eq_refl eq_refl eq_refl eq_refl) as H.
  cbv zeta in H.
  assert (Hne : stored_expiry
                  (clock (fetched (runtime carrier)
                            (token_call (auth (client (start 1000))))
                            (start 1000))) 3600 <> 0)
    by (vm_compute; discriminate).
  destruct (H eq_refl Hne) as [H1 [_ H3]].
  split; [exact H1 |].
  assert (Hl : later (snd (getToken (runtime carrier) (start 1000)))
                 a_minute_later) by (split; reflexivity).
  destruct (H3 a_minute_later Hl) as [Hc _].
  apply Hc. vm_compute. reflexivity.
Defined.

(** A carrier that cannot be reached. *)
Lemma getToken_network_failure_run :
  fst (getToken (runtime unreachable) (start 1000))
  = Throw (TypeError "fetch failed").
Proof.
  destruct (getToken_network_failure (runtime unreachable) (start 1000)
              "fetch failed" eq_refl eq_refl) as [w' [Hrun _]].
  rewrite Hrun. reflexivity.
Defined.

(** A token answer whose lifetime is an object. *)
Lemma getToken_lifetime_not_a_number_run :
  fst (getToken (runtime vague) (start 1000))
  = Throw (mkError KRangeError "Invalid time value")
  /\ token (auth (client (snd (getToken (runtime vague) (start 1000)))))
     = VStr "tok-1".
Proof.
  destruct (getToken_lifetime_not_a_number (runtime vague) (start 1000)
              (answer_of vague_answer) vague_answer
              eq_refl eq_refl eq_refl eq_refl eq_refl eq_refl)
    as [w' [Hrun [Htok _]]].
  rewrite Hrun. split; [reflexivity | exact Htok].
Defined.

(** An environment with its three variables, and one without the
    password. *)
Lemma configured_client_run :
  cdekClient full_env = Ok fresh_client
  /\ missingVars no_password = ["CDEK_SECURE_PASSWORD"]
  /\ ~ (exists c, cdekClient no_password = Ok c).
Proof.
  destruct (configured_client full_env) as [[Hfull _] _].
  destruct (configured_client no_password) as [[_ Hnone] _].
  split; [| split].
  - destruct (Hfull eq_refl) as [c Hc]. rewrite Hc. vm_compute in Hc.
    injection Hc as <-. reflexivity.
  - reflexivity.
  - intros Hc. apply Hnone in Hc. vm_compute in Hc. discriminate Hc.
Defined.

(** A request to a carrier that refuses the credentials. *)
Lemma request_without_token_run :
  fst (request (runtime refusing) "/orders" [] no_options (start 1000))
  = Throw (Error "Ошибка авторизации: 401 bad credentials").
Proof.
  destruct (request_without_token (runtime refusing) "/orders" [] no_options
              (start 1000) refusal eq_refl eq_refl eq_refl)
    as [w' [Hrun _]].
  rewrite Hrun. reflexivity.
Defined.

(** A request one minute after the first exchange. *)
Lemma request_with_cached_token_run :
  trace (snd (request (runtime carrier) "/calculator/tariffs" [] english
                a_minute_later))
  = [token_call (auth fresh_client); english_call].
Proof.
  pose proof (request_with_cached_token (runtime carrier)
                "/calculator/tariffs" [] english a_minute_later eq_refl) as H.
  cbv zeta in H. destruct H as [Ht _]. rewrite Ht. vm_compute. reflexivity.
Defined.

(** A header of the caller beside the two defaults. *)
Lemma request_headers_run :
  assoc "X-User-Lang" (headers english_call) = Some "eng".
Proof.
  assert (Hnd : NoDup (map fst (opt_headers english)))
    by (repeat constructor; cbn; tauto).
  assert (Hs : sent (request (runtime carrier) "/calculator/tariffs" []
                       english) a_minute_later english_call)
    by (exists [], []; vm_compute; reflexivity).
  destruct (request_headers (runtime carrier) "/calculator/tariffs" []
              english a_minute_later english_call Hnd Hs)
    as [[a Ha] | [tok Hk]].
  - vm_compute in Ha. discriminate Ha.
  - rewrite (Hk "X-User-Lang"). reflexivity.
Defined.

(** A search for a city by name. *)
Lemma searchCities_reads_run :
  reads cities_call
  /\ exists e,
      searchCities (runtime carrier) (VStr "Москва") VUndefined VNull
        (start 1000) = (Throw e, start 1000).
Proof.
  destruct (searchCities_reads (runtime carrier) (VStr "Москва") VUndefined
              VUndefined (start 1000)) as [H _].
  destruct (searchCities_reads (runtime carrier) (VStr "Москва") VUndefined
              VNull (start 1000)) as [_ Hnull].
  split; [| exact (Hnull eq_refl)].
  assert (Hs : sent (searchCities (runtime carrier) (VStr "Москва") VUndefined
                       VUndefined) (start 1000) cities_call)
    by (exists [token_call (auth fresh_client)], []; vm_compute; reflexivity).
  destruct (H cities_call Hs) as [Ht | [Hr _]]; [discriminate Ht | exact Hr].
Defined.

(** The offices of a city, with a language of the caller's. *)
Lemma getOffices_reads_run :
  assoc "lang" (query offices_call) = Some "eng"
  /\ assoc "city_code" (query offices_call) = Some "44".
Proof.
  assert (Hnd : NoDup (map fst [("lang", VStr "eng"); ("type", VStr "PVZ")]))
    by (repeat constructor; cbn; intuition discriminate).
  destruct (getOffices_reads (runtime carrier) (VNum (Fin 44))
              [("lang", VStr "eng"); ("type", VStr "PVZ")] (start 1000) Hnd)
    as [H _].
  assert (Hs : sent (getOffices (runtime carrier) (VNum (Fin 44))
                       [("lang", VStr "eng"); ("type", VStr "PVZ")])
                 (start 1000) offices_call)
    by (exists [token_call (auth fresh_client)], []; vm_compute; reflexivity).
  destruct (H offices_call Hs) as [Ht | [_ [_ Hq]]]; [discriminate Ht |].
  split; [rewrite (Hq "lang") | rewrite (Hq "city_code")]; reflexivity.
Defined.

(** The direct call of the tariff list in English. *)
Lemma getTariffs_calls_run : reads english_call.
Proof.
  assert (Hs : sent (getTariffs (runtime carrier) (VStr "eng") VUndefined)
                 a_minute_later english_call)
    by (exists []; eexists; vm_compute; reflexivity).
  destruct (getTariffs_calls (runtime carrier) (VStr "eng") VUndefined
              a_minute_later english_call Hs)
    as [[a Ha] | [[Hr _] | [Hm _]]].
  - vm_compute in Ha. discriminate Ha.
  - exact Hr.
  - discriminate Hm.
Defined.

(** The tariff list of a carrier without [/calculator/tariffs]. *)
Lemma getTariffs_falls_back_on_404_run :
  fst (getTariffs (runtime carrier) VUndefined VUndefined a_minute_later)
  = Ok (VArr (map tariff_entry quoted_tariffs)).
Proof.
  pose proof (getTariffs_falls_back_on_404 (runtime carrier) VUndefined
                VUndefined a_minute_later not_found) as H.
  cbv zeta in H.
  destruct (H eq_refl eq_refl eq_refl eq_refl eq_refl) as [_ Hres].
  apply (Hres (answer_of (VObj [("tariff_codes", VArr quoted_tariffs)]))
           (VObj [("tariff_codes", VArr quoted_tariffs)]) quoted_tariffs);
    try reflexivity.
  repeat constructor.
Defined.

Lemma tariff_quote_sent :
  sent (calculateDeliveryByTariff (runtime carrier) tariff_quote) (start 1000)
    tariff_quote_call.
Proof.
  exists [token_call (auth fresh_client)], []. vm_compute. reflexivity.
Defined.

Lemma tariff_quote_body :
  body tariff_quote_call = JsonBody (body_of tariff_quote_call).
Proof. vm_compute. reflexivity. Defined.

(** The quote by tariff 136: its code, its points. *)
Lemma tariff_body_fields_run :
  field (body_of tariff_quote_call) "tariff_code" = VNum (Fin 136)
  /\ field (body_of tariff_quote_call) "currency" = VNum (Fin 1)
  /\ field (body_of tariff_quote_call) "shipment_point" = VStr "MSK5"
  /\ has_key "delivery_point" (body_of tariff_quote_call) = false.
Proof.
  destruct (tariff_body_fields (runtime carrier) tariff_quote (start 1000)
              tariff_quote_call (body_of tariff_quote_call)
              tariff_quote_sent tariff_quote_body)
    as [_ [Hcode [Hcur [_ [Hdp [Hsp _]]]]]].
  rewrite Hcode, Hcur, Hdp, (Hsp eq_refl). repeat split.
Defined.

(** Its locations: an address trimmed, a blank address left out. *)
Lemma tariff_body_locations_run :
  field (body_of tariff_quote_call) "from_location"
  = VObj [("code", VStr "44"); ("address", VStr "г. Москва, ул. Ленина")]
  /\ field (body_of tariff_quote_call) "to_location"
     = VObj [("code", VStr "270")].
Proof.
  destruct (tariff_body_locations (runtime carrier) tariff_quote (start 1000)
              tariff_quote_call (body_of tariff_quote_call)
              tariff_quote_sent tariff_quote_body) as [Hfrom Hto].
  rewrite Hfrom, Hto. split; reflexivity.
Defined.

(** Its date, and a date that is a number. *)
Lemma tariff_body_date_run :
  field (body_of tariff_quote_call) "date" = VStr "2024-01-15T12:30:45+0300"
  /\ exists e,
      calculateDeliveryByTariff (runtime carrier) dated_by_number (start 1000)
      = (Throw e, start 1000).
Proof.
  destruct (tariff_body_date (runtime carrier) tariff_quote (start 1000))
    as [Hdate _].
  destruct (tariff_body_date (runtime carrier) dated_by_number (start 1000))
    as [_ [_ Hthrows]].
  split.
  - rewrite (Hdate tariff_quote_call (body_of tariff_quote_call)
               "2024-01-15T12:30:45.123+0300"
               tariff_quote_sent tariff_quote_body eq_refl eq_refl).
    reflexivity.
  - apply Hthrows; [reflexivity | reflexivity |].
    intros s Hs. discriminate Hs.
Defined.

(** Its one service, reduced to code and parameter. *)
Lemma tariff_body_service_list_run :
  field (body_of tariff_quote_call) "services"
  = VArr [VObj [("code", VStr "INSURANCE"); ("parameter", VNum (Fin 1000))]].
Proof.
  assert (Hall : Forall (fun s => is_nullish s = false) [insurance])
    by (repeat constructor).
  destruct (tariff_body_service_list (runtime carrier) tariff_quote
              (start 1000) tariff_quote_call (body_of tariff_quote_call)
              [insurance] tariff_quote_sent tariff_quote_body eq_refl Hall)
    as [_ Hsome].
  rewrite Hsome; [reflexivity | discriminate].
Defined.

(** An order without a number. *)
Lemma createOrder_checks_run :
  createOrder (runtime carrier) unnumbered_order (start 1000)
  = (Throw (Error "Номер заказа обязателен"), start 1000).
Proof.
  destruct (createOrder_checks (runtime carrier) unnumbered_order (start 1000)
              eq_refl) as [H _].
  exact (H eq_refl).
Defined.

Lemma two_packages_sent :
  sent (createOrder (runtime carrier) two_packages) (start 1000)
    two_packages_call.
Proof.
  exists [token_call (auth fresh_client)], []. vm_compute. reflexivity.
Defined.

Lemma two_packages_body :
  body two_packages_call = JsonBody (body_of two_packages_call).
Proof. vm_compute. reflexivity. Defined.

(** A recipient without phones. *)
Lemma order_recipient_run :
  field (field (body_of two_packages_call) "recipient") "phones"
  = VArr [VObj [("number", VStr "undefined")]].
Proof.
  destruct (order_recipient (runtime carrier) two_packages (start 1000)
              two_packages_call (body_of two_packages_call)
              two_packages_sent two_packages_body) as [_ [_ H]].
  exact (H eq_refl).
Defined.

(** Two packages, the second without number and without weight. *)
Lemma order_packages_run :
  exists first second,
    field (body_of two_packages_call) "packages" = VArr [first; second]
    /\ field first "number" = VStr "BOX-A"
    /\ field second "number" = VStr "PACK-2"
    /\ field second "weight" = VNull.
Proof.
  destruct (order_packages (runtime carrier) two_packages (start 1000)
              two_packages_call (body_of two_packages_call)
              [VObj [("number", VStr "BOX-A"); ("weight", VNum (Fin 2000));
                     ("length", VNum (Fin 10)); ("width", VNum (Fin 20));
                     ("height", VNum (Fin 30))];
               weightless_package]
              two_packages_sent two_packages_body eq_refl)
    as [entries [Hpk [Hlen Hnth]]].
  destruct entries as [| first [| second [| third rest]]]; try discriminate Hlen.
  exists first, second. split; [exact Hpk |].
  destruct (Hnth 0%nat _ eq_refl) as [e1 [He1 [Hn1 _]]].
  destruct (Hnth 1%nat _ eq_refl) as [e2 [He2 [Hn2 [Hw2 _]]]].
  cbn [nth_error] in He1, He2.
  injection He1 as <-. injection He2 as <-.
  rewrite Hn1, Hn2, Hw2. repeat split.
Defined.

(** A request without its name, and a full request to a carrier that
    cannot be reached. *)
Lemma handlers_answer_run :
  (exists r,
      fst (get_cities (runtime carrier) (VObj []) (start 1000)) = Ok r
      /\ In (http_status r) [200; 400; 500])
  /\ exists r,
      fst (post_orders (runtime unreachable) both_destinations (start 1000))
      = Ok r
      /\ In (http_status r) [202; 400; 500].
Proof.
  destruct (handlers_answer (runtime carrier) (VObj []))
    as [Hcities _].
  destruct (handlers_answer (runtime unreachable) both_destinations)
    as [_ [_ [_ [_ [_ [_ Horders]]]]]].
  split; [apply Hcities | apply Horders].
Defined.

(** A search without a name is refused and sends nothing. *)
Lemma refusals_send_nothing_run :
  trace (snd (get_cities (runtime carrier) (VObj []) (start 1000))) = [].
Proof.
  destruct (refusals_send_nothing (runtime carrier) (VObj []))
    as [Hcities _].
  specialize (Hcities (start 1000)).
  change (fst (get_cities (runtime carrier) (VObj []) (start 1000)))
    with (Ok (mkReply 400
                (VObj [("error",
                        VStr ("Параметр " +++ quoted "q"
                                +++ " (название города) обязателен"))])))
    in Hcities.
  exact (Hcities eq_refl).
Defined.

(** An order with a shipment point only. *)
Lemma order_without_destination_run :
  fst (post_orders (runtime carrier) shipment_only (start 1000))
  = Ok (mkReply 500
          (VObj [("error", VStr "Ошибка при создании заказа");
                 ("message",
                  VStr "Необходимо указать либо deliveryPoint, либо toLocation")])).
Proof.
  destruct (order_without_destination (runtime carrier) shipment_only
              (start 1000) eq_refl eq_refl eq_refl eq_refl eq_refl eq_refl
              eq_refl eq_refl eq_refl) as [e [_ [Hrun _]]].
  assert (Hc : fst (post_orders (runtime carrier) shipment_only (start 1000))
               = Ok (mkReply 500
                       (VObj [("error", VStr "Ошибка при создании заказа");
                              ("message",
                               VStr "Необходимо указать либо deliveryPoint, либо toLocation")])))
    by (vm_compute; reflexivity).
  rewrite Hrun. rewrite Hc in Hrun. injection Hrun as Hm.
  rewrite <- Hm. reflexivity.
Defined.

(** The quote of [POST /calculate], and of one whose origin is no number. *)
Lemma post_calculate_sends_run :
  body_of (call_of (post_calculate (runtime carrier) calculate_request) 1)
  = sent_quote "44" "270" (Fin 2000) (Fin 10) (Fin 20) (Fin 30)
  /\ field (field (body_of (call_of (post_calculate (runtime carrier)
                                       calculate_from_nowhere) 1))
              "from_location") "code"
     = VStr "NaN".
Proof.
  assert (Hs : sent (post_calculate (runtime carrier) calculate_request)
                 (start 1000)
                 (call_of (post_calculate (runtime carrier) calculate_request)
                    1))
    by (exists [token_call (auth fresh_client)], []; vm_compute; reflexivity).
  assert (Hs' : sent (post_calculate (runtime carrier) calculate_from_nowhere)
                  (start 1000)
                  (call_of (post_calculate (runtime carrier)
                              calculate_from_nowhere) 1))
    by (exists [token_call (auth fresh_client)], []; vm_compute; reflexivity).
  destruct (post_calculate_sends (runtime carrier) calculate_request
              (start 1000) _ (body_of (call_of (post_calculate (runtime carrier)
                                                  calculate_request) 1))
              Hs ltac:(vm_compute; reflexivity)) as [Hv _].
  destruct (post_calculate_sends (runtime carrier) calculate_from_nowhere
              (start 1000) _
              (body_of (call_of (post_calculate (runtime carrier)
                                   calculate_from_nowhere) 1))
              Hs' ltac:(vm_compute; reflexivity)) as [_ [_ [_ [_ Hnan]]]].
  split; [rewrite Hv; reflexivity | exact (Hnan eq_refl)].
Defined.

(** The quote of [GET /calculate]. *)
Lemma get_calculate_sends_run :
  body_of (call_of (get_calculate (runtime carrier) calculate_request) 1)
  = sent_quote "44" "270" (Fin 2000) (Fin 10) (Fin 20) (Fin 30).
Proof.
  assert (Hs : sent (get_calculate (runtime carrier) calculate_request)
                 (start 1000)
                 (call_of (get_calculate (runtime carrier) calculate_request)
                    1))
    by (exists [token_call (auth fresh_client)], []; vm_compute; reflexivity).
  destruct (get_calculate_sends (runtime carrier) calculate_request
              (start 1000) _ (body_of (call_of (get_calculate (runtime carrier)
                                                  calculate_request) 1))
              Hs ltac:(vm_compute; reflexivity)) as [Hv _].
  rewrite Hv. reflexivity.
Defined.

(** A quote by tariff 136 with a delivery point and no shipment point. *)
Lemma other_tariffs_points_as_given_run :
  field (body_of (call_of (calculate_by_tariff (runtime carrier)
                             by_tariff_request) 1)) "delivery_point"
  = VStr "NSK7"
  /\ has_key "shipment_point"
       (body_of (call_of (calculate_by_tariff (runtime carrier)
                            by_tariff_request) 1)) = false.
Proof.
  assert (Hs : sent (calculate_by_tariff (runtime carrier) by_tariff_request)
                 (start 1000)
                 (call_of (calculate_by_tariff (runtime carrier)
                             by_tariff_request) 1))
    by (exists [token_call (auth fresh_client)], []; vm_compute; reflexivity).
  destruct (other_tariffs_points_as_given (runtime carrier) by_tariff_request
              (start 1000) _ eq_refl Hs) as [_ H].
  destruct (H (body_of (call_of (calculate_by_tariff (runtime carrier)
                                   by_tariff_request) 1))
              ltac:(vm_compute; reflexivity)) as [Hsp [_ [_ Hdp]]].
  split; [exact (Hdp eq_refl) | rewrite Hsp; reflexivity].
Defined.

(** Outside production the answer carries the answer of the carrier. *)
Lemma raw_answer_outside_production_run :
  has_key "_raw"
    (json (mkReply 200
             (match fst (calculate_by_tariff (runtime carrier)
                           by_tariff_request (start 1000)) with
              | Ok r => json r
              | Throw _ => VUndefined
              end))) = true.
Proof.
  destruct (fst (calculate_by_tariff (runtime carrier) by_tariff_request
                   (start 1000))) as [r | e] eqn:Hr;
    [| vm_compute in Hr; discriminate Hr].
  assert (H200 : http_status r = 200)
    by (vm_compute in Hr; injection Hr as <-; reflexivity).
  destruct (raw_answer_outside_production (runtime carrier) by_tariff_request
              (start 1000) r Hr H200) as [_ Hraw].
  cbn [json]. rewrite Hraw. reflexivity.
Defined.

(** The tariff list asked for without a language. *)
Lemma tariffs_handler_language_run :
  assoc "X-User-Lang"
    (headers (call_of (get_tariffs (runtime carrier) (VObj [])) 1))
  = Some "rus".
Proof.
  assert (Hs : sent (get_tariffs (runtime carrier) (VObj [])) (start 1000)
                 (call_of (get_tariffs (runtime carrier) (VObj [])) 1))
    by (exists [token_call (auth fresh_client)]; eexists;
        vm_compute; reflexivity).
  destruct (tariffs_handler_language (runtime carrier) (VObj []) (start 1000)
              _ Hs) as [[a Ha] | [[_ [s [_ [Hh Hd]]]] | [Hm _]]].
  - vm_compute in Ha. discriminate Ha.
  - rewrite Hh. vm_compute in Hd. injection Hd as <-. reflexivity.
  - vm_compute in Hm. discriminate Hm.
Defined.

(* ================================================================= *)
(** ** Location codes *)

Lemma NumberToString_safe n :
  Z.abs n <= 2 ^ 53 -> NumberToString (Fin n) = decimal n.
Proof.
  intros H. unfold NumberToString.
  replace (2 ^ 53 >=? Z.abs n) with true; [reflexivity |].
  symmetry. rewrite Z.geb_leb. apply Z.leb_le, H.
Qed.

(** Beyond 2^53: a numeral is that of the nearest double, in full below
    1e21 and with an exponent from there on. *)
Lemma NumberToString_numerals :
  NumberToString (Fin (2 ^ 53 + 1)) = "9007199254740992"
  /\ NumberToString (Fin (2 ^ 64)) = "18446744073709552000"
  /\ NumberToString (Fin (10 ^ 21)) = "1e+21"
  /\ NumberToString (Fin (10 ^ 23)) = "1e+23"
  /\ NumberToString (Fin (2 ^ 70)) = "1.1805916207174113e+21"
  /\ NumberToString (Fin (- (2 ^ 100))) = "-1.2676506002282294e+30"
  /\ NumberToString (Fin ((2 ^ 53 - 1) * 2 ^ 971)) = "1.7976931348623157e+308".
Proof. vm_compute. repeat split. Qed.

(** What is on the console does not matter to [getToken]. *)
Lemma getToken_console E w w' :
  same_run w w' ->
  fst (getToken E w) = fst (getToken E w')
  /\ same_run (snd (getToken E w)) (snd (getToken E w')).
Proof.
  destruct w as [cl ck tr con], w' as [cl' ck' tr' con'].
  unfold same_run. cbn [client clock trace]. intros [<- [<- <-]].
  unfold getToken. rewrite !bind_this_auth, !bind_Date_now.
  cbn [client clock].
  destruct (cache_valid (auth cl) ck); [repeat split |].
  unfold try_catch. rewrite !bind_fetch. cbn [trace].
  destruct (result (remote E tr (token_call (auth cl)))) as [why | r];
    [repeat split |].
  cbv beta iota zeta
      delta [fetched bind throw ret lift response_json set_token
             set_tokenExpiresAt set_auth this_auth Date_now console_write
             client clock trace console auth fst snd].
  destruct (negb (ok r)); [repeat split |].
  destruct (body_json r) as [data |]; [| repeat split].
  destruct (get data "access_token") as [tok | e]; [| repeat split].
  destruct (get data "expires_in") as [ex | e]; [| repeat split].
  match goal with
  | |- context [Date_toISOString E ?t] => destruct (Date_toISOString E t)
  end; repeat split.
Qed.

(** With a token, [request] makes its call. *)
Lemma request_sends E path q o w tok :
  fst (getToken E w) = Ok tok ->
  exists cl, sent (request E path q o) w (carrier_call cl tok path q o).
Proof.
  destruct (getToken E w) as [[t | e] w1] eqn:Hget; cbn [fst];
    [intros [= ->] | discriminate].
  exists (client w1). unfold sent.
  destruct (emits_getToken E (fun _ => True) (fun _ => I) w) as [new [Ht _]].
  rewrite Hget in Ht. cbn [snd] in Ht.
  rewrite (request_run E path q o w tok w1 Hget), answered_trace.
  cbn [fetched trace]. rewrite Ht. exists new, [].
  rewrite <- app_assoc. reflexivity.
Qed.

Lemma logged_request_sends E l xs path q o w tok :
  fst (getToken E w) = Ok tok ->
  exists cl,
    sent (bind (console_write l xs) (fun _ => request E path q o)) w
      (carrier_call cl tok path q o).
Proof.
  intros Hget.
  set (w0 := mkWorld (client w) (clock w) (trace w)
               (console w ++ [mkLog l xs])).
  assert (Hsame : same_run w w0) by (repeat split).
  destruct (getToken_console E w w0 Hsame) as [Hfst _].
  rewrite Hget in Hfst. symmetry in Hfst.
  destruct (request_sends E path q o w0 tok Hfst) as [cl Hs].
  exists cl. exact Hs.
Qed.

Lemma body_carrier_call cl tok path q m ms :
  body (carrier_call cl tok path q (mkOptions m (VObj ms) []))
  = JsonBody (json_clean (VObj ms)).
Proof. reflexivity. Qed.

Lemma calculateDelivery_body_clean E params b :
  calculateDelivery_body E params = Ok b ->
  exists ms, b = VObj ms /\ json_clean b = b.
Proof.
  unfold calculateDelivery_body. intros H.
  repeat step_ok H.
  match type of H with
  | (if ?c then _ else _) = _ => destruct c; [discriminate |]
  end.
  unwrap_ok H. rewrite json_clean_idem. rewrite json_clean_obj. eauto.
Qed.

Lemma calculateDelivery_sends E params w tok b :
  fst (getToken E w) = Ok tok ->
  calculateDelivery_body E params = Ok b ->
  sends_body (calculateDelivery E params) w b.
Proof.
  intros Hget Hb.
  destruct (calculateDelivery_body_clean E params b Hb) as [ms [Hms Hclean]].
  unfold sends_body, sent, calculateDelivery. rewrite Hb, bind_lift_Ok_eq.
  assert (Hbody : forall cl,
             body (carrier_call cl tok "/calculator/tarifflist" []
                     (mkOptions (Some "POST") b []))
             = JsonBody b).
  { intros cl. rewrite <- Hclean at 2. rewrite Hms. reflexivity. }
  destruct (negb (string_eq_opt (NODE_ENV E) "production")).
  - destruct (logged_request_sends E LLog
                [AText "CDEK API Request:"; AValue b]
                "/calculator/tarifflist" [] (mkOptions (Some "POST") b [])
                w tok Hget) as [cl Hs].
    eexists. split; [exact Hs | apply Hbody].
  - destruct (request_sends E "/calculator/tarifflist" []
                (mkOptions (Some "POST") b []) w tok Hget) as [cl Hs].
    eexists. split; [exact Hs | apply Hbody].
Qed.

Lemma calculateDeliveryByTariff_sends E params w tok b :
  fst (getToken E w) = Ok tok ->
  calculateDeliveryByTariff_body E (clock w) params = Ok b ->
  sends_body (calculateDeliveryByTariff E params) w b.
Proof.
  intros Hget Hb.
  destruct (tariff_body_members E (clock w) params b Hb) as [ms [date [Hms _]]].
  unfold sends_body, sent, calculateDeliveryByTariff.
  rewrite bind_Date_now, Hb, bind_lift_Ok_eq.
  destruct (logged_request_sends E LLog
              [AText "CDEK API Request (by tariff):"; AValue b]
              "/calculator/tariff" [] (mkOptions (Some "POST") b [])
              w tok Hget) as [cl Hs].
  eexists. split; [exact Hs |].
  rewrite Hms, json_clean_obj, body_carrier_call, <- json_clean_obj.
  rewrite json_clean_idem. reflexivity.
Qed.

Lemma createOrder_sends E params w tok b :
  fst (getToken E w) = Ok tok ->
  createOrder_body E params = Ok b ->
  sends_body (createOrder E params) w (json_clean b).
Proof.
  intros Hget Hb.
  destruct (createOrder_body_destination E params b Hb)
    as [body1 [[[_ Hms] | [_ [_ [rest Hms]]]] _]];
    unfold sends_body, sent, createOrder; rewrite Hb, bind_lift_Ok_eq;
    destruct (logged_request_sends E LLog
                [AText "CDEK API Create Order Request:"; AValue b]
                "/orders" [] (mkOptions (Some "POST") b [])
                w tok Hget) as [cl Hs];
    (eexists; split; [exact Hs |]); rewrite Hms; reflexivity.
Qed.

(** Where the destination of an order goes in the body. *)
Lemma createOrder_body_locations E params b :
  createOrder_body E params = Ok b ->
  exists ms,
    b = VObj ms
    /\ lookup "from_location" ms = None
    /\ (truthy (field params "deliveryPoint") = true ->
        lookup "to_location" ms = None)
    /\ (truthy (field params "deliveryPoint") = false ->
        exists rest,
          lookup "to_location" ms
          = Some (VObj (("code",
                         VStr (ToString (field (field params "toLocation")
                                           "code"))) :: rest))).
Proof.
  unfold createOrder_body. intros H.
  repeat first [step_ok H | step_if H]; fields_of_gets;
    repeat match type of H with
           | context [if ?c then _ else _] => destruct c
           end;
    unwrap_ok H; eexists;
    (split; [reflexivity |]);
    rewrite ?lookup_assign_same, ?lookup_assign by reflexivity;
    (split; [reflexivity |]);
    (split; [intros Hdp; first [reflexivity | congruence]
            | intros Hdp; first [congruence | eexists; reflexivity]]).
Qed.

Lemma order_location_sent E params w c v :
  sent (createOrder E params) w c ->
  body c = JsonBody v ->
  order_location params v.
Proof.
  intros Hs Hb.
  destruct (sent_order_body E params w c v Hs Hb) as [b [Hbody ->]].
  destruct (createOrder_body_locations E params b Hbody)
    as [ms [-> [Hfrom [Hpoint Hdoor]]]].
  unfold order_location. split.
  { apply has_key_clean_false. cbn [has_key]. rewrite Hfrom. reflexivity. }
  destruct (truthy (field params "deliveryPoint")); cbn [negb].
  - split; [| discriminate].
    apply has_key_clean_false. cbn [has_key]. rewrite (Hpoint eq_refl).
    reflexivity.
  - destruct (Hdoor eq_refl) as [rest Hto]. split.
    + apply (clean_has_key ms _ _ Hto). reflexivity.
    + intros _. apply code_as_string_clean. unfold code_as_string.
      rewrite field_obj, Hto. reflexivity.
Qed.

(** C4.  In every JSON body sent by the all-tariffs quote and by the
    single-tariff quote, [from_location.code] and [to_location.code] are
    the strings that [String] makes of the codes supplied.  A body sent by
    order creation has no [from_location]; it has a [to_location] exactly
    when no delivery point is given, and the code of that location is the
    string that [String] makes of the code supplied.  Such bodies are
    sent: once [getToken] gives a token, each of the three methods whose
    body can be built sends that body.  For an integer code the string is
    its decimal numeral (up to 2^53, the integers that a number holds
    exactly). *)
Theorem location_codes_are_strings E params w :
  (forall c v,
      body c = JsonBody v ->
      (sent (calculateDelivery E params) w c
       \/ sent (calculateDeliveryByTariff E params) w c ->
       code_as_string v "from_location" (field params "fromLocation")
       /\ code_as_string v "to_location" (field params "toLocation"))
      /\ (sent (createOrder E params) w c -> order_location params v))
  /\ (forall tok,
        fst (getToken E w) = Ok tok ->
        (forall b,
            calculateDelivery_body E params = Ok b ->
            sends_body (calculateDelivery E params) w b)
        /\ (forall b,
              calculateDeliveryByTariff_body E (clock w) params = Ok b ->
              sends_body (calculateDeliveryByTariff E params) w b)
        /\ (forall b,
              createOrder_body E params = Ok b ->
              sends_body (createOrder E params) w (json_clean b)))
  /\ (forall n, Z.abs n <= 2 ^ 53 -> ToString (VNum (Fin n)) = decimal n).
Proof.
  split; [| split].
  - intros c v Hb. split.
    + intros [Hs | Hs].
      * pose proof (emits_sent _ _ w c (emits_calculateDelivery E params) Hs)
          as H.
        unfold json_bodies in H. rewrite Hb in H.
        apply minimal_quote_codes, H.
      * pose proof (emits_sent _ _ w c
                      (emits_calculateDeliveryByTariff E params) Hs) as H.
        unfold json_bodies in H. rewrite Hb in H. exact H.
    + intros Hs. exact (order_location_sent E params w c v Hs Hb).
  - intros tok Hget. split; [| split]; intros b Hbody.
    + exact (calculateDelivery_sends E params w tok b Hget Hbody).
    + exact (calculateDeliveryByTariff_sends E params w tok b Hget Hbody).
    + exact (createOrder_sends E params w tok b Hget Hbody).
  - intros n Hn. cbn [ToString]. apply NumberToString_safe, Hn.
Qed.

(** The codes 44 and 270, given as numbers, in what the three methods
    send from [start 1000]. *)
Lemma location_codes_are_strings_run :
  (exists c,
      sent (calculateDelivery (runtime carrier) quote_params) (start 1000) c
      /\ field (field (body_of c) "from_location") "code" = VStr "44"
      /\ field (field (body_of c) "to_location") "code" = VStr "270")
  /\ (exists c,
        sent (calculateDeliveryByTariff (runtime carrier) tariff_quote)
          (start 1000) c
        /\ field (field (body_of c) "from_location") "code" = VStr "44"
        /\ field (field (body_of c) "to_location") "code" = VStr "270")
  /\ (exists c,
        sent (createOrder (runtime carrier) order_to_the_door) (start 1000) c
        /\ field (field (body_of c) "to_location") "code" = VStr "270"
        /\ has_key "from_location" (body_of c) = false)
  /\ ToString (VNum (Fin 270)) = "270".
Proof.
  assert (Hget : fst (getToken (runtime carrier) (start 1000))
                 = Ok (VStr "tok-1")) by (vm_compute; reflexivity).
  destruct (location_codes_are_strings (runtime carrier) quote_params
              (start 1000)) as [Hsafe1 [Hlive1 Hnum]].
  destruct (location_codes_are_strings (runtime carrier) tariff_quote
              (start 1000)) as [Hsafe2 [Hlive2 _]].
  destruct (location_codes_are_strings (runtime carrier) order_to_the_door
              (start 1000)) as [Hsafe3 [Hlive3 _]].
  destruct (Hlive1 _ Hget) as [Hquote _].
  destruct (Hlive2 _ Hget) as [_ [Htariff _]].
  destruct (Hlive3 _ Hget) as [_ [_ Horder]].
  split; [| split; [| split]].
  - destruct (calculateDelivery_body (runtime carrier) quote_params)
      as [b |] eqn:Hb; [| vm_compute in Hb; discriminate Hb].
    destruct (Hquote b eq_refl) as [c [Hs Hbody]].
    exists c. split; [exact Hs |].
    destruct (Hsafe1 c b Hbody) as [Hcodes _].
    destruct (Hcodes (or_introl Hs)) as [Hfrom Hto].
    unfold body_of. rewrite Hbody. split; [exact Hfrom | exact Hto].
  - destruct (calculateDeliveryByTariff_body (runtime carrier)
                (clock (start 1000)) tariff_quote)
      as [b |] eqn:Hb; [| vm_compute in Hb; discriminate Hb].
    destruct (Htariff b eq_refl) as [c [Hs Hbody]].
    exists c. split; [exact Hs |].
    destruct (Hsafe2 c b Hbody) as [Hcodes _].
    destruct (Hcodes (or_intror Hs)) as [Hfrom Hto].
    unfold body_of. rewrite Hbody. split; [exact Hfrom | exact Hto].
  - destruct (createOrder_body (runtime carrier) order_to_the_door)
      as [b |] eqn:Hb; [| vm_compute in Hb; discriminate Hb].
    destruct (Horder b eq_refl) as [c [Hs Hbody]].
    exists c. split; [exact Hs |].
    destruct (Hsafe3 c (json_clean b) Hbody) as [_ Hloc].
    destruct (Hloc Hs) as [Hnone [_ Hdoor]].
    unfold body_of. rewrite Hbody.
    split; [exact (Hdoor eq_refl) | exact Hnone].
  - rewrite (Hnum 270); [reflexivity | vm_compute; discriminate].
Defined.
